(** * CXSA_MCP: the correlation repository, the tool dispatcher and the agent loop

    A shallow embedding of [src/app/repository.py], [src/app/db.py],
    [src/app/mcp_server.py] and [src/client.py].

    - SQLite tables are lists of row records in rowid order; a query is a
      list expression ([List.filter] for WHERE, [order_by] for ORDER BY,
      [fetch_one] for the first row of the result set).
    - TEXT columns are [string]s (byte strings, compared as SQLite's BINARY
      collation does, byte by byte); INTEGER columns are [Z]; nullable
      columns are [option]s; REAL columns and the values of SQLite's
      [julianday] are idealised as exact rationals [Q].
    - Python [str] values handled by the client are lists of code points,
      so that [len] and slicing count characters as Python does.
    - JSON values are [json] trees; a Python dict with string keys is the
      list of its items, in insertion order and with distinct keys. *)

From Stdlib Require Import ZArith QArith Qabs Qround List String Ascii Bool Lia Lqa.
From Stdlib Require Import Sorting.Sorted Sorting.Permutation.
From stdpp Require Import gmap strings.
Import ListNotations.

Local Open Scope string_scope.
Local Open Scope Z_scope.
Local Open Scope list_scope.

(** * Part I: the embedding *)

(** ** Text comparison (SQLite BINARY collation) *)

Module Text.

Definition leb (a b : string) : bool := String.leb a b.
Definition le (a b : string) : Prop := leb a b = true.

End Text.

(** ** ORDER BY

    SQLite leaves the order of rows with equal keys unspecified; the model
    keeps them in table order (a stable insertion sort).  The theorems below
    only use that the result is a sorted permutation. *)

Section SortBy.
Context {A : Type} (leb : A -> A -> bool).

Fixpoint insert_row (x : A) (l : list A) : list A :=
  match l with
  | [] => [x]
  | y :: l' => if leb x y then x :: l else y :: insert_row x l'
  end.

Fixpoint sort_by (l : list A) : list A :=
  match l with
  | [] => []
  | x :: l' => insert_row x (sort_by l')
  end.

End SortBy.

(** [ORDER BY key] on a TEXT column, ascending. *)
Definition order_by {A : Type} (key : A -> string) : list A -> list A :=
  sort_by (fun x y => Text.leb (key x) (key y)).

Definition ascending {A : Type} (key : A -> string) : list A -> Prop :=
  Sorted (fun x y => Text.le (key x) (key y)).

(** [ORDER BY key DESC] on an INTEGER column. *)
Definition order_by_desc {A : Type} (key : A -> Z) : list A -> list A :=
  sort_by (fun x y => key y <=? key x).

Definition descending {A : Type} (key : A -> Z) : list A -> Prop :=
  Sorted (fun x y => key y <= key x).

(** ** The store: the five tables of [_SCHEMA] in [src/app/db.py] *)

Record user_row := {
  u_id : Z; u_name : string; u_email : string; u_phone : option string;
  u_address_line : option string; u_city : option string;
  u_state : option string; u_zip_code : option string;
  u_country : string; u_created_at : string }.

Record order_row := {
  o_id : Z; o_user_id : Z; o_item : string; o_quantity : Z;
  o_unit_price : Q; o_total_amount : Q; o_status : string;
  o_payment_method : option string; o_shipping_address : option string;
  o_tracking_number : option string; o_ordered_at : string }.

Record complaint_row := {
  c_id : Z; c_user_id : Z; c_order_id : option Z; c_category : string;
  c_priority : string; c_status : string; c_subject : string;
  c_details : string; c_resolution : option string;
  c_assigned_to : option string; c_created_at : string;
  c_resolved_at : option string }.

Record payment_log_row := {
  p_id : Z; p_order_id : Z; p_transaction_id : string; p_event_type : string;
  p_amount : Q; p_currency : string; p_gateway : string; p_status : string;
  p_error_message : option string; p_logged_at : string }.

Record logistics_log_row := {
  l_id : Z; l_order_id : Z; l_tracking_number : option string;
  l_carrier : string; l_event_type : string; l_location : option string;
  l_notes : option string; l_logged_at : string }.

Record store := {
  users : list user_row;
  orders : list order_row;
  complaints : list complaint_row;
  payment_logs : list payment_log_row;
  logistics_logs : list logistics_log_row }.

(** [fetch_one] and [fetch_all] of [src/app/db.py]: the first row of the
    result set (or [None]), and every row. *)
Definition fetch_one {A : Type} (rows : list A) : option A := List.hd_error rows.
Definition fetch_all {A : Type} (rows : list A) : list A := rows.

(** Python truthiness of an [int | None] value, as tested by [if order_id:]. *)
Definition truthy (v : option Z) : bool :=
  match v with
  | Some n => negb (n =? 0)
  | None => false
  end.

(** The queries of [get_complaint_context_logs]. *)
Definition complaint_by_id (st : store) (cid : Z) : list complaint_row :=
  List.filter (fun c => c_id c =? cid) (complaints st).
Definition user_by_id (st : store) (uid : Z) : list user_row :=
  List.filter (fun u => u_id u =? uid) (users st).
Definition order_by_id (st : store) (oid : Z) : list order_row :=
  List.filter (fun o => o_id o =? oid) (orders st).
Definition payment_logs_of (st : store) (oid : Z) : list payment_log_row :=
  List.filter (fun p => p_order_id p =? oid) (payment_logs st).
Definition logistics_logs_of (st : store) (oid : Z) : list logistics_log_row :=
  List.filter (fun l => l_order_id l =? oid) (logistics_logs st).

Record context_bundle := {
  cb_complaint : complaint_row;
  cb_window_hours : Z;
  cb_payment_logs : list payment_log_row;
  cb_logistics_logs : list logistics_log_row;
  cb_order : option order_row;
  cb_user : option user_row }.

(** [get_complaint_context_logs] ([src/app/repository.py], lines 320-364).
    [None] is Python's [None]; [int(window_hours)] is the identity on an
    [int] argument. *)
Definition get_complaint_context_logs (st : store) (complaint_id : Z)
    (window_hours : Z) : option context_bundle :=
  match fetch_one (complaint_by_id st complaint_id) with
  | None => None
  | Some complaint =>
      let order_id := c_order_id complaint in
      let wh := window_hours in
      let user := fetch_one (user_by_id st (c_user_id complaint)) in
      if truthy order_id then
        let oid := match order_id with Some n => n | None => 0 end in
        Some {| cb_complaint := complaint;
                cb_window_hours := wh;
                cb_payment_logs :=
                  fetch_all (order_by p_logged_at (payment_logs_of st oid));
                cb_logistics_logs :=
                  fetch_all (order_by l_logged_at (logistics_logs_of st oid));
                cb_order := fetch_one (order_by_id st oid);
                cb_user := user |}
      else
        Some {| cb_complaint := complaint;
                cb_window_hours := wh;
                cb_payment_logs := [];
                cb_logistics_logs := [];
                cb_order := None;
                cb_user := user |}
  end.

(** Row constructors for examples: the columns that the queries do not read
    take fixed values. *)
Definition mk_user (id : Z) (name city : string) : user_row :=
  {| u_id := id; u_name := name; u_email := String.append name "@example.in";
     u_phone := None; u_address_line := None; u_city := Some city;
     u_state := None; u_zip_code := None; u_country := "India";
     u_created_at := "2024-01-01T00:00:00" |}.

Definition mk_order (id uid : Z) (amount : Q) (status ordered_at : string)
    : order_row :=
  {| o_id := id; o_user_id := uid; o_item := "item"; o_quantity := 1;
     o_unit_price := amount; o_total_amount := amount; o_status := status;
     o_payment_method := Some "upi"; o_shipping_address := None;
     o_tracking_number := None; o_ordered_at := ordered_at |}.

Definition mk_complaint (id uid : Z) (oid : option Z) (created_at : string)
    : complaint_row :=
  {| c_id := id; c_user_id := uid; c_order_id := oid;
     c_category := "delivery"; c_priority := "high"; c_status := "open";
     c_subject := "late"; c_details := "late"; c_resolution := None;
     c_assigned_to := None; c_created_at := created_at;
     c_resolved_at := None |}.

Definition mk_payment (id oid : Z) (event_type logged_at : string)
    : payment_log_row :=
  {| p_id := id; p_order_id := oid; p_transaction_id := "TXN";
     p_event_type := event_type; p_amount := 100; p_currency := "INR";
     p_gateway := "razorpay"; p_status := "success";
     p_error_message := None; p_logged_at := logged_at |}.

Definition mk_logistics (id oid : Z) (carrier event_type logged_at : string)
    : logistics_log_row :=
  {| l_id := id; l_order_id := oid; l_tracking_number := None;
     l_carrier := carrier; l_event_type := event_type; l_location := None;
     l_notes := None; l_logged_at := logged_at |}.

(** What the schema and the connection set-up of [src/app/db.py] keep true
    of every database the repository reads.  Order ids are assigned by
    AUTOINCREMENT (no INSERT of the code names an id), so they start at 1;
    and every connection runs [PRAGMA foreign_keys=ON], so the [order_id]
    of a complaint, when it is not NULL, is the id of an order. *)
Definition order_ids_from_one (st : store) : bool :=
  forallb (fun o => 1 <=? o_id o) (orders st).

Definition complaint_orders_exist (st : store) : bool :=
  forallb
    (fun c => match c_order_id c with
              | Some oid => existsb (fun o => o_id o =? oid) (orders st)
              | None => true
              end)
    (complaints st).

(** The scenario of the specification: complaint 7 of user 5 on order 15,
    and a complaint without an order. *)
Definition store_scenario : store :=
  {| users := [mk_user 5 "rajesh" "Delhi"];
     orders := [mk_order 15 5 1200 "shipped" "2024-03-01T09:00:00";
                mk_order 16 5 300 "pending" "2024-03-01T09:05:30"];
     complaints := [mk_complaint 7 5 (Some 15) "2024-03-05T10:00:00";
                    mk_complaint 8 5 None "2024-03-06T10:00:00"];
     payment_logs :=
       [mk_payment 2 15 "captured" "2024-03-01T09:05:00";
        mk_payment 1 15 "authorized" "2024-03-01T09:01:00";
        mk_payment 3 16 "captured" "2024-03-01T09:06:00"];
     logistics_logs :=
       [mk_logistics 1 15 "BlueDart" "dispatched" "2024-03-02T08:00:00";
        mk_logistics 2 15 "BlueDart" "in_transit" "2024-03-03T08:00:00";
        mk_logistics 3 15 "BlueDart" "delivered" "2024-03-04T18:00:00"] |}.

(** ** SQL scalar and aggregate functions *)

(** [ROUND(x, digits)]: to [digits] decimals, halves away from zero. *)
Definition sql_round (digits : Z) (x : Q) : Q :=
  let scale := 10 ^ digits in
  let n := Qfloor (Qabs x * inject_Z scale + (1 # 2)) in
  Qred (Qmake (if Qle_bool 0 x then n else - n) (Z.to_pos scale)).

(** [MIN] and [MAX] over a TEXT column: NULL on no rows. *)
Definition min_text (l : list string) : option string :=
  match l with
  | [] => None
  | x :: r => Some (fold_left (fun m y => if Text.leb y m then y else m) r x)
  end.

Definition max_text (l : list string) : option string :=
  match l with
  | [] => None
  | x :: r => Some (fold_left (fun m y => if Text.leb m y then y else m) r x)
  end.

(** [AVG] skips NULLs and is NULL when nothing is left. *)
Definition sql_avg (l : list (option Q)) : option Q :=
  let vals := List.flat_map (fun v => match v with Some q => [q] | None => [] end) l in
  match vals with
  | [] => None
  | _ => Some (fold_right Qplus 0%Q vals / inject_Z (Z.of_nat (List.length vals)))%Q
  end.

(** ** Delivery timing: [get_order_delivery_time] and [get_carrier_performance] *)

Record delivery_time_row := {
  dt_order_id : Z; dt_item : string; dt_tracking_number : option string;
  dt_ordered_at : string;
  dt_shipped_at : option string; dt_delivered_at : option string;
  dt_processing_hours : option Q; dt_shipping_hours : option Q;
  dt_total_hours : option Q }.

Record carrier_row := {
  cp_carrier : string; cp_total_events : Z; cp_orders_handled : Z;
  cp_avg_delivery_hours : option Q }.

Section Julian.
(** SQLite's [julianday]: the Julian day number of a timestamp, NULL on text
    that is not a date.  It is a function of the database engine, so the
    repository functions take it as a parameter. *)
Variable julianday : string -> option Q.

Definition julianday_null (t : option string) : option Q :=
  match t with
  | Some s => julianday s
  | None => None
  end.

(** [(julianday(a) - julianday(b)) * 24], NULL when either side is. *)
Definition hours_between (a b : option string) : option Q :=
  match julianday_null a, julianday_null b with
  | Some ja, Some jb => Some ((ja - jb) * 24)%Q
  | _, _ => None
  end.

(** The [dispatch] and [delivery] sub-queries, joined ON [order_id = o.id]. *)
Definition dispatch_shipped_at (st : store) (oid : Z) : option string :=
  min_text (List.map l_logged_at
    (List.filter (fun l => (l_order_id l =? oid) && (l_event_type l =? "dispatched")%string)
       (logistics_logs st))).

Definition delivery_delivered_at (st : store) (oid : Z) : option string :=
  max_text (List.map l_logged_at
    (List.filter (fun l => (l_order_id l =? oid) && (l_event_type l =? "delivered")%string)
       (logistics_logs st))).

Definition delivery_time_of (st : store) (o : order_row) : delivery_time_row :=
  let shipped_at := dispatch_shipped_at st (o_id o) in
  let delivered_at := delivery_delivered_at st (o_id o) in
  {| dt_order_id := o_id o; dt_item := o_item o;
     dt_tracking_number := o_tracking_number o;
     dt_ordered_at := o_ordered_at o;
     dt_shipped_at := shipped_at;
     dt_delivered_at := delivered_at;
     dt_processing_hours :=
       option_map (sql_round 1) (hours_between shipped_at (Some (o_ordered_at o)));
     dt_shipping_hours :=
       option_map (sql_round 1) (hours_between delivered_at shipped_at);
     dt_total_hours :=
       option_map (sql_round 1) (hours_between delivered_at (Some (o_ordered_at o))) |}.

(** [get_order_delivery_time] ([src/app/repository.py], lines 649-682). *)
Definition get_order_delivery_time (st : store) (order_id : Z)
    : option delivery_time_row :=
  fetch_one (List.map (delivery_time_of st) (order_by_id st order_id)).

(** The [d] sub-query of [get_carrier_performance]: per order, the first
    event of any type and the last "delivered" event. *)
Definition d_first_event (st : store) (oid : Z) : option string :=
  min_text (List.map l_logged_at (logistics_logs_of st oid)).

Definition d_delivered_at (st : store) (oid : Z) : option string :=
  max_text
    (List.flat_map
       (fun l => if (l_event_type l =? "delivered")%string then [l_logged_at l] else [])
       (logistics_logs_of st oid)).

(** The CASE expression under AVG: the span of the order an event row
    belongs to, NULL unless both anchors are there. *)
Definition delivery_span (st : store) (oid : Z) : option Q :=
  match d_delivered_at st oid, d_first_event st oid with
  | Some delivered_at, Some first_event =>
      hours_between (Some delivered_at) (Some first_event)
  | _, _ => None
  end.

Definition carrier_events (st : store) (carrier : string) : list logistics_log_row :=
  List.filter (fun l => (l_carrier l =? carrier)%string) (logistics_logs st).

Definition carrier_orders (st : store) (carrier : string) : list Z :=
  nodup Z.eq_dec (List.map l_order_id (carrier_events st carrier)).

(** One output row of the GROUP BY [ll.carrier]: the aggregates run over the
    carrier's event rows [ll], each joined to the [d] row of its order. *)
Definition carrier_group (st : store) (carrier : string) : carrier_row :=
  let rows := carrier_events st carrier in
  {| cp_carrier := carrier;
     cp_total_events := Z.of_nat (List.length rows);
     cp_orders_handled := Z.of_nat (List.length (carrier_orders st carrier));
     cp_avg_delivery_hours :=
       option_map (sql_round 1)
         (sql_avg (List.map (fun ll => delivery_span st (l_order_id ll)) rows)) |}.

(** [get_carrier_performance] ([src/app/repository.py], lines 619-646). *)
Definition get_carrier_performance (st : store) : list carrier_row :=
  fetch_all
    (order_by_desc cp_orders_handled
       (List.map (carrier_group st)
          (nodup string_dec (List.map l_carrier (logistics_logs st))))).

(** The average as the specification words it: the per-order span averaged
    over the carrier's orders that have both anchors, each order once. *)
Definition spec_avg_delivery_hours (st : store) (carrier : string) : option Q :=
  option_map (sql_round 1)
    (sql_avg (List.map (delivery_span st) (carrier_orders st carrier))).

End Julian.

(** An instance of [julianday] for timestamps written [YYYY-MM-DD],
    [YYYY-MM-DD HH:MM:SS] or [YYYY-MM-DDTHH:MM:SS], computed as SQLite's
    [computeJD] does. *)
Definition digit_of (c : ascii) : option Z :=
  let n := Z.of_N (N_of_ascii c) in
  if (48 <=? n) && (n <=? 57) then Some (n - 48) else None.

Fixpoint read_digits (k : nat) (acc : Z) (s : string) : option (Z * string) :=
  match k with
  | O => Some (acc, s)
  | S k' =>
      match s with
      | String c s' =>
          match digit_of c with
          | Some d => read_digits k' (10 * acc + d) s'
          | None => None
          end
      | EmptyString => None
      end
  end.

Definition expect (c : ascii) (s : string) : option string :=
  match s with
  | String c' s' => if Ascii.eqb c c' then Some s' else None
  | EmptyString => None
  end.

Definition julian_day_number (Y M D h m sec : Z) : Q :=
  let Y' := if M <=? 2 then Y - 1 else Y in
  let M' := if M <=? 2 then M + 12 else M in
  let A := Y' / 100 in
  let B := 2 - A + A / 4 in
  let X1 := 36525 * (Y' + 4716) / 100 in
  let X2 := 306001 * (M' + 1) / 10000 in
  Qred (inject_Z (X1 + X2 + D + B) - (15245 # 10)
        + Qmake (h * 3600 + m * 60 + sec) 86400).

Definition read_time (s : string) : option (Z * Z * Z) :=
  match read_digits 2 0 s with
  | Some (h, s1) =>
      match expect ":" s1 with
      | Some s2 =>
          match read_digits 2 0 s2 with
          | Some (m, s3) =>
              match expect ":" s3 with
              | Some s4 =>
                  match read_digits 2 0 s4 with
                  | Some (sec, EmptyString) =>
                      if (h <? 24) && (m <? 60) && (sec <? 60)
                      then Some (h, m, sec) else None
                  | _ => None
                  end
              | None => None
              end
          | None => None
          end
      | None => None
      end
  | None => None
  end.

Definition julianday_iso (s : string) : option Q :=
  match read_digits 4 0 s with
  | Some (Y, s1) =>
      match expect "-" s1 with
      | Some s2 =>
          match read_digits 2 0 s2 with
          | Some (M, s3) =>
              match expect "-" s3 with
              | Some s4 =>
                  match read_digits 2 0 s4 with
                  | Some (D, rest) =>
                      if (1 <=? M) && (M <=? 12) && (1 <=? D) && (D <=? 31) then
                        match rest with
                        | EmptyString => Some (julian_day_number Y M D 0 0 0)
                        | String sep t =>
                            if Ascii.eqb sep "T" || Ascii.eqb sep " " then
                              match read_time t with
                              | Some (h, m, sec) => Some (julian_day_number Y M D h m sec)
                              | None => None
                              end
                            else None
                        end
                      else None
                  | None => None
                  end
              | None => None
              end
          | None => None
          end
      | None => None
      end
  | None => None
  end.

(** BlueDart carried two orders: order 1 with two events over 24 hours and
    order 2 with four events over 96 hours. *)
Definition store_two_orders : store :=
  {| users := [mk_user 1 "asha" "Pune"];
     orders := [mk_order 1 1 100 "delivered" "2024-01-01T00:00:00";
                mk_order 2 1 100 "delivered" "2024-01-01T00:00:00"];
     complaints := [];
     payment_logs := [];
     logistics_logs :=
       [mk_logistics 1 1 "BlueDart" "dispatched" "2024-01-01T00:00:00";
        mk_logistics 2 1 "BlueDart" "delivered" "2024-01-02T00:00:00";
        mk_logistics 3 2 "BlueDart" "dispatched" "2024-01-01T00:00:00";
        mk_logistics 4 2 "BlueDart" "in_transit" "2024-01-02T00:00:00";
        mk_logistics 5 2 "BlueDart" "out_for_delivery" "2024-01-04T00:00:00";
        mk_logistics 6 2 "BlueDart" "delivered" "2024-01-05T00:00:00";
        mk_logistics 7 3 "Ekart" "dispatched" "2024-01-01T00:00:00"] |}.

(** What the claims call the earliest and the latest of a list of
    timestamps; NULL stands for "there is none". *)
Definition is_earliest (l : list string) (t : option string) : Prop :=
  match t with
  | Some m => In m l /\ forall x, In x l -> Text.le m x
  | None => l = []
  end.

Definition is_latest (l : list string) (t : option string) : Prop :=
  match t with
  | Some m => In m l /\ forall x, In x l -> Text.le x m
  | None => l = []
  end.

(** The timestamps of an order's logistics events of one type. *)
Definition event_times (st : store) (oid : Z) (event_type : string) : list string :=
  List.map l_logged_at
    (List.filter (fun l => (l_order_id l =? oid) && (l_event_type l =? event_type)%string)
       (logistics_logs st)).

(** ** Customer value: [get_top_customers] and [get_user_lifetime_value] *)

(** [SUM] over a REAL column: NULL on no rows. *)
Definition sql_sum (l : list Q) : option Q :=
  match l with
  | [] => None
  | _ => Some (fold_right Qplus 0%Q l)
  end.

(** [COALESCE(v, d)]. *)
Definition coalesce (v : option Q) (d : Q) : Q :=
  match v with
  | Some q => q
  | None => d
  end.

(** NULL sorts before every number. *)
Definition q_leb_null (a b : option Q) : bool :=
  match a, b with
  | None, _ => true
  | Some _, None => false
  | Some x, Some y => Qle_bool x y
  end.

(** [LIMIT n]: a negative [n] is no limit. *)
Definition sql_limit {A : Type} (n : Z) (l : list A) : list A :=
  if n <? 0 then l else firstn (Z.to_nat n) l.

Record top_customer_row := {
  tc_user_id : Z; tc_name : string; tc_email : string; tc_city : option string;
  tc_order_count : Z; tc_total_spent : option Q; tc_avg_order_value : option Q;
  tc_last_order_at : option string }.

Record lifetime_value_row := {
  lv_id : Z; lv_name : string; lv_email : string; lv_city : option string;
  lv_state : option string; lv_member_since : string;
  lv_total_orders : Z; lv_total_spent : Q; lv_avg_order_value : Q;
  lv_first_order : option string; lv_last_order : option string;
  lv_total_complaints : Z; lv_open_complaints : Z }.

Definition orders_of_user (st : store) (uid : Z) : list order_row :=
  List.filter (fun o => o_user_id o =? uid) (orders st).

(** [users u JOIN orders o ON o.user_id = u.id]. *)
Definition users_join_orders (st : store) : list (user_row * order_row) :=
  List.flat_map
    (fun u => List.map (fun o => (u, o)) (orders_of_user st (u_id u)))
    (users st).

(** [users u LEFT JOIN orders o ON o.user_id = u.id]: a user without orders
    keeps one row, with NULL order columns. *)
Definition users_left_join_orders (us : list user_row) (st : store)
    : list (user_row * option order_row) :=
  List.flat_map
    (fun u =>
       match orders_of_user st (u_id u) with
       | [] => [(u, None)]
       | os => List.map (fun o => (u, Some o)) os
       end)
    us.

(** One output row of [GROUP BY u.id] over the inner join; the bare user
    columns are read off the group's first row. *)
Definition top_customer_group (joined : list (user_row * order_row)) (uid : Z)
    : list top_customer_row :=
  match List.filter (fun uo => u_id (fst uo) =? uid) joined with
  | [] => []
  | (u, o) :: rest =>
      let amounts := List.map (fun uo => o_total_amount (snd uo)) ((u, o) :: rest) in
      [{| tc_user_id := u_id u; tc_name := u_name u; tc_email := u_email u;
          tc_city := u_city u;
          tc_order_count := Z.of_nat (List.length ((u, o) :: rest));
          tc_total_spent := option_map (sql_round 2) (sql_sum amounts);
          tc_avg_order_value :=
            option_map (sql_round 2) (sql_avg (List.map Some amounts));
          tc_last_order_at :=
            max_text (List.map (fun uo => o_ordered_at (snd uo)) ((u, o) :: rest)) |}]
  end.

(** [get_top_customers] ([src/app/repository.py], lines 390-408). *)
Definition get_top_customers (st : store) (limit : Z) : list top_customer_row :=
  let joined := users_join_orders st in
  let keys := nodup Z.eq_dec (List.map (fun uo => u_id (fst uo)) joined) in
  fetch_all
    (sql_limit limit
       (sort_by (fun x y => q_leb_null (tc_total_spent y) (tc_total_spent x))
          (List.flat_map (top_customer_group joined) keys))).

Definition open_status (s : string) : bool :=
  (s =? "open")%string || (s =? "investigating")%string
  || (s =? "waiting_customer")%string.

(** [get_user_lifetime_value] ([src/app/repository.py], lines 411-437). *)
Definition get_user_lifetime_value (st : store) (user_id : Z)
    : option lifetime_value_row :=
  match users_left_join_orders (user_by_id st user_id) st with
  | [] => None
  | (u, o) :: rest =>
      let os := List.flat_map
                  (fun uo => match snd uo with Some o => [o] | None => [] end)
                  ((u, o) :: rest) in
      let amounts := List.map o_total_amount os in
      let cs := List.filter (fun c => c_user_id c =? u_id u) (complaints st) in
      Some {| lv_id := u_id u; lv_name := u_name u; lv_email := u_email u;
              lv_city := u_city u; lv_state := u_state u;
              lv_member_since := u_created_at u;
              lv_total_orders := Z.of_nat (List.length os);
              lv_total_spent := sql_round 2 (coalesce (sql_sum amounts) 0);
              lv_avg_order_value :=
                sql_round 2 (coalesce (sql_avg (List.map Some amounts)) 0);
              lv_first_order := min_text (List.map o_ordered_at os);
              lv_last_order := max_text (List.map o_ordered_at os);
              lv_total_complaints := Z.of_nat (List.length cs);
              lv_open_complaints :=
                Z.of_nat (List.length
                  (List.filter (fun c => open_status (c_status c)) cs)) |}
  end.

(** Two customers, of whom only the first has ordered. *)
Definition store_two_users : store :=
  {| users := [mk_user 1 "asha" "Pune"; mk_user 2 "vikram" "Kochi"];
     orders := [mk_order 1 1 (2505 # 10) "delivered" "2024-01-01T00:00:00";
                mk_order 2 1 100 "shipped" "2024-02-01T00:00:00"];
     complaints := [mk_complaint 1 2 None "2024-03-05T10:00:00"];
     payment_logs := [];
     logistics_logs := [] |}.

(** ** Exceptions and results *)

(** A Python call either returns a value or raises. *)
Inductive outcome (E A : Type) : Type :=
| Returned (a : A)
| Raised (e : E).
Arguments Returned {E A} a.
Arguments Raised {E A} e.

(** The exceptions of the server side: [ValueError] and [KeyError] are
    raised by the dispatcher, [OperationalError] by [sqlite3]. *)
Inductive pyexc : Type :=
| ValueError (msg : string)
| KeyError (key : string)
| OperationalError (msg : string).

(** ** Connection management: [get_connection] and [_with_conn] *)

Module Conn.

(** The connections of the process: handles are numbered as they are
    opened, and [open_handles] are those not yet closed. *)
Record pool := {
  next_handle : nat;
  open_handles : gset nat }.

(** Every open handle was handed out before. *)
Definition pool_ok (p : pool) : Prop :=
  forall h, h ∈ open_handles p -> (h < next_handle p)%nat.

(** [get_connection] of [src/app/db.py].  [connect_error] is what
    [sqlite3.connect] and the two PRAGMA statements answer: [None] when they
    succeed.  When one of them raises, no connection reaches the caller (a
    half-opened one is reclaimed by the Python runtime and is not tracked). *)
Definition get_connection (connect_error : option pyexc) (p : pool)
    : outcome pyexc nat * pool :=
  match connect_error with
  | Some e => (Raised e, p)
  | None =>
      let conn := next_handle p in
      (Returned conn,
       {| next_handle := S conn; open_handles := {[conn]} ∪ open_handles p |})
  end.

(** [conn.close()]. *)
Definition close (conn : nat) (p : pool) : pool :=
  {| next_handle := next_handle p; open_handles := open_handles p ∖ {[conn]} |}.

(** A function [fn(conn, *args, **kwargs)] with its arguments bound: it
    works on the connection it is given and returns or raises. *)
Definition query (A : Type) : Type := nat -> pool -> outcome pyexc A * pool.

(** [_with_conn] ([src/app/repository.py], lines 18-27):
    [conn = get_connection(); try: return fn(conn, ...) finally: conn.close()]. *)
Definition _with_conn {A : Type} (connect_error : option pyexc) (fn : query A)
    (p : pool) : outcome pyexc A * pool :=
  match get_connection connect_error p with
  | (Raised e, p1) => (Raised e, p1)
  | (Returned conn, p1) =>
      let (result, p2) := fn conn p1 in
      (result, close conn p2)
  end.

(** A query that only reads through its connection, as the repository
    functions do: it opens and closes nothing. *)
Definition read_only {A : Type} (fn : query A) : Prop :=
  forall conn p, open_handles (snd (fn conn p)) = open_handles p.

(** Two bodies for examples: one returns a row count, one raises. *)
Definition count_rows (n : Z) : query Z := fun _ p => (Returned n, p).
Definition locked : query Z :=
  fun _ p => (Raised (OperationalError "database is locked"), p).
Definition fresh_pool : pool := {| next_handle := 0; open_handles := ∅ |}.

End Conn.

(** ** The tool dispatcher of [src/app/mcp_server.py] *)

(** JSON values: tool arguments and payloads. *)
#[local] Set Warnings "-register-all".
Inductive json : Type :=
| JNull
| JBool (b : bool)
| JInt (n : Z)
| JStr (s : string)
| JList (l : list json)
| JObj (fields : list (string * json)).
#[local] Set Warnings "register-all".

Module Server.

(** A [Tool] of the catalog: its name and, from its [inputSchema], the
    declared properties and the required ones. *)
Record tool := {
  tool_name : string;
  tool_properties : list string;
  tool_required : list string }.

Definition TOOLS : list tool := [
  {| tool_name := "list_users"; tool_properties := []; tool_required := [] |};
  {| tool_name := "get_user_by_id"; tool_properties := ["user_id"]; tool_required := ["user_id"] |};
  {| tool_name := "search_users"; tool_properties := ["keyword"]; tool_required := ["keyword"] |};
  {| tool_name := "get_user_summary"; tool_properties := ["user_id"]; tool_required := ["user_id"] |};
  {| tool_name := "list_orders"; tool_properties := ["user_id"; "status"; "payment_method"]; tool_required := [] |};
  {| tool_name := "get_order_by_id"; tool_properties := ["order_id"]; tool_required := ["order_id"] |};
  {| tool_name := "get_orders_by_date_range"; tool_properties := ["start"; "end"]; tool_required := ["start"; "end"] |};
  {| tool_name := "get_order_by_tracking"; tool_properties := ["tracking_number"]; tool_required := ["tracking_number"] |};
  {| tool_name := "get_order_statistics"; tool_properties := []; tool_required := [] |};
  {| tool_name := "list_complaints"; tool_properties := ["user_id"; "status"; "category"; "priority"; "assigned_to"]; tool_required := [] |};
  {| tool_name := "get_complaint_by_id"; tool_properties := ["complaint_id"]; tool_required := ["complaint_id"] |};
  {| tool_name := "search_complaints"; tool_properties := ["keyword"]; tool_required := ["keyword"] |};
  {| tool_name := "get_high_priority_open_complaints"; tool_properties := []; tool_required := [] |};
  {| tool_name := "get_complaint_statistics"; tool_properties := []; tool_required := [] |};
  {| tool_name := "get_complaints_for_order"; tool_properties := ["order_id"]; tool_required := ["order_id"] |};
  {| tool_name := "correlate_user_issues"; tool_properties := ["user_id"]; tool_required := ["user_id"] |};
  {| tool_name := "get_payment_logs"; tool_properties := ["order_id"; "start"; "end"]; tool_required := [] |};
  {| tool_name := "get_logistics_logs"; tool_properties := ["order_id"; "tracking_number"; "start"; "end"]; tool_required := [] |};
  {| tool_name := "get_complaint_context_logs"; tool_properties := ["complaint_id"; "window_hours"]; tool_required := ["complaint_id"] |};
  {| tool_name := "get_revenue_by_city"; tool_properties := []; tool_required := [] |};
  {| tool_name := "get_top_customers"; tool_properties := ["limit"]; tool_required := [] |};
  {| tool_name := "get_user_lifetime_value"; tool_properties := ["user_id"]; tool_required := ["user_id"] |};
  {| tool_name := "get_dashboard_summary"; tool_properties := []; tool_required := [] |};
  {| tool_name := "get_order_fulfillment_timeline"; tool_properties := ["order_id"]; tool_required := ["order_id"] |};
  {| tool_name := "get_active_shipments"; tool_properties := []; tool_required := [] |};
  {| tool_name := "get_order_delivery_time"; tool_properties := ["order_id"]; tool_required := ["order_id"] |};
  {| tool_name := "get_complaint_resolution_time_stats"; tool_properties := []; tool_required := [] |};
  {| tool_name := "get_payment_failure_rate"; tool_properties := []; tool_required := [] |};
  {| tool_name := "get_payment_summary_by_method"; tool_properties := []; tool_required := [] |};
  {| tool_name := "get_carrier_performance"; tool_properties := []; tool_required := [] |}
].

(** How a dispatcher lambda reads one argument of the dict [a]. *)
Inductive arg_access : Type :=
| Index (key : string)                  (* a["key"]: KeyError when absent *)
| Get (key : string) (default : json).  (* a.get("key", default) *)

(** A lambda of [_TOOL_DISPATCH]: the repository function it calls and the
    argument expressions, in the order Python evaluates them. *)
Record handler := {
  h_repo : string;
  h_args : list arg_access }.

Definition calls (repo : string) (args : list arg_access) : handler :=
  {| h_repo := repo; h_args := args |}.

(** The entries of the dict literal [_TOOL_DISPATCH], in source order. *)
Definition dispatch_entries : list (string * handler) := [
  ("list_users", calls "list_users" []);
  ("get_user_by_id", calls "get_user_by_id" [Index "user_id"]);
  ("search_users", calls "search_users" [Index "keyword"]);
  ("get_user_summary", calls "get_user_summary" [Index "user_id"]);
  ("list_orders", calls "list_orders"
     [Get "user_id" JNull; Get "status" JNull; Get "payment_method" JNull]);
  ("get_order_by_id", calls "get_order_by_id" [Index "order_id"]);
  ("get_orders_by_date_range", calls "get_orders_by_date_range" [Index "start"; Index "end"]);
  ("get_order_by_tracking", calls "get_order_by_tracking" [Index "tracking_number"]);
  ("get_order_statistics", calls "get_order_statistics" []);
  ("list_complaints", calls "list_complaints"
     [Get "user_id" JNull; Get "status" JNull; Get "category" JNull;
      Get "priority" JNull; Get "assigned_to" JNull]);
  ("get_complaint_by_id", calls "get_complaint_by_id" [Index "complaint_id"]);
  ("search_complaints", calls "search_complaints" [Index "keyword"]);
  ("get_high_priority_open_complaints", calls "get_high_priority_open_complaints" []);
  ("get_complaint_statistics", calls "get_complaint_statistics" []);
  ("get_complaints_for_order", calls "get_complaints_for_order" [Index "order_id"]);
  ("correlate_user_issues", calls "correlate_user_issues" [Index "user_id"]);
  ("get_payment_logs", calls "get_payment_logs"
     [Get "order_id" JNull; Get "start" JNull; Get "end" JNull]);
  ("get_logistics_logs", calls "get_logistics_logs"
     [Get "order_id" JNull; Get "tracking_number" JNull; Get "start" JNull; Get "end" JNull]);
  ("get_complaint_context_logs", calls "get_complaint_context_logs"
     [Index "complaint_id"; Get "window_hours" (JInt 48)]);
  ("get_revenue_by_city", calls "get_revenue_by_city" []);
  ("get_top_customers", calls "get_top_customers" [Get "limit" (JInt 10)]);
  ("get_user_lifetime_value", calls "get_user_lifetime_value" [Index "user_id"]);
  ("get_dashboard_summary", calls "get_dashboard_summary" []);
  ("get_order_fulfillment_timeline", calls "get_order_fulfillment_timeline" [Index "order_id"]);
  ("get_active_shipments", calls "get_active_shipments" []);
  ("get_order_delivery_time", calls "get_order_delivery_time" [Index "order_id"]);
  ("get_complaint_resolution_time_stats", calls "get_complaint_resolution_time_stats" []);
  ("get_payment_failure_rate", calls "get_payment_failure_rate" []);
  ("get_payment_summary_by_method", calls "get_payment_summary_by_method" []);
  ("get_carrier_performance", calls "get_carrier_performance" [])
].

Definition _TOOL_DISPATCH : gmap string handler := list_to_map dispatch_entries.

(** The keys a lambda reads with [a["key"]]. *)
Definition indexed_keys (fn : handler) : list string :=
  List.flat_map (fun x => match x with Index k => [k] | Get _ _ => [] end) (h_args fn).

(** The table has a lambda for the tool, and the lambda indexes exactly the
    required properties of the tool's schema. *)
Definition indexes_required (t : tool) : bool :=
  match _TOOL_DISPATCH !! tool_name t with
  | Some fn => bool_decide (indexed_keys fn = tool_required t)
  | None => false
  end.

(** One argument expression over the dict [a]. *)
Definition eval_access (a : gmap string json) (x : arg_access) : outcome pyexc json :=
  match x with
  | Index key =>
      match a !! key with
      | Some v => Returned v
      | None => Raised (KeyError key)
      end
  | Get key default =>
      match a !! key with
      | Some v => Returned v
      | None => Returned default
      end
  end.

(** The argument expressions, left to right; the first that raises ends the
    evaluation. *)
Fixpoint eval_args (a : gmap string json) (xs : list arg_access)
    : outcome pyexc (list json) :=
  match xs with
  | [] => Returned []
  | x :: xs' =>
      match eval_access a x with
      | Raised e => Raised e
      | Returned v =>
          match eval_args a xs' with
          | Raised e => Raised e
          | Returned vs => Returned (v :: vs)
          end
      end
  end.

Section Dispatch.
(** The database as the repository sees it, the repository functions by
    name (each opens a connection through [_with_conn]), and [json.dumps]
    with [indent=2, default=str]. *)
Variable db : Type.
Variable repo : string -> list json -> db -> outcome pyexc json * db.
Variable json_dumps : json -> string.

(** [fn(arguments)] for a lambda [fn] of the table: the arguments are
    evaluated, then the repository function is called. *)
Definition apply_handler (fn : handler) (arguments : gmap string json) (s : db)
    : outcome pyexc json * db :=
  match eval_args arguments (h_args fn) with
  | Raised e => (Raised e, s)
  | Returned vs => repo (h_repo fn) vs s
  end.

(** [handle_call_tool] ([src/app/mcp_server.py], lines 431-437); the result
    is the text of the single [TextContent]. *)
Definition handle_call_tool (name : string) (arguments : gmap string json) (s : db)
    : outcome pyexc (list string) * db :=
  match _TOOL_DISPATCH !! name with
  | None => (Raised (ValueError (String.append "Unknown tool: " name)), s)
  | Some fn =>
      match apply_handler fn arguments s with
      | (Raised e, s') => (Raised e, s')
      | (Returned payload, s') => (Returned [json_dumps payload], s')
      end
  end.

End Dispatch.

(** A database that counts the repository calls made on it, for examples. *)
Definition counting_repo (name : string) (args : list json) (calls_made : nat)
    : outcome pyexc json * nat :=
  (Returned (JList args), S calls_made).

Definition show_json (j : json) : string := "payload".

End Server.

(** ** The agent loop of [src/client.py] *)

Module Client.

(** A Python [str]: its code points. *)
Definition pystr : Type := list N.

Definition str_of (s : string) : pystr :=
  List.map N_of_ascii (list_ascii_of_string s).

(** [len(s)] and [s[:n]] for [n >= 0]. *)
Definition len (s : pystr) : Z := Z.of_nat (List.length s).
Definition slice_to (n : Z) (s : pystr) : pystr := firstn (Z.to_nat n) s.

Definition newline : pystr := [10%N].
Definition quote : pystr := [34%N].

(** An exception caught by [except Exception as e], with its [str(e)].
    Signals outside [Exception] (cancellation, interrupts) are not modelled. *)
Record exception := {
  exc_class : string;
  exc_str : pystr }.

(** *** [json.dumps] of the error payload *)

Definition hex_digit (d : N) : N :=
  if (d <? 10)%N then (48 + d)%N else (87 + d)%N.

(** [format(n, "04x")] for [n < 0x10000]. *)
Definition hex4 (n : N) : pystr :=
  [hex_digit (N.shiftr n 12 mod 16); hex_digit (N.shiftr n 8 mod 16);
   hex_digit (N.shiftr n 4 mod 16); hex_digit (n mod 16)]%N.

Definition backslash_u (n : N) : pystr := str_of "\u" ++ hex4 n.

(** One character of a JSON string with [ensure_ascii=True]: the
    printable ASCII characters stand for themselves, except the quote and
    the backslash; everything else is escaped. *)
Definition json_escape_char (c : N) : pystr :=
  if (c =? 34)%N then [92; 34]%N
  else if (c =? 92)%N then [92; 92]%N
  else if (c =? 10)%N then str_of "\n"
  else if (c =? 13)%N then str_of "\r"
  else if (c =? 9)%N then str_of "\t"
  else if (c =? 8)%N then str_of "\b"
  else if (c =? 12)%N then str_of "\f"
  else if ((32 <=? c) && (c <=? 126))%N then [c]
  else if (c <? 65536)%N then backslash_u c
  else
    let v := (c - 65536)%N in
    backslash_u (N.lor 55296 (N.land (N.shiftr v 10) 1023))
    ++ backslash_u (N.lor 56320 (N.land v 1023)).

Definition json_dumps_str (s : pystr) : pystr :=
  quote ++ List.flat_map json_escape_char s ++ quote.

(** [json.dumps({"error": message})]. *)
Definition json_dumps_error (message : pystr) : pystr :=
  str_of "{" ++ quote ++ str_of "error" ++ quote ++ str_of ": "
  ++ json_dumps_str message ++ str_of "}".

(** *** Conversation turns *)

Record function_call := {
  fc_name : string;
  fc_args : option (list (string * json)) }.

(** [Part.from_function_response(name=..., response={"result": result_text})]. *)
Record function_response := {
  fr_name : string;
  fr_result : pystr }.

Record part := {
  part_text : option pystr;
  part_function_call : option function_call;
  part_function_response : option function_response }.

Record content := {
  role : string;
  parts : option (list part) }.

Record candidate := { candidate_content : option content }.

Record response := { candidates : option (list candidate) }.

Definition text_part (t : pystr) : part :=
  {| part_text := Some t; part_function_call := None;
     part_function_response := None |}.

Definition call_part (name : string) (args : list (string * json)) : part :=
  {| part_text := None;
     part_function_call := Some {| fc_name := name; fc_args := Some args |};
     part_function_response := None |}.

Definition response_part (r : function_response) : part :=
  {| part_text := None; part_function_call := None;
     part_function_response := Some r |}.

Definition model_says (ps : list part) : response :=
  {| candidates :=
       Some [{| candidate_content := Some {| role := "model"; parts := Some ps |} |}] |}.

(** *** Constants of the loop *)

Definition max_iterations : nat := 20.
Definition MAX_RESULT_CHARS : Z := 30000.
Definition TRUNCATION_MARKER : pystr := newline ++ str_of "... [truncated]".
Definition ITERATION_LIMIT_MESSAGE : pystr :=
  str_of "ERROR: Agent exceeded maximum iterations without producing a final report.".

(** The first turn: the fixed request followed by the complaint. *)
Definition user_msg (user_complaint : pystr) : content :=
  {| role := "user";
     parts := Some [text_part
       (str_of "A customer has filed the following complaint. Investigate it thoroughly using the available MCP tools and produce a comprehensive correlation report."
        ++ newline ++ newline ++ str_of "**Customer Complaint:**" ++ newline
        ++ user_complaint)] |}.

(** *** One tool invocation *)

(** The text parts of [result.content], concatenated; an item without a
    [text] attribute is skipped. *)
Definition result_text_of (items : list (option pystr)) : pystr :=
  List.flat_map (fun item => match item with Some t => t | None => [] end) items.

(** [if len(result_text) > 30000: result_text = result_text[:30000] + marker]. *)
Definition truncate_result (result_text : pystr) : pystr :=
  if len result_text >? MAX_RESULT_CHARS
  then slice_to MAX_RESULT_CHARS result_text ++ TRUNCATION_MARKER
  else result_text.

(** [dict(args) if args else {}]. *)
Definition fn_args_of (fc : function_call) : list (string * json) :=
  match fc_args fc with
  | Some args => args
  | None => []
  end.

Section Agent.
(** The two services the loop talks to: the reasoning service
    ([client.models.generate_content] on the conversation so far) and the
    MCP session ([session.call_tool]).  Each returns or raises. *)
Variable generate_content : list content -> outcome exception response.
Variable call_tool : string -> list (string * json) -> outcome exception (list (option pystr)).

(** The body of the [for] loop for one requested call (lines 243-270). *)
Definition tool_response (fc : function_call) : function_response :=
  let fn_name := fc_name fc in
  let fn_args := fn_args_of fc in
  let result_text :=
    match call_tool fn_name fn_args with
    | Returned items => truncate_result (result_text_of items)
    | Raised e => json_dumps_error (exc_str e)
    end in
  {| fr_name := fn_name; fr_result := result_text |}.

(** The function calls of a model turn, in the order received. *)
Definition requested_calls (ps : list part) : list function_call :=
  List.flat_map
    (fun p => match part_function_call p with Some fc => [fc] | None => [] end)
    ps.

Definition function_response_parts (ps : list part) : list part :=
  List.map (fun fc => response_part (tool_response fc)) (requested_calls ps).

(** [any(p.function_call is not None for p in parts)]. *)
Definition has_function_calls (ps : list part) : bool :=
  existsb (fun p => match part_function_call p with Some _ => true | None => false end) ps.

(** The [text] of every part that has a non-empty one, joined (line 229). *)
Definition final_text (ps : list part) : pystr :=
  List.flat_map (fun p => match part_text p with Some t => t | None => [] end) ps.

(** [response.candidates[0]], then [candidate.content.parts], with the
    exceptions Python raises on a response that lacks them. *)
Definition first_candidate (r : response) : outcome exception (content * list part) :=
  match candidates r with
  | None =>
      Raised {| exc_class := "TypeError";
                exc_str := str_of "'NoneType' object is not subscriptable" |}
  | Some [] =>
      Raised {| exc_class := "IndexError";
                exc_str := str_of "list index out of range" |}
  | Some (c :: _) =>
      match candidate_content c with
      | None =>
          Raised {| exc_class := "AttributeError";
                    exc_str := str_of "'NoneType' object has no attribute 'parts'" |}
      | Some ct =>
          match parts ct with
          | None =>
              Raised {| exc_class := "TypeError";
                        exc_str := str_of "'NoneType' object is not iterable" |}
          | Some ps => Returned (ct, ps)
          end
      end
  end.

(** What one pass through the [while] body does. *)
Inductive step : Type :=
| Final (text : pystr) (messages : list content)
| Failed (e : exception)
| Next (messages : list content).

(** The body of the [while] loop (lines 205-278). *)
Definition agent_iteration (messages : list content) : step :=
  match generate_content messages with
  | Raised e => Failed e
  | Returned r =>
      match first_candidate r with
      | Raised e => Failed e
      | Returned (ct, ps) =>
          if has_function_calls ps then
            Next (messages ++ [ct; {| role := "user";
                                      parts := Some (function_response_parts ps) |}])
          else
            Final (final_text ps) (messages ++ [ct])
      end
  end.

(** How [run_agent] ends: what it returns or raises, the number of
    reasoning-service calls made ([iteration]) and the conversation. *)
Record run := {
  run_outcome : outcome exception pystr;
  run_cycles : nat;
  run_messages : list content }.

(** [while iteration < max_iterations: iteration += 1; ...], by recursion
    on [remaining = max_iterations - iteration]; when nothing remains the
    function returns the fixed message of line 280. *)
Fixpoint agent_loop (remaining iteration : nat) (messages : list content) : run :=
  match remaining with
  | O =>
      {| run_outcome := Returned ITERATION_LIMIT_MESSAGE;
         run_cycles := iteration; run_messages := messages |}
  | S remaining' =>
      match agent_iteration messages with
      | Final text messages' =>
          {| run_outcome := Returned text;
             run_cycles := S iteration; run_messages := messages' |}
      | Failed e =>
          {| run_outcome := Raised e;
             run_cycles := S iteration; run_messages := messages |}
      | Next messages' => agent_loop remaining' (S iteration) messages'
      end
  end.

(** [run_agent] from the first turn on (the session set-up is left out). *)
Definition run_agent (user_complaint : pystr) : run :=
  agent_loop max_iterations 0 [user_msg user_complaint].

(** [main]: the lines printed after the run, when the run returned. *)
Definition main (user_complaint : pystr) : outcome exception (list pystr) :=
  match run_outcome (run_agent user_complaint) with
  | Returned report => Returned [str_of "CORRELATION AGENT REPORT"; report]
  | Raised e => Raised e
  end.

(** The three ways the loop ends. *)
Definition ends_with_report (r : run) : Prop :=
  exists m ct ps,
    agent_iteration m = Final (final_text ps) (m ++ [ct]) /\
    parts ct = Some ps /\ has_function_calls ps = false /\
    run_messages r = m ++ [ct] /\
    run_outcome r = Returned (final_text ps) /\
    List.length (run_messages r) = (2 * run_cycles r)%nat.

Definition hits_iteration_limit (r : run) : Prop :=
  run_outcome r = Returned ITERATION_LIMIT_MESSAGE /\
  run_cycles r = max_iterations /\
  List.length (run_messages r) = (2 * run_cycles r + 1)%nat.

Definition service_failed (r : run) : Prop :=
  exists e,
    run_outcome r = Raised e /\
    agent_iteration (run_messages r) = Failed e.

End Agent.

(** Services for examples. *)
Definition always_calls : list content -> outcome exception response :=
  fun _ => Returned (model_says [call_part "get_order_by_id" [("order_id", JInt 15)]]).

Definition answers (t : pystr) : list content -> outcome exception response :=
  fun _ => Returned (model_says [text_part t]).

Definition calls_then_answers (t : pystr) : list content -> outcome exception response :=
  fun messages =>
    match messages with
    | [_] => Returned (model_says [call_part "get_order_by_id" [("order_id", JInt 15)];
                                   call_part "get_user_by_id" []])
    | _ => Returned (model_says [text_part t])
    end.

Definition tool_down : string -> list (string * json) -> outcome exception (list (option pystr)) :=
  fun _ _ => Raised {| exc_class := "McpError"; exc_str := str_of "Connection closed" |}.


Definition long_text : pystr := List.repeat 97%N (Z.to_nat 30001).

End Client.

(** ** Filtered listings: [list_orders], the log tools, the point lookups *)

(** Python truthiness of a [str | None] value, as tested by [if status:]:
    [None] and the empty string are false. *)
Definition truthy_str (v : option string) : bool :=
  match v with
  | Some s => negb (s =? "")%string
  | None => false
  end.

(** [column = ?] on a nullable TEXT column: NULL equals nothing. *)
Definition null_eqb (column : option string) (value : string) : bool :=
  match column with
  | Some s => (s =? value)%string
  | None => false
  end.

(** [WHERE 1=1 AND c1 AND c2 ...]: the clauses that were appended to [q]. *)
Definition where_all {A : Type} (clauses : list (A -> bool)) (rows : list A) : list A :=
  List.filter (fun r => forallb (fun c => c r) clauses) rows.

(** [q += " AND column = ?"] under [if value is not None:]. *)
Definition and_if_given {A V : Type} (value : option V) (clause : V -> A -> bool)
    (clauses : list (A -> bool)) : list (A -> bool) :=
  match value with
  | Some v => clauses ++ [clause v]
  | None => clauses
  end.

(** [q += " AND column ..."] under [if value:] for a string. *)
Definition and_if_truthy {A : Type} (value : option string) (clause : string -> A -> bool)
    (clauses : list (A -> bool)) : list (A -> bool) :=
  match value with
  | Some v => if truthy_str value then clauses ++ [clause v] else clauses
  | None => clauses
  end.

(** [ORDER BY key DESC] on a TEXT column. *)
Definition order_by_text_desc {A : Type} (key : A -> string) : list A -> list A :=
  sort_by (fun x y => Text.leb (key y) (key x)).

(** [get_payment_logs] ([src/app/repository.py], lines 267-288). *)
Definition get_payment_logs (st : store) (order_id : option Z)
    (start end_ : option string) : list payment_log_row :=
  let p := [] in
  let p := and_if_given order_id (fun v r => p_order_id r =? v) p in
  let p := and_if_truthy start (fun v r => Text.leb v (p_logged_at r)) p in
  let p := and_if_truthy end_ (fun v r => Text.leb (p_logged_at r) v) p in
  fetch_all (order_by p_logged_at (where_all p (payment_logs st))).

(** [get_logistics_logs] ([src/app/repository.py], lines 291-316). *)
Definition get_logistics_logs (st : store) (order_id : option Z)
    (tracking_number start end_ : option string) : list logistics_log_row :=
  let p := [] in
  let p := and_if_given order_id (fun v r => l_order_id r =? v) p in
  let p := and_if_truthy tracking_number (fun v r => null_eqb (l_tracking_number r) v) p in
  let p := and_if_truthy start (fun v r => Text.leb v (l_logged_at r)) p in
  let p := and_if_truthy end_ (fun v r => Text.leb (l_logged_at r) v) p in
  fetch_all (order_by l_logged_at (where_all p (logistics_logs st))).

(** [list_orders] ([src/app/repository.py], lines 61-82). *)
Definition list_orders (st : store) (user_id : option Z)
    (status payment_method : option string) : list order_row :=
  let p := [] in
  let p := and_if_given user_id (fun v r => o_user_id r =? v) p in
  let p := and_if_truthy status (fun v r => (o_status r =? v)%string) p in
  let p := and_if_truthy payment_method (fun v r => null_eqb (o_payment_method r) v) p in
  fetch_all (order_by_text_desc o_ordered_at (where_all p (orders st))).

(** [list_complaints] ([src/app/repository.py], lines 111-140). *)
Definition list_complaints (st : store) (user_id : option Z)
    (status category priority assigned_to : option string) : list complaint_row :=
  let p := [] in
  let p := and_if_given user_id (fun v r => c_user_id r =? v) p in
  let p := and_if_truthy status (fun v r => (c_status r =? v)%string) p in
  let p := and_if_truthy category (fun v r => (c_category r =? v)%string) p in
  let p := and_if_truthy priority (fun v r => (c_priority r =? v)%string) p in
  let p := and_if_truthy assigned_to (fun v r => null_eqb (c_assigned_to r) v) p in
  fetch_all (order_by_text_desc c_created_at (where_all p (complaints st))).

(** [get_order_by_id], [get_user_by_id], [get_complaint_by_id] and
    [get_order_by_tracking] ([src/app/repository.py], lines 40-43, 85-104,
    143-146). *)
Definition get_user_by_id (st : store) (user_id : Z) : option user_row :=
  fetch_one (user_by_id st user_id).

Definition get_order_by_id (st : store) (order_id : Z) : option order_row :=
  fetch_one (order_by_id st order_id).

Definition get_complaint_by_id (st : store) (complaint_id : Z) : option complaint_row :=
  fetch_one (complaint_by_id st complaint_id).

Definition get_order_by_tracking (st : store) (tracking_number : string) : option order_row :=
  fetch_one (List.filter (fun o => null_eqb (o_tracking_number o) tracking_number) (orders st)).

(** [get_orders_by_date_range] ([src/app/repository.py], lines 91-98). *)
Definition get_orders_by_date_range (st : store) (start end_ : string) : list order_row :=
  fetch_all
    (order_by o_ordered_at
       (List.filter
          (fun o => Text.leb start (o_ordered_at o) && Text.leb (o_ordered_at o) end_)
          (orders st))).

(** [column = ?] on a nullable INTEGER column. *)
Definition null_eqb_int (column : option Z) (value : Z) : bool :=
  match column with
  | Some n => n =? value
  | None => false
  end.

(** [get_complaints_for_order] ([src/app/repository.py], lines 149-156). *)
Definition get_complaints_for_order (st : store) (order_id : Z) : list complaint_row :=
  fetch_all
    (order_by c_created_at
       (List.filter (fun c => null_eqb_int (c_order_id c) order_id) (complaints st))).

(** What a time window asks of a timestamp: a bound that is [None] or the
    empty string asks nothing, and the bounds are inclusive. *)
Definition after_start (start : option string) (t : string) : Prop :=
  forall s, start = Some s -> s <> "" -> Text.le s t.

Definition before_end (end_ : option string) (t : string) : Prop :=
  forall e, end_ = Some e -> e <> "" -> Text.le t e.

(** ** Aggregates: summaries and statistics *)

(** The number of rows that pass [f]: a row count under WHERE, or
    [COUNT(CASE WHEN f THEN 1 END)]. *)
Definition count_where {A : Type} (f : A -> bool) (rows : list A) : Z :=
  Z.of_nat (List.length (List.filter f rows)).

Definition high_priority (s : string) : bool :=
  (s =? "high")%string || (s =? "critical")%string.

Record user_summary := {
  us_user : user_row;
  us_total_orders : Z; us_total_spent : Q;
  us_delivered : Z; us_returned : Z; us_cancelled : Z;
  us_total_complaints : Z; us_open_complaints : Z; us_high_priority : Z }.

(** [get_user_summary] ([src/app/repository.py], lines 184-207): the user
    row merged with the two one-row aggregates (their keys are disjoint). *)
Definition get_user_summary (st : store) (user_id : Z) : option user_summary :=
  match fetch_one (user_by_id st user_id) with
  | None => None
  | Some user =>
      let os := List.filter (fun o => o_user_id o =? user_id) (orders st) in
      let cs := List.filter (fun c => c_user_id c =? user_id) (complaints st) in
      Some {| us_user := user;
              us_total_orders := Z.of_nat (List.length os);
              us_total_spent := coalesce (sql_sum (List.map o_total_amount os)) 0;
              us_delivered := count_where (fun o => (o_status o =? "delivered")%string) os;
              us_returned := count_where (fun o => (o_status o =? "returned")%string) os;
              us_cancelled := count_where (fun o => (o_status o =? "cancelled")%string) os;
              us_total_complaints := Z.of_nat (List.length cs);
              us_open_complaints := count_where (fun c => open_status (c_status c)) cs;
              us_high_priority := count_where (fun c => high_priority (c_priority c)) cs |}
  end.

(** [GROUP BY key]: one group per value of the key, with its rows. *)
Definition group_rows {A K : Type} (eq_dec : forall x y : K, {x = y} + {x <> y})
    (key : A -> K) (rows : list A) : list (K * list A) :=
  List.map
    (fun k => (k, List.filter (fun r => if eq_dec (key r) k then true else false) rows))
    (nodup eq_dec (List.map key rows)).

(** [SELECT key, count AS cnt ... GROUP BY key ORDER BY cnt DESC]. *)
Definition group_count {A K : Type} (eq_dec : forall x y : K, {x = y} + {x <> y})
    (key : A -> K) (rows : list A) : list (K * Z) :=
  order_by_desc snd
    (List.map (fun g => (fst g, Z.of_nat (List.length (snd g))))
       (group_rows eq_dec key rows)).

Definition option_string_dec (x y : option string) : {x = y} + {x <> y}.
Proof. decide equality. apply string_dec. Defined.

Record complaint_statistics := {
  by_category : list (string * Z);
  by_priority : list (string * Z);
  by_status : list (string * Z);
  by_agent : list (option string * Z) }.

(** [get_complaint_statistics] ([src/app/repository.py], lines 210-222). *)
Definition get_complaint_statistics (st : store) : complaint_statistics :=
  {| by_category := fetch_all (group_count string_dec c_category (complaints st));
     by_priority := fetch_all (group_count string_dec c_priority (complaints st));
     by_status := fetch_all (group_count string_dec c_status (complaints st));
     by_agent := fetch_all (group_count option_string_dec c_assigned_to (complaints st)) |}.

(** A row of [get_order_statistics]: the key, [cnt] and [total]. *)
Record order_stat (K : Type) := {
  os_key : K; os_cnt : Z; os_total : option Q }.
Arguments os_key {K} _.
Arguments os_cnt {K} _.
Arguments os_total {K} _.

Definition order_stats {K : Type} (eq_dec : forall x y : K, {x = y} + {x <> y})
    (key : order_row -> K) (rows : list order_row) : list (order_stat K) :=
  order_by_desc os_cnt
    (List.map
       (fun g => {| os_key := fst g;
                    os_cnt := Z.of_nat (List.length (snd g));
                    os_total := option_map (sql_round 2)
                                  (sql_sum (List.map o_total_amount (snd g))) |})
       (group_rows eq_dec key rows)).

(** [get_order_statistics] ([src/app/repository.py], lines 225-230). *)
Definition get_order_statistics (st : store)
    : list (order_stat string) * list (order_stat (option string)) :=
  (fetch_all (order_stats string_dec o_status (orders st)),
   fetch_all (order_stats option_string_dec o_payment_method (orders st))).

(** [ORDER BY priority DESC, created_at]: the priority as text, greatest
    first, then the creation time, least first. *)
Definition priority_then_created (x y : complaint_row) : bool :=
  match String.compare (c_priority x) (c_priority y) with
  | Gt => true
  | Lt => false
  | Eq => Text.leb (c_created_at x) (c_created_at y)
  end.

(** [get_high_priority_open_complaints] ([src/app/repository.py],
    lines 170-177). *)
Definition get_high_priority_open_complaints (st : store) : list complaint_row :=
  fetch_all
    (sort_by priority_then_created
       (List.filter
          (fun c => high_priority (c_priority c)
                    && ((c_status c =? "open")%string
                        || (c_status c =? "investigating")%string))
          (complaints st))).

(** A row of [correlate_user_issues]: nine complaint columns and five order
    columns, NULL when the LEFT JOIN found no order. *)
Record issue_row := {
  ir_complaint_id : Z; ir_complaint_subject : string;
  ir_complaint_category : string; ir_complaint_priority : string;
  ir_complaint_status : string; ir_complaint_details : string;
  ir_complaint_resolution : option string; ir_assigned_to : option string;
  ir_complaint_created_at : string;
  ir_order_id : option Z; ir_order_item : option string;
  ir_order_total : option Q; ir_order_status : option string;
  ir_tracking_number : option string }.

Definition issue_of (c : complaint_row) (o : option order_row) : issue_row :=
  {| ir_complaint_id := c_id c; ir_complaint_subject := c_subject c;
     ir_complaint_category := c_category c; ir_complaint_priority := c_priority c;
     ir_complaint_status := c_status c; ir_complaint_details := c_details c;
     ir_complaint_resolution := c_resolution c; ir_assigned_to := c_assigned_to c;
     ir_complaint_created_at := c_created_at c;
     ir_order_id := option_map o_id o; ir_order_item := option_map o_item o;
     ir_order_total := option_map o_total_amount o;
     ir_order_status := option_map o_status o;
     ir_tracking_number := match o with Some r => o_tracking_number r | None => None end |}.

(** [complaints c LEFT JOIN orders o ON c.order_id = o.id]. *)
Definition complaint_left_join_orders (st : store) (c : complaint_row)
    : list (complaint_row * option order_row) :=
  match List.filter (fun o => null_eqb_int (c_order_id c) (o_id o)) (orders st) with
  | [] => [(c, None)]
  | os => List.map (fun o => (c, Some o)) os
  end.

(** [correlate_user_issues] ([src/app/repository.py], lines 233-260). *)
Definition correlate_user_issues (st : store) (user_id : Z) : list issue_row :=
  fetch_all
    (List.map (fun co => issue_of (fst co) (snd co))
       (order_by_text_desc (fun co => c_created_at (fst co))
          (List.flat_map (complaint_left_join_orders st)
             (List.filter (fun c => c_user_id c =? user_id) (complaints st))))).

Definition sum_Z (l : list Z) : Z := fold_right Z.add 0 l.

(** What a breakdown of [rows] by [key] is: every value of the key once,
    with the number of rows that carry it. *)
Definition is_breakdown {A K : Type} (key : A -> K) (rows : list A)
    (breakdown : list (K * Z)) : Prop :=
  List.NoDup (List.map fst breakdown) /\
  (forall r, In r rows -> In (key r) (List.map fst breakdown)) /\
  (forall k n, In (k, n) breakdown ->
     1 <= n /\
     exists group, n = Z.of_nat (List.length group) /\
       forall r, In r group <-> In r rows /\ key r = k) /\
  sum_Z (List.map snd breakdown) = Z.of_nat (List.length rows) /\
  descending snd breakdown.

(** ** Fulfilment: [get_order_fulfillment_timeline] and [get_active_shipments] *)

(** The columns each of the three sub-queries of the timeline selects. *)
Record timeline_payment := {
  tp_id : Z; tp_transaction_id : string; tp_event_type : string; tp_amount : Q;
  tp_currency : string; tp_gateway : string; tp_status : string;
  tp_error_message : option string; tp_logged_at : string }.

Record timeline_logistics := {
  tl_id : Z; tl_tracking_number : option string; tl_carrier : string;
  tl_event_type : string; tl_location : option string; tl_notes : option string;
  tl_logged_at : string }.

Record timeline_complaint := {
  tlc_id : Z; tlc_category : string; tlc_priority : string; tlc_status : string;
  tlc_subject : string; tlc_created_at : string }.

Definition timeline_payment_of (p : payment_log_row) : timeline_payment :=
  {| tp_id := p_id p; tp_transaction_id := p_transaction_id p;
     tp_event_type := p_event_type p; tp_amount := p_amount p;
     tp_currency := p_currency p; tp_gateway := p_gateway p;
     tp_status := p_status p; tp_error_message := p_error_message p;
     tp_logged_at := p_logged_at p |}.

Definition timeline_logistics_of (l : logistics_log_row) : timeline_logistics :=
  {| tl_id := l_id l; tl_tracking_number := l_tracking_number l;
     tl_carrier := l_carrier l; tl_event_type := l_event_type l;
     tl_location := l_location l; tl_notes := l_notes l;
     tl_logged_at := l_logged_at l |}.

Definition timeline_complaint_of (c : complaint_row) : timeline_complaint :=
  {| tlc_id := c_id c; tlc_category := c_category c; tlc_priority := c_priority c;
     tlc_status := c_status c; tlc_subject := c_subject c;
     tlc_created_at := c_created_at c |}.

Record fulfillment_timeline := {
  ft_order : order_row;
  ft_payment_events : list timeline_payment;
  ft_logistics_events : list timeline_logistics;
  ft_complaints : list timeline_complaint }.

(** [get_order_fulfillment_timeline] ([src/app/repository.py],
    lines 444-474). *)
Definition get_order_fulfillment_timeline (st : store) (order_id : Z)
    : option fulfillment_timeline :=
  match fetch_one (order_by_id st order_id) with
  | None => None
  | Some order =>
      Some {| ft_order := order;
              ft_payment_events :=
                fetch_all (List.map timeline_payment_of
                  (order_by p_logged_at (payment_logs_of st order_id)));
              ft_logistics_events :=
                fetch_all (List.map timeline_logistics_of
                  (order_by l_logged_at (logistics_logs_of st order_id)));
              ft_complaints :=
                fetch_all (List.map timeline_complaint_of
                  (order_by c_created_at
                     (List.filter (fun c => null_eqb_int (c_order_id c) order_id)
                        (complaints st)))) |}
  end.

Record shipment_row := {
  sh_order_id : Z; sh_user_id : Z; sh_item : string;
  sh_tracking_number : option string; sh_shipping_address : option string;
  sh_customer_name : string; sh_customer_phone : option string;
  sh_carrier : option string; sh_latest_event : option string;
  sh_latest_location : option string; sh_latest_event_at : option string;
  sh_dispatched_at : option string }.

(** The events [ll] of the LEFT JOIN: those of the order whose [logged_at]
    is the greatest of the order. *)
Definition latest_events (st : store) (oid : Z) : list logistics_log_row :=
  match max_text (List.map l_logged_at (logistics_logs_of st oid)) with
  | None => []
  | Some latest =>
      List.filter (fun l => (l_logged_at l =? latest)%string) (logistics_logs_of st oid)
  end.

Definition shipment_of (st : store) (o : order_row) (u : user_row)
    (ll : option logistics_log_row) : shipment_row :=
  {| sh_order_id := o_id o; sh_user_id := o_user_id o; sh_item := o_item o;
     sh_tracking_number := o_tracking_number o;
     sh_shipping_address := o_shipping_address o;
     sh_customer_name := u_name u; sh_customer_phone := u_phone u;
     sh_carrier := option_map l_carrier ll;
     sh_latest_event := option_map l_event_type ll;
     sh_latest_location := match ll with Some l => l_location l | None => None end;
     sh_latest_event_at := option_map l_logged_at ll;
     sh_dispatched_at := dispatch_shipped_at st (o_id o) |}.

(** The joins of [get_active_shipments] for one order. *)
Definition shipment_rows (st : store) (o : order_row) : list shipment_row :=
  List.flat_map
    (fun u =>
       match latest_events st (o_id o) with
       | [] => [shipment_of st o u None]
       | lls => List.map (fun ll => shipment_of st o u (Some ll)) lls
       end)
    (user_by_id st (o_user_id o)).

(** NULL is less than every text. *)
Definition text_leb_null (a b : option string) : bool :=
  match a, b with
  | None, _ => true
  | Some _, None => false
  | Some x, Some y => Text.leb x y
  end.

(** [get_active_shipments] ([src/app/repository.py], lines 477-505). *)
Definition get_active_shipments (st : store) : list shipment_row :=
  fetch_all
    (sort_by (fun x y => text_leb_null (sh_dispatched_at y) (sh_dispatched_at x))
       (List.flat_map (shipment_rows st)
          (List.filter (fun o => (o_status o =? "shipped")%string) (orders st)))).

(** ** [get_dashboard_summary] *)

(** [SUM(CASE WHEN f THEN 1 ELSE 0 END)]: NULL over no rows. *)
Definition sum_case {A : Type} (f : A -> bool) (rows : list A) : option Z :=
  match rows with
  | [] => None
  | _ => Some (count_where f rows)
  end.

Record dashboard_summary := {
  d_users_total : Z;
  d_orders_total : Z; d_total_revenue : option Q; d_avg_order_value : option Q;
  d_delivered : option Z; d_in_transit : option Z; d_pending : option Z;
  d_complaints_total : Z; d_open_count : option Z; d_high_priority : option Z }.

(** [get_dashboard_summary] ([src/app/repository.py], lines 689-715). *)
Definition get_dashboard_summary (st : store) : dashboard_summary :=
  {| d_users_total := Z.of_nat (List.length (users st));
     d_orders_total := Z.of_nat (List.length (orders st));
     d_total_revenue :=
       option_map (sql_round 2) (sql_sum (List.map o_total_amount (orders st)));
     d_avg_order_value :=
       option_map (sql_round 2)
         (sql_avg (List.map (fun o => Some (o_total_amount o)) (orders st)));
     d_delivered := sum_case (fun o => (o_status o =? "delivered")%string) (orders st);
     d_in_transit := sum_case (fun o => (o_status o =? "shipped")%string) (orders st);
     d_pending :=
       sum_case (fun o => (o_status o =? "pending")%string
                          || (o_status o =? "processing")%string) (orders st);
     d_complaints_total := Z.of_nat (List.length (complaints st));
     d_open_count := sum_case (fun c => open_status (c_status c)) (complaints st);
     d_high_priority := sum_case (fun c => high_priority (c_priority c)) (complaints st) |}.

(** ** Payment analytics: [get_payment_failure_rate], [get_payment_summary_by_method] *)

(** [ROUND(failures * 100.0 / total, 2)]: NULL when the sum is NULL, and
    NULL on a division by zero, as in SQLite. *)
Definition failure_pct (failures : option Z) (total : Z) : option Q :=
  match failures with
  | Some f =>
      if total =? 0 then None
      else Some (sql_round 2 (inject_Z f * 100 / inject_Z total))
  | None => None
  end.

Record failure_rate_row (K : Type) := {
  pf_key : K;
  pf_total_events : Z;
  pf_success_count : option Z;
  pf_failure_count : option Z;
  pf_failure_pct : option Q }.
Arguments pf_key {K} _.
Arguments pf_total_events {K} _.
Arguments pf_success_count {K} _.
Arguments pf_failure_count {K} _.
Arguments pf_failure_pct {K} _.

(** The aggregates of both queries over one set of payment events. *)
Definition failure_rate_of {K : Type} (k : K) (events : list payment_log_row)
    : failure_rate_row K :=
  let failures := sum_case (fun p => (p_status p =? "failed")%string) events in
  {| pf_key := k;
     pf_total_events := Z.of_nat (List.length events);
     pf_success_count := sum_case (fun p => (p_status p =? "success")%string) events;
     pf_failure_count := failures;
     pf_failure_pct := failure_pct failures (Z.of_nat (List.length events)) |}.

Record payment_failure_rate := {
  pfr_overall : failure_rate_row unit;
  pfr_by_gateway : list (failure_rate_row string) }.

(** [get_payment_failure_rate] ([src/app/repository.py], lines 564-594);
    the query without GROUP BY always has its one row. *)
Definition get_payment_failure_rate (st : store) : payment_failure_rate :=
  {| pfr_overall := failure_rate_of tt (payment_logs st);
     pfr_by_gateway :=
       fetch_all
         (sort_by (fun x y => q_leb_null (pf_failure_pct y) (pf_failure_pct x))
            (List.map (fun g => failure_rate_of (fst g) (snd g))
               (group_rows string_dec p_gateway (payment_logs st)))) |}.

Record method_summary := {
  ms_payment_method : option string; ms_order_count : Z;
  ms_total_revenue : option Q; ms_avg_order_value : option Q }.

(** [get_payment_summary_by_method] ([src/app/repository.py],
    lines 597-612). *)
Definition get_payment_summary_by_method (st : store) : list method_summary :=
  fetch_all
    (sort_by (fun x y => q_leb_null (ms_total_revenue y) (ms_total_revenue x))
       (List.map
          (fun g =>
             let amounts := List.map o_total_amount (snd g) in
             {| ms_payment_method := fst g;
                ms_order_count := Z.of_nat (List.length (snd g));
                ms_total_revenue := option_map (sql_round 2) (sql_sum amounts);
                ms_avg_order_value :=
                  option_map (sql_round 2) (sql_avg (List.map Some amounts)) |})
          (group_rows option_string_dec o_payment_method (orders st)))).

(** ** The tool catalog against its dispatch table, and the resources *)

Module Catalog.
Import Server.

(** The key an argument expression reads, and what it yields on the dict
    [a] when it does not raise. *)
Definition access_key (x : arg_access) : string :=
  match x with
  | Index k => k
  | Get k _ => k
  end.

Definition access_value (a : gmap string json) (x : arg_access) : json :=
  match a !! access_key x, x with
  | Some v, _ => v
  | None, Get _ d => d
  | None, Index _ => JNull
  end.

(** The defaults written in the lambdas of [_TOOL_DISPATCH]:
    [a.get("window_hours", 48)], [a.get("limit", 10)], and [None] for every
    other [a.get]. *)
Definition default_of (key : string) : json :=
  if (key =? "window_hours")%string then JInt 48
  else if (key =? "limit")%string then JInt 10
  else JNull.

Definition arg_access_eqb (x y : arg_access) : bool :=
  match x, y with
  | Index k, Index k' => (k =? k')%string
  | Get k (JInt n), Get k' (JInt n') => (k =? k')%string && (n =? n')
  | Get k JNull, Get k' JNull => (k =? k')%string
  | _, _ => false
  end.

(** The lambda a tool's schema calls for: the repository function of the
    same name on the declared properties in their order, the required ones
    indexed and the others read with their default. *)
Definition expected_handler (t : tool) : handler :=
  calls (tool_name t)
    (List.map
       (fun k => if existsb (String.eqb k) (tool_required t)
                 then Index k else Get k (default_of k))
       (tool_properties t)).

Definition handler_eqb (f g : handler) : bool :=
  (h_repo f =? h_repo g)%string
  && (Nat.eqb (List.length (h_args f)) (List.length (h_args g)))
  && forallb (fun xy => arg_access_eqb (fst xy) (snd xy))
       (List.combine (h_args f) (h_args g)).

Definition handler_matches (t : tool) : bool :=
  match _TOOL_DISPATCH !! tool_name t with
  | Some fn => handler_eqb fn (expected_handler t)
  | None => false
  end.

(** A [Resource] of the catalog, by its URI. *)
Definition RESOURCES : list string := [
  "context://data/users";
  "context://data/orders";
  "context://data/complaints";
  "context://stats/orders";
  "context://stats/complaints";
  "context://stats/revenue-by-city";
  "context://stats/top-customers";
  "context://stats/payment-failure";
  "context://stats/carrier-performance";
  "context://alerts/high-priority";
  "context://logs/payments";
  "context://logs/logistics";
  "context://dashboard/summary"
].

(** The entries of the dict literal [_RESOURCE_DISPATCH]: each lambda calls
    one repository function with no argument. *)
Definition resource_entries : list (string * string) := [
  ("context://data/users", "list_users");
  ("context://data/orders", "list_orders");
  ("context://data/complaints", "list_complaints");
  ("context://stats/orders", "get_order_statistics");
  ("context://stats/complaints", "get_complaint_statistics");
  ("context://stats/revenue-by-city", "get_revenue_by_city");
  ("context://stats/top-customers", "get_top_customers");
  ("context://stats/payment-failure", "get_payment_failure_rate");
  ("context://stats/carrier-performance", "get_carrier_performance");
  ("context://alerts/high-priority", "get_high_priority_open_complaints");
  ("context://logs/payments", "get_payment_logs");
  ("context://logs/logistics", "get_logistics_logs");
  ("context://dashboard/summary", "get_dashboard_summary")
].

Definition _RESOURCE_DISPATCH : gmap string string := list_to_map resource_entries.

(** A resource is served by a repository function that is also a tool
    without required arguments. *)
Definition resource_served (uri : string) : bool :=
  match _RESOURCE_DISPATCH !! uri with
  | Some f =>
      existsb (fun t => (tool_name t =? f)%string
                        && Nat.eqb (List.length (tool_required t)) 0) TOOLS
  | None => false
  end.

Section Resources.
Variable db : Type.
Variable repo : string -> list json -> db -> outcome pyexc json * db.
Variable json_dumps : json -> string.

(** [handle_read_resource] ([src/app/mcp_server.py], lines 487-492). *)
Definition handle_read_resource (uri : string) (s : db)
    : outcome pyexc string * db :=
  match _RESOURCE_DISPATCH !! uri with
  | None => (Raised (ValueError (String.append "Unknown resource: " uri)), s)
  | Some f =>
      match repo f [] s with
      | (Raised e, s') => (Raised e, s')
      | (Returned payload, s') => (Returned (json_dumps payload), s')
      end
  end.

End Resources.

End Catalog.

(** ** The transcript of a run of [run_agent] *)

Module Transcript.
Import Client.

(** A model turn that asks for tools, with the turn that answers it
    ([src/client.py], lines 236 and 273-278). *)
Definition exchange
    (call_tool : string -> list (string * json) -> outcome exception (list (option pystr)))
    (turn : content * list part) : list content :=
  [fst turn;
   {| role := "user";
      parts := Some (function_response_parts call_tool (snd turn)) |}].

(** The model turn of the final report, when there is one. *)
Definition closing (last : option content) : list content :=
  match last with
  | Some ct => [ct]
  | None => []
  end.

(** The printable ASCII characters. *)
Definition printable (c : N) : bool := ((32 <=? c) && (c <=? 126))%N.

End Transcript.

(** ** [get_revenue_by_city] and [get_complaint_resolution_time_stats] *)

(** [orders o JOIN users u ON o.user_id = u.id]. *)
Definition orders_join_users (st : store) : list (order_row * user_row) :=
  List.flat_map
    (fun o => List.map (fun u => (o, u))
                (List.filter (fun u => o_user_id o =? u_id u) (users st)))
    (orders st).

Record city_revenue := {
  cr_city : option string; cr_order_count : Z;
  cr_total_revenue : option Q; cr_avg_order_value : option Q }.

(** One output row of the GROUP BY [u.city]; [o.id] is never NULL, so
    [COUNT(o.id)] counts the joined rows of the group. *)
Definition city_group (g : option string * list (order_row * user_row))
    : city_revenue :=
  let amounts := List.map (fun ou => o_total_amount (fst ou)) (snd g) in
  {| cr_city := fst g;
     cr_order_count := Z.of_nat (List.length (snd g));
     cr_total_revenue := option_map (sql_round 2) (sql_sum amounts);
     cr_avg_order_value :=
       option_map (sql_round 2) (sql_avg (List.map Some amounts)) |}.

(** [get_revenue_by_city] ([src/app/repository.py], lines 371-387). *)
Definition get_revenue_by_city (st : store) : list city_revenue :=
  fetch_all
    (sort_by (fun x y => q_leb_null (cr_total_revenue y) (cr_total_revenue x))
       (List.map city_group
          (group_rows option_string_dec (fun ou => u_city (snd ou))
             (orders_join_users st)))).

(** The user an order belongs to is in the table. *)
Definition has_user (st : store) (o : order_row) : bool :=
  existsb (fun u => o_user_id o =? u_id u) (users st).

(** [MIN] and [MAX] over a REAL expression: NULLs are skipped, and the
    result is NULL when nothing is left. *)
Definition q_values (l : list (option Q)) : list Q :=
  List.flat_map (fun v => match v with Some q => [q] | None => [] end) l.

Definition sql_min (l : list (option Q)) : option Q :=
  match q_values l with
  | [] => None
  | x :: r => Some (fold_left (fun m y => if Qle_bool y m then y else m) r x)
  end.

Definition sql_max (l : list (option Q)) : option Q :=
  match q_values l with
  | [] => None
  | x :: r => Some (fold_left (fun m y => if Qle_bool m y then y else m) r x)
  end.

Record resolution_detail := {
  rd_category : string; rd_priority : string; rd_resolution_hours : option Q }.

Record resolution_overall := {
  ro_resolved_count : Z; ro_avg_hours : option Q;
  ro_min_hours : option Q; ro_max_hours : option Q }.

Record resolution_by_priority := {
  rp_priority : string; rp_cnt : Z; rp_avg_hours : option Q }.

Record resolution_stats := {
  rs_overall : resolution_overall;
  rs_by_priority : list resolution_by_priority;
  rs_details : list resolution_detail }.

Definition is_resolved (c : complaint_row) : bool :=
  match c_resolved_at c with
  | Some _ => true
  | None => false
  end.

Section Resolution.
Variable julianday : string -> option Q.

(** [(julianday(resolved_at) - julianday(created_at)) * 24]. *)
Definition resolution_span (c : complaint_row) : option Q :=
  hours_between julianday (c_resolved_at c) (Some (c_created_at c)).

(** [get_complaint_resolution_time_stats] ([src/app/repository.py],
    lines 512-557). *)
Definition get_complaint_resolution_time_stats (st : store) : resolution_stats :=
  let resolved := List.filter is_resolved (complaints st) in
  let spans := List.map resolution_span resolved in
  {| rs_overall :=
       {| ro_resolved_count := Z.of_nat (List.length resolved);
          ro_avg_hours := option_map (sql_round 1) (sql_avg spans);
          ro_min_hours := option_map (sql_round 1) (sql_min spans);
          ro_max_hours := option_map (sql_round 1) (sql_max spans) |};
     rs_by_priority :=
       fetch_all
         (sort_by (fun x y => q_leb_null (rp_avg_hours y) (rp_avg_hours x))
            (List.map
               (fun g =>
                  {| rp_priority := fst g;
                     rp_cnt := Z.of_nat (List.length (snd g));
                     rp_avg_hours :=
                       option_map (sql_round 1)
                         (sql_avg (List.map resolution_span (snd g))) |})
               (group_rows string_dec c_priority resolved)));
     rs_details :=
       fetch_all
         (sort_by
            (fun x y => q_leb_null (rd_resolution_hours y) (rd_resolution_hours x))
            (List.map
               (fun c =>
                  {| rd_category := c_category c;
                     rd_priority := c_priority c;
                     rd_resolution_hours :=
                       option_map (sql_round 1) (resolution_span c) |})
               resolved)) |}.

End Resolution.

(** ** The MCP-to-Gemini bridge: [mcp_tool_to_gemini_declaration] *)

Module Bridge.
Import Client.

(** A Python dict with string keys, as the list of its items; [d.get(key)]
    and [key in d]. *)
Definition dict_get (key : string) (d : list (string * json)) : option json :=
  option_map snd (List.find (fun kv => (fst kv =? key)%string) d).

Definition dict_has (key : string) (d : list (string * json)) : bool :=
  existsb (fun kv => (fst kv =? key)%string) d.

(** [type(v).__name__]. *)
Definition type_name (v : json) : string :=
  match v with
  | JNull => "NoneType"
  | JBool _ => "bool"
  | JInt _ => "int"
  | JStr _ => "str"
  | JList _ => "list"
  | JObj _ => "dict"
  end.

(** What [v.values()] raises on a value that is not a dict. *)
Definition no_values (v : json) : exception :=
  {| exc_class := "AttributeError";
     exc_str := str_of (String.append "'"
                  (String.append (type_name v) "' object has no attribute 'values'")) |}.

(** Truthiness of a JSON value. *)
Definition json_truthy (v : json) : bool :=
  match v with
  | JNull => false
  | JBool b => b
  | JInt n => negb (n =? 0)
  | JStr s => negb (s =? "")%string
  | JList l => match l with [] => false | _ => true end
  | JObj d => match d with [] => false | _ => true end
  end.

Section Cleaning.
Variable clean : json -> outcome exception json.

(** [for prop in s["properties"].values(): if isinstance(prop, dict):
    _clean_schema(prop)], the first call that raises ending the loop. *)
Fixpoint clean_props (props : list (string * json))
    : outcome exception (list (string * json)) :=
  match props with
  | [] => Returned []
  | (k, p) :: rest =>
      match (match p with
             | JObj _ => clean p
             | _ => Returned p
             end) with
      | Raised e => Raised e
      | Returned p' =>
          match clean_props rest with
          | Raised e => Raised e
          | Returned rest' => Returned ((k, p') :: rest')
          end
      end
  end.

(** The items of a dict after the body of [_clean_schema]: the key
    ["additionalProperties"] is gone, the value under ["properties"] has
    had its dicts cleaned, and every other item is as it was. A value under
    ["properties"] that is not a dict has no [values()]. *)
Fixpoint clean_fields (fs : list (string * json))
    : outcome exception (list (string * json)) :=
  match fs with
  | [] => Returned []
  | (k, v) :: rest =>
      if (k =? "additionalProperties")%string then clean_fields rest
      else
        match (if (k =? "properties")%string then
                 match v with
                 | JObj props =>
                     match clean_props props with
                     | Raised e => Raised e
                     | Returned props' => Returned (JObj props')
                     end
                 | _ => Raised (no_values v)
                 end
               else Returned v) with
        | Raised e => Raised e
        | Returned v' =>
            match clean_fields rest with
            | Raised e => Raised e
            | Returned rest' => Returned ((k, v') :: rest')
            end
        end
  end.

End Cleaning.

(** [_clean_schema] ([src/client.py], lines 125-131); it is only ever
    called on a dict, and returns the dict as it is left. *)
Fixpoint _clean_schema (s : json) : outcome exception json :=
  match s with
  | JObj fields =>
      match clean_fields _clean_schema fields with
      | Raised e => Raised e
      | Returned fields' => Returned (JObj fields')
      end
  | other => Returned other
  end.

(** An MCP [Tool] and a Gemini function declaration. *)
Record mcp_tool := {
  mt_name : string;
  mt_description : option string;
  mt_inputSchema : list (string * json) }.

Record declaration := {
  decl_name : string;
  decl_description : string;
  decl_parameters : option json }.

(** [mcp_tool_to_gemini_declaration] ([src/client.py], lines 118-139). *)
Definition mcp_tool_to_gemini_declaration (tool : mcp_tool)
    : outcome exception declaration :=
  match _clean_schema (JObj (mt_inputSchema tool)) with
  | Raised e => Raised e
  | Returned schema =>
      Returned
        {| decl_name := mt_name tool;
           decl_description :=
             match mt_description tool with
             | Some d => d
             | None => ""
             end;
           decl_parameters :=
             match schema with
             | JObj fields =>
                 match dict_get "properties" fields with
                 | Some props => if json_truthy props then Some schema else None
                 | None => None
                 end
             | _ => None
             end |}
  end.

(** No dict reached from [s] through ["properties"] has the key
    ["additionalProperties"]. *)
Fixpoint accepted (s : json) : bool :=
  match s with
  | JObj fields =>
      negb (dict_has "additionalProperties" fields)
      && forallb
           (fun kv =>
              if (fst kv =? "properties")%string then
                match snd kv with
                | JObj props =>
                    forallb (fun kp => accepted (snd kp)) props
                | _ => true
                end
              else true)
           fields
  | _ => true
  end.

(** A tool whose schema forbids additional properties on itself, on a
    property and on the items of an array property, for examples. *)
Definition tagged_lookup : mcp_tool :=
  {| mt_name := "find_orders";
     mt_description := None;
     mt_inputSchema :=
       [("type", JStr "object");
        ("properties",
         JObj [("filter",
                JObj [("type", JStr "object");
                      ("additionalProperties", JBool false)]);
               ("tags",
                JObj [("type", JStr "array");
                      ("items",
                       JObj [("type", JStr "object");
                             ("additionalProperties", JBool false)])])]);
        ("additionalProperties", JBool false)] |}.

Definition tagged_lookup_declaration : declaration :=
  {| decl_name := "find_orders";
     decl_description := "";
     decl_parameters :=
       Some (JObj
         [("type", JStr "object");
          ("properties",
           JObj [("filter", JObj [("type", JStr "object")]);
                 ("tags",
                  JObj [("type", JStr "array");
                        ("items",
                         JObj [("type", JStr "object");
                               ("additionalProperties", JBool false)])])])]) |}.

End Bridge.

(** * Part II: lemmas and theorems *)

(** ** The BINARY collation is a total preorder *)

Module TextFacts.

Lemma ascii_compare_N (a b : ascii) :
  Ascii.compare a b = N.compare (N_of_ascii a) (N_of_ascii b).
Proof. reflexivity. Qed.

Lemma ascii_compare_eq (a b : ascii) : Ascii.compare a b = Eq <-> a = b.
Proof.
  split.
  - apply Ascii.compare_eq_iff.
  - intros ->. rewrite ascii_compare_N. apply N.compare_refl.
Qed.

Lemma ascii_compare_lt_trans (a b c : ascii) :
  Ascii.compare a b = Lt -> Ascii.compare b c = Lt -> Ascii.compare a c = Lt.
Proof.
  rewrite !ascii_compare_N, !N.compare_lt_iff. lia.
Qed.

Lemma compare_refl (s : string) : String.compare s s = Eq.
Proof.
  induction s as [|a s IH]; simpl; [reflexivity|].
  now rewrite (proj2 (ascii_compare_eq a a) eq_refl).
Qed.

Lemma compare_lt_trans (s1 : string) :
  forall s2 s3,
    String.compare s1 s2 = Lt -> String.compare s2 s3 = Lt ->
    String.compare s1 s3 = Lt.
Proof.
  induction s1 as [|a s1 IH]; intros [|b s2] [|c s3]; simpl; try congruence.
  destruct (Ascii.compare a b) eqn:Hab; try congruence;
    destruct (Ascii.compare b c) eqn:Hbc; try congruence; intros H12 H23.
  - apply ascii_compare_eq in Hab, Hbc. subst.
    rewrite (proj2 (ascii_compare_eq c c) eq_refl). eauto.
  - apply ascii_compare_eq in Hab. subst. now rewrite Hbc.
  - apply ascii_compare_eq in Hbc. subst. now rewrite Hab.
  - now rewrite (ascii_compare_lt_trans _ _ _ Hab Hbc).
Qed.

Lemma leb_refl (s : string) : Text.leb s s = true.
Proof. unfold Text.leb, String.leb. now rewrite compare_refl. Qed.

Lemma leb_total (a b : string) : Text.leb a b = true \/ Text.leb b a = true.
Proof. apply String.leb_total. Qed.

Lemma leb_trans (a b c : string) :
  Text.leb a b = true -> Text.leb b c = true -> Text.leb a c = true.
Proof.
  unfold Text.leb, String.leb.
  destruct (String.compare a b) eqn:Hab; try discriminate;
    destruct (String.compare b c) eqn:Hbc; try discriminate; intros _ _.
  - apply String.compare_eq_iff in Hab, Hbc. subst. now rewrite compare_refl.
  - apply String.compare_eq_iff in Hab. subst. now rewrite Hbc.
  - apply String.compare_eq_iff in Hbc. subst. now rewrite Hab.
  - now rewrite (compare_lt_trans _ _ _ Hab Hbc).
Qed.

Lemma leb_false_flip (a b : string) : Text.leb a b = false -> Text.leb b a = true.
Proof. destruct (leb_total a b) as [H|H]; congruence. Qed.

End TextFacts.

(** ** ORDER BY returns a sorted permutation *)

Section SortByFacts.
Context {A : Type} (leb : A -> A -> bool).
Hypothesis leb_flip : forall x y, leb x y = false -> leb y x = true.

Lemma insert_row_perm x l : Permutation (x :: l) (insert_row leb x l).
Proof.
  induction l as [|y l IH]; simpl; [reflexivity|].
  destruct (leb x y); [reflexivity|].
  rewrite perm_swap. now constructor.
Qed.

Lemma sort_by_perm l : Permutation l (sort_by leb l).
Proof.
  induction l as [|x l IH]; simpl; [constructor|].
  rewrite <- insert_row_perm. now constructor.
Qed.

Lemma insert_row_sorted x l :
  Sorted (fun a b => leb a b = true) l ->
  Sorted (fun a b => leb a b = true) (insert_row leb x l).
Proof using leb_flip.
  induction l as [|y l IH]; simpl; intros Hs.
  - repeat constructor.
  - destruct (leb x y) eqn:Hxy.
    + constructor; [exact Hs | constructor; exact Hxy].
    + apply leb_flip in Hxy.
      inversion Hs as [|? ? Hs' Hhd]; subst.
      constructor; [now apply IH|].
      destruct l as [|z l]; simpl.
      * constructor; exact Hxy.
      * destruct (leb x z); constructor; [exact Hxy|].
        now inversion Hhd.
Qed.

Lemma sort_by_sorted l : Sorted (fun a b => leb a b = true) (sort_by leb l).
Proof using leb_flip.
  induction l as [|x l IH]; simpl; [constructor|].
  now apply insert_row_sorted.
Qed.

End SortByFacts.

Lemma order_by_perm {A : Type} (key : A -> string) (l : list A) :
  Permutation l (order_by key l).
Proof. apply sort_by_perm. Qed.

Lemma order_by_sorted {A : Type} (key : A -> string) (l : list A) :
  ascending key (order_by key l).
Proof.
  apply sort_by_sorted. intros x y. apply TextFacts.leb_false_flip.
Qed.

Lemma order_by_In {A : Type} (key : A -> string) (l : list A) (x : A) :
  In x (order_by key l) <-> In x l.
Proof.
  split; apply Permutation_in; [symmetry|]; apply order_by_perm.
Qed.

Lemma order_by_desc_perm {A : Type} (key : A -> Z) (l : list A) :
  Permutation l (order_by_desc key l).
Proof. apply sort_by_perm. Qed.

Lemma order_by_desc_sorted {A : Type} (key : A -> Z) (l : list A) :
  descending key (order_by_desc key l).
Proof.
  unfold descending, order_by_desc.
  eapply Sorted_ind with (P := fun l => Sorted (fun x y => key y <= key x) l);
    [constructor | | apply (sort_by_sorted (fun x y => key y <=? key x))].
  - intros a l' _ IH Hhd. constructor; [exact IH|].
    destruct Hhd; constructor. now apply Z.leb_le.
  - intros x y H. apply Z.leb_le. apply Z.leb_gt in H. lia.
Qed.

(** ** [fetch_one] over a WHERE clause *)

Section FetchFacts.
Context {A : Type} (f : A -> bool).

Lemma fetch_one_filter_Some l x :
  fetch_one (List.filter f l) = Some x -> In x l /\ f x = true.
Proof.
  unfold fetch_one. intros H.
  assert (Hin : In x (List.filter f l)).
  { destruct (List.filter f l); simpl in H; [discriminate|].
    injection H as ->. now left. }
  now apply filter_In in Hin.
Qed.

Lemma fetch_one_filter_None l :
  fetch_one (List.filter f l) = None <-> (forall x, In x l -> f x = false).
Proof.
  unfold fetch_one. split.
  - intros H x Hin. destruct (f x) eqn:Hfx; [|reflexivity].
    assert (Hx : In x (List.filter f l)) by (apply filter_In; auto).
    destruct (List.filter f l); [contradiction | discriminate].
  - intros H. destruct (List.filter f l) as [|y r] eqn:E; [reflexivity|].
    assert (Hy : In y (List.filter f l)) by (rewrite E; now left).
    apply filter_In in Hy. destruct Hy as [Hy1 Hy2].
    rewrite (H y Hy1) in Hy2. discriminate.
Qed.

Lemma fetch_one_filter_is_Some l :
  fetch_one (List.filter f l) <> None <-> (exists x, In x l /\ f x = true).
Proof.
  split.
  - intros H. destruct (fetch_one (List.filter f l)) as [x|] eqn:E; [|congruence].
    exists x. now apply fetch_one_filter_Some.
  - intros [x [Hin Hfx]] HN. rewrite fetch_one_filter_None in HN.
    rewrite (HN x Hin) in Hfx. discriminate.
Qed.

End FetchFacts.

(** With unique keys, the first row found under a key is the row that
    carries it. *)
Lemma fetch_one_unique {A : Type} (key : A -> Z) (l : list A) (x : A) :
  List.NoDup (List.map key l) -> In x l ->
  fetch_one (List.filter (fun y => key y =? key x) l) = Some x.
Proof.
  induction l as [|y l IH]; intros Hnd Hin; [contradiction|].
  inversion Hnd as [|? ? Hnotin Hnd']; subst. simpl.
  destruct (key y =? key x) eqn:E.
  - destruct Hin as [->|Hin]; [reflexivity|].
    apply Z.eqb_eq in E. exfalso. apply Hnotin. rewrite E. now apply in_map.
  - destruct Hin as [->|Hin]; [rewrite Z.eqb_refl in E; discriminate|].
    now apply IH.
Qed.

(** ** [get_complaint_context_logs] *)

Lemma truthy_nonzero (n : Z) : n <> 0 -> truthy (Some n) = true.
Proof. intros H. simpl. now apply negb_true_iff, Z.eqb_neq. Qed.

(** The order id of a complaint is never 0: it is the id of an order, and
    those start at 1. *)
Lemma complaint_order_id_nonzero (st : store) (c : complaint_row) (oid : Z) :
  order_ids_from_one st = true -> complaint_orders_exist st = true ->
  In c (complaints st) -> c_order_id c = Some oid ->
  oid <> 0 /\ exists o, In o (orders st) /\ o_id o = oid.
Proof.
  unfold order_ids_from_one, complaint_orders_exist.
  rewrite !forallb_forall. intros Hids Hfk Hc Ho.
  specialize (Hfk c Hc). rewrite Ho in Hfk. apply existsb_exists in Hfk.
  destruct Hfk as [o [Hin Heq]]. apply Z.eqb_eq in Heq.
  specialize (Hids o Hin). apply Z.leb_le in Hids.
  split; [lia|]. now exists o.
Qed.

(** C1.  For a complaint of the store that names an order, the bundle
    holds the payment events and the logistics events of that order, every
    one of them and no other, each list in ascending order of [logged_at];
    the window is echoed, and for every other [window_hours] the two lists
    are the same. *)
Theorem context_logs_complete_unwindowed
    (st : store) (cid wh : Z) (c : complaint_row) (oid : Z) :
  order_ids_from_one st = true ->
  complaint_orders_exist st = true ->
  List.NoDup (List.map c_id (complaints st)) ->
  In c (complaints st) ->
  c_id c = cid ->
  c_order_id c = Some oid ->
  exists r,
    get_complaint_context_logs st cid wh = Some r /\
    cb_complaint r = c /\
    cb_window_hours r = wh /\
    Permutation (List.filter (fun p => p_order_id p =? oid) (payment_logs st))
      (cb_payment_logs r) /\
    (forall p, In p (cb_payment_logs r) <->
               In p (payment_logs st) /\ p_order_id p = oid) /\
    Sorted (fun x y => String.leb (p_logged_at x) (p_logged_at y) = true)
      (cb_payment_logs r) /\
    Permutation (List.filter (fun l => l_order_id l =? oid) (logistics_logs st))
      (cb_logistics_logs r) /\
    (forall l, In l (cb_logistics_logs r) <->
               In l (logistics_logs st) /\ l_order_id l = oid) /\
    Sorted (fun x y => String.leb (l_logged_at x) (l_logged_at y) = true)
      (cb_logistics_logs r) /\
    (forall wh', exists r',
       get_complaint_context_logs st cid wh' = Some r' /\
       cb_window_hours r' = wh' /\
       cb_payment_logs r' = cb_payment_logs r /\
       cb_logistics_logs r' = cb_logistics_logs r).
Proof.
  intros Hids Hfk Hnd Hin Hid Ho.
  destruct (complaint_order_id_nonzero st c oid Hids Hfk Hin Ho) as [Hnz _].
  assert (Hc : fetch_one (complaint_by_id st cid) = Some c).
  { unfold complaint_by_id. rewrite <- Hid. now apply fetch_one_unique. }
  unfold get_complaint_context_logs.
  rewrite Hc, Ho, (truthy_nonzero _ Hnz). eexists. split; [reflexivity|].
  cbn [cb_complaint cb_window_hours cb_payment_logs cb_logistics_logs].
  unfold fetch_all, payment_logs_of, logistics_logs_of.
  split; [reflexivity|]. split; [reflexivity|].
  split; [apply order_by_perm|]. split.
  { intros p. rewrite order_by_In, filter_In, Z.eqb_eq. reflexivity. }
  split; [apply order_by_sorted|].
  split; [apply order_by_perm|]. split.
  { intros l. rewrite order_by_In, filter_In, Z.eqb_eq. reflexivity. }
  split; [apply order_by_sorted|].
  intros wh'. eexists. now repeat split.
Qed.

(** Complaint 7 of the scenario names order 15, which has two payment
    events and three logistics events; the payment event of order 16 is not
    in the bundle. *)
Lemma context_logs_complete_unwindowed_witness :
  exists r,
    get_complaint_context_logs store_scenario 7 48 = Some r /\
    List.map p_id (cb_payment_logs r) = [1; 2] /\
    List.map l_id (cb_logistics_logs r) = [1; 2; 3] /\
    (forall wh', exists r',
       get_complaint_context_logs store_scenario 7 wh' = Some r' /\
       cb_window_hours r' = wh' /\
       cb_payment_logs r' = cb_payment_logs r /\
       cb_logistics_logs r' = cb_logistics_logs r).
Proof.
  destruct (context_logs_complete_unwindowed store_scenario 7 48
              (mk_complaint 7 5 (Some 15) "2024-03-05T10:00:00") 15)
    as [r [Hget [_ [_ [_ [_ [_ [_ [_ [_ Hwindow]]]]]]]]]].
  - reflexivity.
  - reflexivity.
  - repeat constructor; simpl; intuition discriminate.
  - now left.
  - reflexivity.
  - reflexivity.
  - exists r. split; [exact Hget|].
    assert (Hr : Some r = get_complaint_context_logs store_scenario 7 48)
      by (symmetry; exact Hget).
    vm_compute in Hr. injection Hr as ->.
    split; [reflexivity|]. split; [reflexivity|]. exact Hwindow.
Defined.

Lemma complaint_absent_iff (st : store) (cid : Z) :
  fetch_one (complaint_by_id st cid) = None <->
  (forall c, In c (complaints st) -> c_id c <> cid).
Proof.
  unfold complaint_by_id. rewrite fetch_one_filter_None.
  split; intros H c Hin; specialize (H c Hin); now apply Z.eqb_neq.
Qed.

(** On any store: an absent complaint id gives [None] and a present one
    gives a bundle.  In the bundle the user is non-null exactly when the
    referenced user row exists; the order is null when [order_id] is null;
    and for a non-null order id other than 0 the order is null exactly when
    the orders table has no row with that id. *)
Lemma context_links_any_store (st : store) (cid wh : Z) :
  ((forall c, In c (complaints st) -> c_id c <> cid) ->
   get_complaint_context_logs st cid wh = None) /\
  ((exists c, In c (complaints st) /\ c_id c = cid) ->
   get_complaint_context_logs st cid wh <> None) /\
  (forall c, fetch_one (complaint_by_id st cid) = Some c ->
   exists r,
     get_complaint_context_logs st cid wh = Some r /\
     cb_complaint r = c /\
     (cb_user r <> None <->
      exists u, In u (users st) /\ u_id u = c_user_id c) /\
     (c_order_id c = None -> cb_order r = None) /\
     (forall oid, c_order_id c = Some oid -> oid <> 0 ->
      (cb_order r = None <-> forall o, In o (orders st) -> o_id o <> oid))).
Proof.
  split; [|split].
  - intros Habs. apply (proj2 (complaint_absent_iff st cid)) in Habs.
    unfold get_complaint_context_logs. now rewrite Habs.
  - intros [c [Hin Hid]] HN.
    unfold get_complaint_context_logs in HN.
    destruct (fetch_one (complaint_by_id st cid)) as [c'|] eqn:E.
    + destruct (truthy (c_order_id c')); discriminate.
    + exact (proj1 (complaint_absent_iff st cid) E c Hin Hid).
  - intros c Hc.
    assert (Huser :
      fetch_one (user_by_id st (c_user_id c)) <> None <->
      exists u, In u (users st) /\ u_id u = c_user_id c).
    { unfold user_by_id. rewrite fetch_one_filter_is_Some.
      split; intros [u [Hin Hu]]; exists u; split; auto;
        now apply Z.eqb_eq. }
    unfold get_complaint_context_logs. rewrite Hc.
    destruct (c_order_id c) as [oid|] eqn:Ho; simpl.
    + destruct (oid =? 0) eqn:Hz; simpl; eexists; (split; [reflexivity|]);
        simpl; (split; [reflexivity|]); (split; [exact Huser|]);
        (split; [discriminate|]); intros oid' Heq Hnz;
        injection Heq as <-.
      * apply Z.eqb_eq in Hz. contradiction.
      * unfold order_by_id. rewrite fetch_one_filter_None.
        split; intros H o Hin; specialize (H o Hin); now apply Z.eqb_neq.
    + eexists. split; [reflexivity|]. simpl.
      split; [reflexivity|]. split; [exact Huser|].
      split; [reflexivity|]. discriminate.
Qed.

(** C8.  An absent complaint id gives [None].  A present one gives a bundle
    on its complaint, in which the user is non-null whenever (and only
    when) the referenced user row exists, and is then a row with that id;
    and the order is null if and only if the complaint's [order_id] is
    null, and is otherwise an order with that id. *)
Theorem complaint_context_links (st : store) (cid wh : Z) :
  order_ids_from_one st = true ->
  complaint_orders_exist st = true ->
  List.NoDup (List.map c_id (complaints st)) ->
  ((forall c, In c (complaints st) -> c_id c <> cid) ->
   get_complaint_context_logs st cid wh = None) /\
  (forall c, In c (complaints st) -> c_id c = cid ->
   exists r,
     get_complaint_context_logs st cid wh = Some r /\
     cb_complaint r = c /\
     (cb_user r <> None <->
      exists u, In u (users st) /\ u_id u = c_user_id c) /\
     (forall u, cb_user r = Some u ->
                In u (users st) /\ u_id u = c_user_id c) /\
     (cb_order r = None <-> c_order_id c = None) /\
     (forall o, cb_order r = Some o ->
                In o (orders st) /\ c_order_id c = Some (o_id o))).
Proof.
  intros Hids Hfk Hnd.
  destruct (context_links_any_store st cid wh) as [Habsent [_ Hpresent]].
  split; [exact Habsent|].
  intros c Hin Hid.
  assert (Hc : fetch_one (complaint_by_id st cid) = Some c).
  { unfold complaint_by_id. rewrite <- Hid. now apply fetch_one_unique. }
  destruct (Hpresent c Hc) as [r [Hget [Hcomp [Huser [Hnull Hsome]]]]].
  exists r. split; [exact Hget|]. split; [exact Hcomp|]. split; [exact Huser|].
  assert (Hr : r = match get_complaint_context_logs st cid wh with
                   | Some r' => r'
                   | None => r
                   end) by now rewrite Hget.
  unfold get_complaint_context_logs in Hr. rewrite Hc in Hr.
  split.
  { intros u Hu. rewrite Hr in Hu.
    assert (Hfound : fetch_one (user_by_id st (c_user_id c)) = Some u).
    { destruct (truthy (c_order_id c)); exact Hu. }
    unfold user_by_id in Hfound. apply fetch_one_filter_Some in Hfound.
    destruct Hfound as [Hu1 Hu2]. apply Z.eqb_eq in Hu2. now split. }
  destruct (c_order_id c) as [oid|] eqn:Ho.
  - destruct (complaint_order_id_nonzero st c oid Hids Hfk Hin Ho)
      as [Hnz [o [Ho1 Ho2]]].
    split.
    + split; [|discriminate]. intros Hnone. exfalso.
      exact (proj1 (Hsome oid eq_refl Hnz) Hnone o Ho1 Ho2).
    + intros o' Ho'. rewrite Hr in Ho'.
      rewrite (truthy_nonzero _ Hnz) in Ho'. cbn [cb_order] in Ho'.
      unfold order_by_id in Ho'. apply fetch_one_filter_Some in Ho'.
      destruct Ho' as [Ho3 Ho4]. apply Z.eqb_eq in Ho4. split; [exact Ho3|].
      now rewrite Ho4.
  - split.
    + split; [reflexivity|]. intros _. now apply Hnull.
    + intros o Ho'. rewrite (Hnull eq_refl) in Ho'. discriminate.
Qed.

(** In the scenario complaint 99 is absent, complaint 7 names order 15 and
    complaint 8 names no order. *)
Lemma complaint_context_links_witness :
  get_complaint_context_logs store_scenario 99 48 = None /\
  (exists r, get_complaint_context_logs store_scenario 7 48 = Some r /\
             option_map u_id (cb_user r) = Some 5 /\
             option_map o_id (cb_order r) = Some 15) /\
  (exists r, get_complaint_context_logs store_scenario 8 48 = Some r /\
             option_map u_id (cb_user r) = Some 5 /\
             cb_order r = None).
Proof.
  assert (Hnd : List.NoDup (List.map c_id (complaints store_scenario))).
  { repeat constructor; simpl; intuition discriminate. }
  split; [|split].
  - apply (complaint_context_links store_scenario 99 48 eq_refl eq_refl Hnd).
    intros c [<-|[<-|[]]]; discriminate.
  - destruct (proj2 (complaint_context_links store_scenario 7 48 eq_refl eq_refl Hnd)
                (mk_complaint 7 5 (Some 15) "2024-03-05T10:00:00")
                (or_introl eq_refl) eq_refl)
      as [r [Hget _]].
    exists r. split; [exact Hget|].
    assert (Hr : Some r = get_complaint_context_logs store_scenario 7 48)
      by (symmetry; exact Hget).
    vm_compute in Hr. injection Hr as ->. split; reflexivity.
  - destruct (proj2 (complaint_context_links store_scenario 8 48 eq_refl eq_refl Hnd)
                (mk_complaint 8 5 None "2024-03-06T10:00:00")
                (or_intror (or_introl eq_refl)) eq_refl)
      as [r [Hget [_ [_ [_ [Hnull _]]]]]].
    exists r. split; [exact Hget|]. split; [|now apply Hnull].
    assert (Hr : Some r = get_complaint_context_logs store_scenario 8 48)
      by (symmetry; exact Hget).
    vm_compute in Hr. injection Hr as ->. reflexivity.
Defined.

(** The scenario of the specification: complaint 7 with order 15. *)
Example context_scenario_complaint_7 :
  option_map (fun r => (List.map p_id (cb_payment_logs r),
                        List.map l_id (cb_logistics_logs r),
                        option_map o_id (cb_order r),
                        option_map u_id (cb_user r)))
    (get_complaint_context_logs store_scenario 7 48)
  = Some ([1; 2], [1; 2; 3], Some 15, Some 5).
Proof. reflexivity. Qed.

Example julianday_iso_2024 :
  julianday_iso "2024-01-01T12:00:00" = Some (2460311 # 1).
Proof. reflexivity. Qed.

(** ** MIN and MAX over a TEXT column *)

Lemma fold_min_spec (r : list string) (x : string) :
  let m := fold_left (fun m y => if Text.leb y m then y else m) r x in
  In m (x :: r) /\ forall y, In y (x :: r) -> Text.le m y.
Proof.
  revert x. induction r as [|z r IH]; intros x; simpl.
  - split; [now left|]. intros y [<-|[]]. apply TextFacts.leb_refl.
  - destruct (Text.leb z x) eqn:Hzx.
    + destruct (IH z) as [Hin Hle]. split.
      * right. exact Hin.
      * intros y [<-|Hy]; [|now apply Hle].
        eapply TextFacts.leb_trans; [apply Hle; now left | exact Hzx].
    + destruct (IH x) as [Hin Hle]. split.
      * destruct Hin as [Heq|Hin]; [left; exact Heq | right; right; exact Hin].
      * intros y [<-|[<-|Hy]].
        -- apply Hle. now left.
        -- eapply TextFacts.leb_trans; [apply Hle; now left|].
           now apply TextFacts.leb_false_flip.
        -- apply Hle. now right.
Qed.

Lemma fold_max_spec (r : list string) (x : string) :
  let m := fold_left (fun m y => if Text.leb m y then y else m) r x in
  In m (x :: r) /\ forall y, In y (x :: r) -> Text.le y m.
Proof.
  revert x. induction r as [|z r IH]; intros x; simpl.
  - split; [now left|]. intros y [<-|[]]. apply TextFacts.leb_refl.
  - destruct (Text.leb x z) eqn:Hxz.
    + destruct (IH z) as [Hin Hle]. split.
      * right. exact Hin.
      * intros y [<-|Hy]; [|now apply Hle].
        eapply TextFacts.leb_trans; [exact Hxz | apply Hle; now left].
    + destruct (IH x) as [Hin Hle]. split.
      * destruct Hin as [Heq|Hin]; [left; exact Heq | right; right; exact Hin].
      * intros y [<-|[<-|Hy]].
        -- apply Hle. now left.
        -- eapply TextFacts.leb_trans; [|apply Hle; now left].
           now apply TextFacts.leb_false_flip.
        -- apply Hle. now right.
Qed.

Lemma min_text_earliest (l : list string) : is_earliest l (min_text l).
Proof.
  destruct l as [|x r]; simpl; [reflexivity|]. apply fold_min_spec.
Qed.

Lemma max_text_latest (l : list string) : is_latest l (max_text l).
Proof.
  destruct l as [|x r]; simpl; [reflexivity|]. apply fold_max_spec.
Qed.

Lemma event_times_nil (st : store) (oid : Z) (ty : string) :
  event_times st oid ty = [] <->
  (forall l, In l (logistics_logs st) -> l_order_id l = oid -> l_event_type l <> ty).
Proof.
  unfold event_times. split.
  - intros H l Hin Hoid Hty.
    assert (Hl : In (l_logged_at l)
      (List.map l_logged_at
         (List.filter (fun l => (l_order_id l =? oid) && (l_event_type l =? ty)%string)
            (logistics_logs st)))).
    { apply in_map, filter_In. split; [exact Hin|].
      apply andb_true_iff. split; [now apply Z.eqb_eq | now apply String.eqb_eq]. }
    rewrite H in Hl. contradiction.
  - intros H.
    destruct (List.filter _ (logistics_logs st)) as [|l r] eqn:E; [reflexivity|].
    assert (Hl : In l (List.filter
      (fun l => (l_order_id l =? oid) && (l_event_type l =? ty)%string)
      (logistics_logs st))) by (rewrite E; now left).
    apply filter_In in Hl. destruct Hl as [Hin Hb].
    apply andb_true_iff in Hb. destruct Hb as [H1 H2].
    apply Z.eqb_eq in H1. apply String.eqb_eq in H2.
    exfalso. exact (H l Hin H1 H2).
Qed.

(** ** [get_order_delivery_time] *)

Lemma hours_between_None_l (julianday : string -> option Q) (b : option string) :
  hours_between julianday None b = None.
Proof. reflexivity. Qed.

Lemma hours_between_None_r (julianday : string -> option Q) (a : option string) :
  hours_between julianday a None = None.
Proof.
  unfold hours_between. destruct (julianday_null julianday a); reflexivity.
Qed.

(** [ROUND(x, 1)] is the multiple of a tenth nearest to [x], the one away
    from zero when two are equally near. *)
Lemma sql_round_tenth (x : Q) :
  (exists n : Z, sql_round 1 x == n # 10)%Q /\
  (Qabs (sql_round 1 x - x) <= 1 # 20)%Q /\
  (Qabs (sql_round 1 x - x) == 1 # 20 -> Qabs x < Qabs (sql_round 1 x))%Q.
Proof.
  unfold sql_round. change (10 ^ 1) with 10. change (Z.to_pos 10) with 10%positive.
  cbv zeta.
  set (n := Qfloor (Qabs x * inject_Z 10 + (1 # 2))).
  pose proof (Qfloor_le (Qabs x * inject_Z 10 + (1 # 2))) as Hlo.
  pose proof (Qlt_floor (Qabs x * inject_Z 10 + (1 # 2))) as Hhi.
  fold n in Hlo, Hhi.
  rewrite inject_Z_plus in Hhi.
  assert (Hq : forall s : Z, (s # 10 == inject_Z s * (1 # 10))%Q).
  { intros s. unfold Qeq. simpl. lia. }
  destruct (Qle_bool 0 x) eqn:Hsign.
  - apply Qle_bool_iff in Hsign.
    assert (Habs : (Qabs x == x)%Q) by now apply Qabs_pos.
    rewrite Habs in Hlo, Hhi.
    split; [exists n; apply Qred_correct|].
    rewrite !Qred_correct, Hq.
    change (inject_Z 10) with (10#1)%Q in *. change (inject_Z 1) with 1%Q in *.
    split.
    + apply Qabs_Qle_condition. split; lra.
    + intros Htie.
      assert (Hd : (inject_Z n * (1 # 10) - x == 1 # 20)%Q).
      { destruct (Qlt_le_dec (inject_Z n * (1 # 10) - x) 0) as [Hneg|Hpos].
        - rewrite Qabs_neg in Htie by lra. lra.
        - rewrite Qabs_pos in Htie by lra. exact Htie. }
      rewrite Habs, Qabs_pos by lra. lra.
  - assert (Hneg : (x < 0)%Q).
    { apply Qnot_le_lt. intros H. apply Qle_bool_iff in H. congruence. }
    assert (Habs : (Qabs x == - x)%Q) by (apply Qabs_neg; lra).
    rewrite Habs in Hlo, Hhi.
    split; [exists (- n); apply Qred_correct|].
    rewrite !Qred_correct, Hq, inject_Z_opp.
    change (inject_Z 10) with (10#1)%Q in *. change (inject_Z 1) with 1%Q in *.
    split.
    + apply Qabs_Qle_condition. split; lra.
    + intros Htie.
      assert (Hd : (- inject_Z n * (1 # 10) - x == - (1 # 20))%Q).
      { destruct (Qlt_le_dec (- inject_Z n * (1 # 10) - x) 0) as [Hn|Hp].
        - rewrite Qabs_neg in Htie by lra. lra.
        - rewrite Qabs_pos in Htie by lra. lra. }
      rewrite Habs, Qabs_neg by lra. lra.
Qed.

(** A duration between two timestamps: the rounded difference of their
    Julian days in hours, NULL when one of them is not a date. *)
Lemma hours_between_rounded (julianday : string -> option Q) (later earlier : string) :
  match julianday later, julianday earlier with
  | Some jl, Some je =>
      exists q,
        option_map (sql_round 1)
          (hours_between julianday (Some later) (Some earlier)) = Some q /\
        q = sql_round 1 ((jl - je) * 24) /\
        (exists n : Z, q == n # 10)%Q /\
        (Qabs (q - (jl - je) * 24) <= 1 # 20)%Q /\
        (Qabs (q - (jl - je) * 24) == 1 # 20 -> Qabs ((jl - je) * 24) < Qabs q)%Q
  | _, _ =>
      option_map (sql_round 1)
        (hours_between julianday (Some later) (Some earlier)) = None
  end.
Proof.
  unfold hours_between, julianday_null.
  destruct (julianday later) as [jl|]; [|reflexivity].
  destruct (julianday earlier) as [je|]; [|reflexivity].
  eexists. split; [reflexivity|]. split; [reflexivity|].
  apply sql_round_tenth.
Qed.

(** C7.  For an order of the store (order ids are unique) the row carries
    the order's id, item, tracking number and [ordered_at].  [shipped_at]
    is the time of the order's earliest "dispatched" event and
    [delivered_at] that of its latest "delivered" event, each NULL when the
    order has no such event.  [processing_hours], [shipping_hours] and
    [total_hours] are the differences shipped - ordered, delivered - shipped
    and delivered - ordered of the Julian days, in hours, rounded to the
    nearest tenth (away from zero on a tie); a duration is NULL, not 0, as
    soon as one of its anchors is missing or is not a date, whatever the
    order row (its status included) says. *)
Theorem order_delivery_time_anchors
    (julianday : string -> option Q) (st : store) (oid : Z) (o : order_row) :
  List.NoDup (List.map o_id (orders st)) ->
  In o (orders st) ->
  o_id o = oid ->
  let hour_difference (later earlier : string) (h : option Q) : Prop :=
    match julianday later, julianday earlier with
    | Some jl, Some je =>
        exists q,
          h = Some q /\
          q = sql_round 1 ((jl - je) * 24) /\
          (exists n : Z, q == n # 10)%Q /\
          (Qabs (q - (jl - je) * 24) <= 1 # 20)%Q /\
          (Qabs (q - (jl - je) * 24) == 1 # 20 -> Qabs ((jl - je) * 24) < Qabs q)%Q
    | _, _ => h = None
    end in
  exists r,
    get_order_delivery_time julianday st oid = Some r /\
    dt_order_id r = oid /\
    dt_item r = o_item o /\
    dt_tracking_number r = o_tracking_number o /\
    dt_ordered_at r = o_ordered_at o /\
    match dt_shipped_at r with
    | Some s =>
        (exists l, In l (logistics_logs st) /\ l_order_id l = oid /\
                   l_event_type l = "dispatched" /\ l_logged_at l = s) /\
        (forall l, In l (logistics_logs st) -> l_order_id l = oid ->
                   l_event_type l = "dispatched" ->
                   String.leb s (l_logged_at l) = true)
    | None =>
        forall l, In l (logistics_logs st) -> l_order_id l = oid ->
                  l_event_type l <> "dispatched"
    end /\
    match dt_delivered_at r with
    | Some d =>
        (exists l, In l (logistics_logs st) /\ l_order_id l = oid /\
                   l_event_type l = "delivered" /\ l_logged_at l = d) /\
        (forall l, In l (logistics_logs st) -> l_order_id l = oid ->
                   l_event_type l = "delivered" ->
                   String.leb (l_logged_at l) d = true)
    | None =>
        forall l, In l (logistics_logs st) -> l_order_id l = oid ->
                  l_event_type l <> "delivered"
    end /\
    match dt_shipped_at r with
    | Some s => hour_difference s (o_ordered_at o) (dt_processing_hours r)
    | None => dt_processing_hours r = None
    end /\
    match dt_delivered_at r, dt_shipped_at r with
    | Some d, Some s => hour_difference d s (dt_shipping_hours r)
    | _, _ => dt_shipping_hours r = None
    end /\
    match dt_delivered_at r with
    | Some d => hour_difference d (o_ordered_at o) (dt_total_hours r)
    | None => dt_total_hours r = None
    end /\
    ((forall l, In l (logistics_logs st) -> l_order_id l = oid ->
                l_event_type l <> "dispatched") ->
     dt_shipped_at r = None /\ dt_processing_hours r = None /\
     dt_shipping_hours r = None) /\
    ((forall l, In l (logistics_logs st) -> l_order_id l = oid ->
                l_event_type l <> "delivered") ->
     dt_delivered_at r = None /\ dt_shipping_hours r = None /\
     dt_total_hours r = None).
Proof.
  intros Hnd Hin Hid hour_difference.
  assert (Ho : fetch_one (order_by_id st oid) = Some o).
  { unfold order_by_id. rewrite <- Hid. now apply fetch_one_unique. }
  assert (Hevent : forall ty t,
    In t (event_times st oid ty) <->
    exists l, In l (logistics_logs st) /\ l_order_id l = oid /\
              l_event_type l = ty /\ l_logged_at l = t).
  { intros ty t. unfold event_times. rewrite in_map_iff. split.
    - intros [l [Ht Hl]]. apply filter_In in Hl. destruct Hl as [Hl Hb].
      apply andb_true_iff in Hb. destruct Hb as [H1 H2].
      apply Z.eqb_eq in H1. apply String.eqb_eq in H2. exists l. now repeat split.
    - intros [l [Hl [H1 [H2 Ht]]]]. exists l. split; [exact Ht|].
      apply filter_In. split; [exact Hl|]. apply andb_true_iff.
      split; [now apply Z.eqb_eq | now apply String.eqb_eq]. }
  unfold get_order_delivery_time.
  unfold fetch_one in *.
  destruct (order_by_id st oid) as [|o' rest]; simpl in Ho; [discriminate|].
  injection Ho as ->. simpl. eexists. split; [reflexivity|].
  unfold delivery_time_of; simpl. rewrite Hid.
  unfold dispatch_shipped_at, delivery_delivered_at.
  fold (event_times st oid "dispatched") (event_times st oid "delivered").
  pose proof (min_text_earliest (event_times st oid "dispatched")) as Hmin.
  pose proof (max_text_latest (event_times st oid "delivered")) as Hmax.
  pose proof (event_times_nil st oid "dispatched") as Hnil_s.
  pose proof (event_times_nil st oid "delivered") as Hnil_d.
  destruct (min_text (event_times st oid "dispatched")) as [s|];
    destruct (max_text (event_times st oid "delivered")) as [d|];
    simpl in Hmin, Hmax;
    repeat (split; [reflexivity|]).
  - destruct Hmin as [Hs Hsle]. destruct Hmax as [Hd Hdle].
    split; [split; [now apply Hevent|]|].
    { intros l Hl H1 H2. apply Hsle. apply Hevent. exists l. now repeat split. }
    split; [split; [now apply Hevent|]|].
    { intros l Hl H1 H2. apply Hdle. apply Hevent. exists l. now repeat split. }
    split; [apply hours_between_rounded|].
    split; [apply hours_between_rounded|].
    split; [apply hours_between_rounded|].
    split; intros Hnone.
    + apply Hnil_s in Hnone. rewrite Hnone in Hs. contradiction.
    + apply Hnil_d in Hnone. rewrite Hnone in Hd. contradiction.
  - destruct Hmin as [Hs Hsle].
    split; [split; [now apply Hevent|]|].
    { intros l Hl H1 H2. apply Hsle. apply Hevent. exists l. now repeat split. }
    split; [now apply Hnil_d|].
    split; [apply hours_between_rounded|].
    split; [reflexivity|]. split; [reflexivity|].
    split; intros Hnone.
    + apply Hnil_s in Hnone. rewrite Hnone in Hs. contradiction.
    + now repeat split.
  - destruct Hmax as [Hd Hdle].
    split; [now apply Hnil_s|].
    split; [split; [now apply Hevent|]|].
    { intros l Hl H1 H2. apply Hdle. apply Hevent. exists l. now repeat split. }
    split; [reflexivity|].
    split; [now rewrite hours_between_None_r|].
    split; [apply hours_between_rounded|].
    split; intros Hnone.
    + split; [reflexivity|]. split; [reflexivity|].
      now rewrite hours_between_None_r.
    + apply Hnil_d in Hnone. rewrite Hnone in Hd. contradiction.
  - split; [now apply Hnil_s|]. split; [now apply Hnil_d|].
    split; [reflexivity|]. split; [reflexivity|]. split; [reflexivity|].
    split; intros _; now repeat split.
Qed.

(** The scenario of the specification: order 15 was ordered on 1 March at
    09:00, dispatched on 2 March at 08:00 and delivered on 4 March at 18:00:
    23, 58 and 81 hours. *)
Lemma order_delivery_time_anchors_witness :
  exists r,
    get_order_delivery_time julianday_iso store_scenario 15 = Some r /\
    dt_shipped_at r = Some "2024-03-02T08:00:00" /\
    dt_delivered_at r = Some "2024-03-04T18:00:00" /\
    dt_processing_hours r = Some 23%Q /\
    dt_shipping_hours r = Some 58%Q /\
    dt_total_hours r = Some 81%Q.
Proof.
  destruct (order_delivery_time_anchors julianday_iso store_scenario 15
              (mk_order 15 5 1200 "shipped" "2024-03-01T09:00:00"))
    as [r [Hget _]].
  - repeat constructor; simpl; intuition discriminate.
  - now left.
  - reflexivity.
  - exists r. split; [exact Hget|].
    assert (Hr : Some r = get_order_delivery_time julianday_iso store_scenario 15)
      by (symmetry; exact Hget).
    vm_compute in Hr. injection Hr as ->.
    repeat split.
Defined.

Example order_delivery_time_scenario :
  option_map (fun r => (dt_shipped_at r, dt_delivered_at r,
                        dt_processing_hours r, dt_shipping_hours r, dt_total_hours r))
    (get_order_delivery_time julianday_iso store_scenario 15)
  = Some (Some "2024-03-02T08:00:00", Some "2024-03-04T18:00:00",
          Some 23%Q, Some 58%Q, Some 81%Q).
Proof. reflexivity. Qed.

(** Order 2 of [store_two_users] has the status "shipped" and no logistics
    event at all: every anchor and every duration is NULL. *)
Example order_delivery_time_shipped_undispatched :
  option_map (fun r => (dt_shipped_at r, dt_delivered_at r,
                        dt_processing_hours r, dt_shipping_hours r, dt_total_hours r))
    (get_order_delivery_time julianday_iso store_two_users 2)
  = Some (None, None, None, None, None).
Proof. reflexivity. Qed.

(** ** [get_carrier_performance] *)

Lemma sql_avg_all_null (l : list (option Q)) :
  (forall v, In v l -> v = None) -> sql_avg l = None.
Proof.
  intros H. unfold sql_avg.
  assert (E : List.flat_map
                (fun v : option Q => match v with Some q => [q] | None => [] end) l = []).
  { induction l as [|v l IH]; simpl; [reflexivity|].
    rewrite (H v (or_introl eq_refl)). simpl. apply IH.
    intros w Hw. apply H. now right. }
  now rewrite E.
Qed.

(** A carrier none of whose orders has both anchors reports a NULL average. *)
Lemma carrier_average_null (julianday : string -> option Q) (st : store) (carrier : string) :
  (forall oid, In oid (carrier_orders st carrier) ->
               delivery_span julianday st oid = None) ->
  cp_avg_delivery_hours (carrier_group julianday st carrier) = None.
Proof.
  intros H. unfold carrier_group; simpl.
  rewrite sql_avg_all_null; [reflexivity|].
  intros v Hv. apply in_map_iff in Hv. destruct Hv as [ll [<- Hll]].
  apply H. unfold carrier_orders. apply nodup_In. now apply in_map.
Qed.

(** The output has one row per carrier that occurs in the log. *)
Lemma carrier_performance_rows (julianday : string -> option Q) (st : store) (r : carrier_row) :
  In r (get_carrier_performance julianday st) <->
  exists l, In l (logistics_logs st) /\ r = carrier_group julianday st (l_carrier l).
Proof.
  unfold get_carrier_performance, fetch_all.
  rewrite <- (Permutation_in' (eq_refl r) (order_by_desc_perm cp_orders_handled _)).
  rewrite in_map_iff. split.
  - intros [c [<- Hc]]. apply nodup_In, in_map_iff in Hc.
    destruct Hc as [l [<- Hl]]. now exists l.
  - intros [l [Hl ->]]. exists (l_carrier l). split; [reflexivity|].
    apply nodup_In. now apply in_map.
Qed.

(** When a carrier logged a single event per order, the average of the code
    is the per-order average of the specification. *)
Lemma carrier_average_single_events (julianday : string -> option Q) (st : store)
    (carrier : string) :
  List.NoDup (List.map l_order_id (carrier_events st carrier)) ->
  cp_avg_delivery_hours (carrier_group julianday st carrier)
  = spec_avg_delivery_hours julianday st carrier.
Proof.
  intros Hnd. unfold spec_avg_delivery_hours, carrier_group, carrier_orders; simpl.
  rewrite (nodup_fixed_point Z.eq_dec Hnd). now rewrite List.map_map.
Qed.

(** C2 (on [store_two_orders]).  BlueDart has order 1 (two events, a span of
    24 hours) and order 2 (four events, a span of 96 hours).  The average
    over the two orders is 60 hours; the code averages over the six event
    rows of the join and reports 72.  Ekart, with no delivered order,
    reports NULL. *)
Theorem carrier_average_counts_events :
  List.map (fun r => (cp_carrier r, cp_total_events r, cp_orders_handled r,
                      cp_avg_delivery_hours r))
    (get_carrier_performance julianday_iso store_two_orders)
  = [("BlueDart", 6, 2, Some 72%Q); ("Ekart", 1, 1, None)] /\
  option_map Qred (delivery_span julianday_iso store_two_orders 1) = Some 24%Q /\
  option_map Qred (delivery_span julianday_iso store_two_orders 2) = Some 96%Q /\
  spec_avg_delivery_hours julianday_iso store_two_orders "BlueDart" = Some 60%Q.
Proof. repeat split. Qed.

(** ** [get_top_customers] and [get_user_lifetime_value] *)

Lemma sql_limit_In {A : Type} (n : Z) (l : list A) (x : A) :
  In x (sql_limit n l) -> In x l.
Proof.
  unfold sql_limit. destruct (n <? 0); [auto|].
  generalize (Z.to_nat n) as k. intros k. revert l.
  induction k as [|k IH]; intros [|y l]; simpl; try contradiction.
  intros [->|H]; [now left | right; now apply IH].
Qed.

Lemma orders_of_user_nil (st : store) (uid : Z) :
  (forall o, In o (orders st) -> o_user_id o <> uid) ->
  orders_of_user st uid = [].
Proof.
  intros H. unfold orders_of_user.
  destruct (List.filter _ (orders st)) as [|o r] eqn:E; [reflexivity|].
  assert (Ho : In o (List.filter (fun o => o_user_id o =? uid) (orders st)))
    by (rewrite E; now left).
  apply filter_In in Ho. destruct Ho as [Hin Hb]. apply Z.eqb_eq in Hb.
  exfalso. exact (H o Hin Hb).
Qed.

(** Every row of [get_top_customers] is the row of a user who placed an
    order of the orders table. *)
Lemma top_customers_have_orders (st : store) (limit : Z) (r : top_customer_row) :
  In r (get_top_customers st limit) ->
  exists o, In o (orders st) /\ o_user_id o = tc_user_id r.
Proof.
  unfold get_top_customers, fetch_all. intros Hr.
  apply sql_limit_In in Hr.
  apply (Permutation_in r (Permutation_sym (sort_by_perm _ _))) in Hr.
  apply in_flat_map in Hr. destruct Hr as [uid [_ Hr]].
  unfold top_customer_group in Hr.
  destruct (List.filter _ (users_join_orders st)) as [|[u o] rest] eqn:E;
    [contradiction|].
  destruct Hr as [<-|[]]. simpl.
  assert (Huo : In (u, o)
    (List.filter (fun uo => u_id (fst uo) =? uid) (users_join_orders st)))
    by (rewrite E; now left).
  apply filter_In in Huo. destruct Huo as [Huo _].
  unfold users_join_orders in Huo. apply in_flat_map in Huo.
  destruct Huo as [u' [_ Huo]]. apply in_map_iff in Huo.
  destruct Huo as [o' [Heq Ho']]. injection Heq as -> ->.
  unfold orders_of_user in Ho'. apply filter_In in Ho'.
  destruct Ho' as [Hin Hb]. apply Z.eqb_eq in Hb. now exists o.
Qed.

Lemma left_join_no_orders (st : store) (us : list user_row) :
  (forall u, In u us -> orders_of_user st (u_id u) = []) ->
  users_left_join_orders us st = List.map (fun u => (u, None)) us.
Proof.
  induction us as [|u us IH]; intros H; simpl; [reflexivity|].
  rewrite (H u (or_introl eq_refl)). simpl. f_equal.
  apply IH. intros u' Hu'. apply H. now right.
Qed.

Lemma no_order_columns (us : list user_row) :
  List.flat_map
    (fun uo : user_row * option order_row =>
       match snd uo with Some o => [o] | None => [] end)
    (List.map (fun u => (u, None)) us) = [].
Proof. induction us as [|u us IH]; simpl; auto. Qed.

(** C10.  A user without orders is in no row of [get_top_customers],
    whatever the limit (inner join), and [get_user_lifetime_value] still
    returns that user's row, with [total_orders = 0] and [total_spent = 0]
    (left join). *)
Theorem zero_order_user_inner_vs_left_join (st : store) (u : user_row) :
  In u (users st) ->
  (forall o, In o (orders st) -> o_user_id o <> u_id u) ->
  (forall limit r, In r (get_top_customers st limit) -> tc_user_id r <> u_id u) /\
  (exists r,
     get_user_lifetime_value st (u_id u) = Some r /\
     lv_id r = u_id u /\ lv_total_orders r = 0 /\ lv_total_spent r = 0%Q).
Proof.
  intros Hu Hno. split.
  - intros limit r Hr Heq.
    destruct (top_customers_have_orders st limit r Hr) as [o [Hin Ho]].
    apply (Hno o Hin). congruence.
  - unfold get_user_lifetime_value.
    assert (Hids : forall u', In u' (user_by_id st (u_id u)) -> u_id u' = u_id u).
    { intros u' Hu'. unfold user_by_id in Hu'. apply filter_In in Hu'.
      now apply Z.eqb_eq. }
    rewrite left_join_no_orders.
    2:{ intros u' Hu'. rewrite (Hids u' Hu'). now apply orders_of_user_nil. }
    assert (Hne : In u (user_by_id st (u_id u))).
    { unfold user_by_id. apply filter_In. split; [exact Hu | apply Z.eqb_refl]. }
    destruct (user_by_id st (u_id u)) as [|u0 us] eqn:E; [contradiction|].
    simpl. eexists. split; [reflexivity|]. simpl.
    rewrite !(no_order_columns us). simpl.
    split; [apply Hids; now left|]. split; reflexivity.
Qed.

(** In [store_two_users], user 2 has placed no order. *)
Lemma zero_order_user_inner_vs_left_join_witness :
  (forall limit r, In r (get_top_customers store_two_users limit) ->
                   tc_user_id r <> 2) /\
  (exists r,
     get_user_lifetime_value store_two_users 2 = Some r /\
     lv_id r = 2 /\ lv_total_orders r = 0 /\ lv_total_spent r = 0%Q).
Proof.
  apply (zero_order_user_inner_vs_left_join store_two_users
           (mk_user 2 "vikram" "Kochi")).
  - right. left. reflexivity.
  - intros o [<-|[<-|[]]]; simpl; lia.
Defined.

Example top_customers_two_users :
  List.map (fun r => (tc_user_id r, tc_order_count r, tc_total_spent r))
    (get_top_customers store_two_users 10)
  = [(1, 2, Some (701 # 2))].
Proof. reflexivity. Qed.

(** ** [_with_conn]: the connection is released on every exit path *)

Module ConnFacts.
Import Conn.

Lemma close_not_open (conn : nat) (p : pool) : conn ∉ open_handles (close conn p).
Proof.
  simpl. intros Hin. apply elem_of_difference in Hin.
  destruct Hin as [_ Hnot]. apply Hnot. now apply elem_of_singleton.
Qed.

Lemma close_after_open (conn : nat) (handles : gset nat) :
  conn ∉ handles -> ({[conn]} ∪ handles) ∖ {[conn]} = handles.
Proof.
  intros Hfresh. apply set_eq. intros h.
  rewrite elem_of_difference, elem_of_union, elem_of_singleton.
  split.
  - intros [[->|Hh] Hne]; [contradiction | exact Hh].
  - intros Hh. split; [now right|]. intros ->. contradiction.
Qed.

Lemma with_conn_connect_error {A : Type} (e : pyexc) (fn : query A) (p : pool) :
  _with_conn (Some e) fn p = (Raised e, p).
Proof. reflexivity. Qed.

Lemma with_conn_result {A : Type} (fn : query A) (p : pool) :
  let conn := next_handle p in
  let p1 := {| next_handle := S conn; open_handles := {[conn]} ∪ open_handles p |} in
  _with_conn None fn p = (fst (fn conn p1), close conn (snd (fn conn p1))).
Proof. unfold _with_conn. simpl. now destruct (fn _ _). Qed.

(** C9.  [_with_conn] opens a connection of its own (a handle no other open
    connection has), hands it to the wrapped function, and closes it whether
    the function returns or raises; the result or the exception is passed on.  Around a function that only reads,
    the open connections after the call are those before it: nothing leaks. *)
Theorem with_conn_closes_on_every_exit {A : Type} (fn : query A) (p : pool) :
  exists conn p1,
    get_connection None p = (Returned conn, p1) /\
    conn ∈ open_handles p1 /\
    (pool_ok p -> conn ∉ open_handles p) /\
    (forall v p2, fn conn p1 = (Returned v, p2) ->
       _with_conn None fn p = (Returned v, close conn p2) /\
       conn ∉ open_handles (snd (_with_conn None fn p))) /\
    (forall e p2, fn conn p1 = (Raised e, p2) ->
       _with_conn None fn p = (Raised e, close conn p2) /\
       conn ∉ open_handles (snd (_with_conn None fn p))) /\
    (pool_ok p -> read_only fn ->
       open_handles (snd (_with_conn None fn p)) = open_handles p).
Proof.
  eexists. eexists. split; [reflexivity|]. split.
  { simpl. apply elem_of_union_l. now apply elem_of_singleton. }
  pose proof (with_conn_result fn p) as Hres. simpl in Hres.
  split; [|split; [|split]].
  - intros Hok Hin. apply Hok in Hin. lia.
  - intros v p2 Hfn. rewrite Hres, Hfn. split; [reflexivity|].
    apply close_not_open.
  - intros e p2 Hfn. rewrite Hres, Hfn. split; [reflexivity|].
    apply close_not_open.
  - intros Hok Hro. rewrite Hres. simpl. rewrite Hro. simpl.
    apply close_after_open. intros Hin. apply Hok in Hin. lia.
Qed.

Example with_conn_returns :
  _with_conn None (count_rows 3) fresh_pool
  = (Returned 3, {| next_handle := 1; open_handles := ({[0%nat]} ∪ ∅) ∖ {[0%nat]} |}).
Proof. reflexivity. Qed.

Example with_conn_raises_closed :
  fst (_with_conn None locked fresh_pool)
    = Raised (OperationalError "database is locked") /\
  open_handles (snd (_with_conn None locked fresh_pool)) = ∅.
Proof.
  split; [reflexivity|]. simpl. apply close_after_open.
  apply not_elem_of_empty.
Qed.

End ConnFacts.

(** ** The dispatcher fails before it reaches the repository *)

Module ServerFacts.
Import Server.

Lemma catalog_indexes_required : forallb indexes_required TOOLS = true.
Proof. vm_compute. reflexivity. Qed.

Lemma dispatch_keys : dispatch_entries.*1 = tool_name <$> TOOLS.
Proof. reflexivity. Qed.

Lemma unregistered_lookup (name : string) :
  ~ In name (map tool_name TOOLS) -> _TOOL_DISPATCH !! name = None.
Proof.
  intros Hnot. unfold _TOOL_DISPATCH.
  apply not_elem_of_list_to_map_1. rewrite dispatch_keys.
  intros Hin. apply Hnot.
  apply list_elem_of_fmap in Hin. destruct Hin as [t [-> Ht]].
  apply in_map. now apply list_elem_of_In.
Qed.

Lemma eval_args_missing_index (a : gmap string json) (xs : list arg_access) (k : string) :
  In (Index k) xs -> a !! k = None ->
  exists k', In (Index k') xs /\ a !! k' = None /\
             eval_args a xs = Raised (KeyError k').
Proof.
  induction xs as [|x xs IH]; intros Hin Hk; [contradiction|].
  destruct x as [k0|k0 d]; simpl.
  - destruct (a !! k0) as [v|] eqn:E0.
    + destruct Hin as [Heq|Hin]; [injection Heq as ->; congruence|].
      destruct (IH Hin Hk) as [k' [H1 [H2 H3]]].
      exists k'. rewrite H3. split; [now right|]. now split.
    + exists k0. split; [now left|]. now split.
  - destruct Hin as [Heq|Hin]; [discriminate|].
    destruct (IH Hin Hk) as [k' [H1 [H2 H3]]].
    exists k'. rewrite H3. split; [now right|]. split; [exact H2|].
    now destruct (a !! k0).
Qed.

Lemma in_indexed_keys (fn : handler) (k : string) :
  In k (indexed_keys fn) <-> In (Index k) (h_args fn).
Proof.
  unfold indexed_keys. rewrite in_flat_map. split.
  - intros [x [Hx Hk]]. destruct x as [k0|k0 d]; [|contradiction].
    destruct Hk as [->|[]]. exact Hx.
  - intros H. exists (Index k). split; [exact H | now left].
Qed.

(** C3.  A name outside the catalog raises [ValueError("Unknown tool: ...")],
    and a catalog tool called without one of its required arguments raises
    the [KeyError] of a missing required key.  In both cases the database is
    handed back as it was, whatever the repository functions would do: none
    of them is called. *)
Theorem dispatch_fails_before_store
    (db : Type) (repo : string -> list json -> db -> outcome pyexc json * db)
    (json_dumps : json -> string) (arguments : gmap string json) (s : db) :
  (forall name, ~ In name (map tool_name TOOLS) ->
     handle_call_tool db repo json_dumps name arguments s
     = (Raised (ValueError (String.append "Unknown tool: " name)), s)) /\
  (forall t k, In t TOOLS -> In k (tool_required t) -> arguments !! k = None ->
     exists k', In k' (tool_required t) /\ arguments !! k' = None /\
       handle_call_tool db repo json_dumps (tool_name t) arguments s
       = (Raised (KeyError k'), s)).
Proof.
  split.
  - intros name Hnot. unfold handle_call_tool.
    now rewrite (unregistered_lookup name Hnot).
  - intros t k Ht Hk Hmiss.
    pose proof catalog_indexes_required as Hall.
    rewrite forallb_forall in Hall. specialize (Hall t Ht).
    unfold indexes_required in Hall.
    destruct (_TOOL_DISPATCH !! tool_name t) as [fn|] eqn:E; [|discriminate].
    apply bool_decide_eq_true_1 in Hall.
    assert (Hidx : In (Index k) (h_args fn)).
    { apply in_indexed_keys. now rewrite Hall. }
    destruct (eval_args_missing_index arguments (h_args fn) k Hidx Hmiss)
      as [k' [H1 [H2 H3]]].
    exists k'. split; [|split; [exact H2|]].
    + rewrite <- Hall. now apply in_indexed_keys.
    + unfold handle_call_tool, apply_handler. now rewrite E, H3.
Qed.

Example dispatch_unknown_tool :
  handle_call_tool nat counting_repo show_json "drop_tables" ∅ 0%nat
  = (Raised (ValueError "Unknown tool: drop_tables"), 0%nat).
Proof. vm_compute. reflexivity. Qed.

Example dispatch_missing_order_id :
  handle_call_tool nat counting_repo show_json "get_order_delivery_time"
    {[ "order" := JInt 15 ]} 0%nat
  = (Raised (KeyError "order_id"), 0%nat).
Proof. vm_compute. reflexivity. Qed.

Example dispatch_reaches_store :
  handle_call_tool nat counting_repo show_json "get_order_delivery_time"
    {[ "order_id" := JInt 15 ]} 0%nat
  = (Returned ["payload"], 1%nat).
Proof. vm_compute. reflexivity. Qed.

End ServerFacts.

(** ** The agent loop *)

Module ClientFacts.
Import Client.

Section AgentFacts.
Variable generate_content : list content -> outcome exception response.
Variable call_tool : string -> list (string * json) -> outcome exception (list (option pystr)).

Lemma first_candidate_parts (r : response) (ct : content) (ps : list part) :
  first_candidate r = Returned (ct, ps) -> parts ct = Some ps.
Proof.
  unfold first_candidate.
  destruct (candidates r) as [[|c cs]|]; try discriminate.
  destruct (candidate_content c) as [ct'|]; try discriminate.
  destruct (parts ct') as [ps'|] eqn:E; try discriminate.
  intros H. injection H as <- <-. exact E.
Qed.

(** The three results of the loop body, read back. *)
Lemma iteration_final (m m' : list content) (t : pystr) :
  agent_iteration generate_content call_tool m = Final t m' ->
  exists ct ps,
    parts ct = Some ps /\ has_function_calls ps = false /\
    t = final_text ps /\ m' = m ++ [ct].
Proof.
  unfold agent_iteration.
  destruct (generate_content m) as [r|e]; [|discriminate].
  destruct (first_candidate r) as [[ct ps]|e] eqn:E; [|discriminate].
  destruct (has_function_calls ps) eqn:Hc; [discriminate|].
  intros H. injection H as <- <-. exists ct, ps.
  split; [now apply (first_candidate_parts r)|]. now repeat split.
Qed.

Lemma iteration_next (m m' : list content) :
  agent_iteration generate_content call_tool m = Next m' -> exists ct tools, m' = m ++ [ct; tools].
Proof.
  unfold agent_iteration.
  destruct (generate_content m) as [r|e]; [|discriminate].
  destruct (first_candidate r) as [[ct ps]|e]; [|discriminate].
  destruct (has_function_calls ps); [|discriminate].
  intros H. injection H as <-. eauto.
Qed.

(** A failure of the loop body never comes from the tools: with any other
    MCP session the body fails in the same way. *)
Lemma iteration_failure_not_from_tools
    (other_tools : string -> list (string * json) -> outcome exception (list (option pystr)))
    (m : list content) (e : exception) :
  agent_iteration generate_content call_tool m = Failed e ->
  agent_iteration generate_content other_tools m = Failed e.
Proof.
  unfold agent_iteration.
  destruct (generate_content m) as [r|e']; [|auto].
  destruct (first_candidate r) as [[ct ps]|e']; [|auto].
  destruct (has_function_calls ps); discriminate.
Qed.

(** The loop from any iteration on: it makes at most [remaining] further
    calls and ends in one of the three ways. *)
Lemma agent_loop_ends (remaining : nat) :
  forall iteration messages,
    List.length messages = (2 * iteration + 1)%nat ->
    let r := agent_loop generate_content call_tool remaining iteration messages in
    (iteration <= run_cycles r <= iteration + remaining)%nat /\
    ((ends_with_report generate_content call_tool r /\ (iteration < run_cycles r)%nat) \/
     (run_outcome r = Returned ITERATION_LIMIT_MESSAGE /\
      run_cycles r = (iteration + remaining)%nat /\
      List.length (run_messages r) = (2 * run_cycles r + 1)%nat) \/
     (service_failed generate_content call_tool r /\ (iteration < run_cycles r)%nat)).
Proof.
  induction remaining as [|k IH]; intros iteration messages Hlen; simpl.
  - split; [lia|]. right. left. simpl. repeat split; lia.
  - destruct (agent_iteration generate_content call_tool messages) as [t m'|e|m'] eqn:E; simpl.
    + split; [lia|]. left. split; [|lia].
      destruct (iteration_final _ _ _ E) as [ct [ps [Hp [Hc [-> ->]]]]].
      exists messages, ct, ps. simpl.
      repeat split; auto. rewrite length_app. simpl. lia.
    + split; [lia|]. right. right. split; [|lia]. exists e. now split.
    + destruct (iteration_next _ _ E) as [ct [tools ->]].
      assert (Hlen' : List.length (messages ++ [ct; tools]) = (2 * S iteration + 1)%nat).
      { rewrite length_app. simpl. lia. }
      specialize (IH (S iteration) _ Hlen'). simpl in IH.
      destruct IH as [Hb Hcases]. split; [lia|].
      destruct Hcases as [[H1 H2]|[[H1 [H2 H3]]|[H1 H2]]].
      * left. split; [exact H1|lia].
      * right. left. repeat split; auto. lia.
      * right. right. split; [exact H1|lia].
Qed.

(** C4 (as amended).  [run_agent] makes between 1 and 20 calls to the
    reasoning service and ends in exactly one of three ways: it returns the
    text of a response without function calls; it returns the fixed message
    of line 280 after 20 responses that all asked for tools; or it raises
    what the reasoning-service call (or reading its response) raised. *)
Theorem run_agent_bounded_three_ways (user_complaint : pystr) :
  let r := run_agent generate_content call_tool user_complaint in
  (1 <= run_cycles r <= max_iterations)%nat /\
  (ends_with_report generate_content call_tool r \/
   hits_iteration_limit r \/
   service_failed generate_content call_tool r) /\
  ~ (ends_with_report generate_content call_tool r /\ hits_iteration_limit r) /\
  ~ (ends_with_report generate_content call_tool r /\
     service_failed generate_content call_tool r) /\
  ~ (hits_iteration_limit r /\ service_failed generate_content call_tool r).
Proof.
  intros r.
  destruct (agent_loop_ends max_iterations 0 [user_msg user_complaint] eq_refl)
    as [Hb Hcases].
  fold (run_agent generate_content call_tool user_complaint) in Hb, Hcases.
  fold r in Hb, Hcases.
  split; [|split; [|split; [|split]]].
  - split; [|lia].
    destruct Hcases as [[_ H]|[[_ [H _]]|[_ H]]]; try lia.
    rewrite H. unfold max_iterations. lia.
  - destruct Hcases as [[H _]|[[H1 [H2 H3]]|[H _]]]; auto.
    right. left. repeat split; auto.
  - intros [[m [ct [ps [_ [_ [_ [_ [_ Hl]]]]]]]] [_ [_ Hl']]]. lia.
  - intros [[m [ct [ps [_ [_ [_ [_ [Ho _]]]]]]]] [e [Ho' _]]]. congruence.
  - intros [[Ho _] [e [Ho' _]]]. congruence.
Qed.

End AgentFacts.

(** C4 (as stated) fails: the result at the iteration limit is a string
    returned like a report.  A reasoning service that answers with the text
    of line 280 ends the run with a report after one call; one that always
    asks for a tool ends it at the limit after 20 calls; [run_agent] returns
    the same value in both runs and [main] prints the same report. *)
Lemma iteration_limit_returned_as_report :
  ends_with_report (answers ITERATION_LIMIT_MESSAGE) tool_down
    (run_agent (answers ITERATION_LIMIT_MESSAGE) tool_down []) /\
  hits_iteration_limit (run_agent always_calls tool_down []) /\
  run_outcome (run_agent (answers ITERATION_LIMIT_MESSAGE) tool_down [])
  = run_outcome (run_agent always_calls tool_down []) /\
  main (answers ITERATION_LIMIT_MESSAGE) tool_down []
  = main always_calls tool_down [].
Proof.
  split; [|split; [|split]].
  - exists [user_msg []],
      {| role := "model"; parts := Some [text_part ITERATION_LIMIT_MESSAGE] |},
      [text_part ITERATION_LIMIT_MESSAGE].
    repeat split.
  - repeat split.
  - reflexivity.
  - reflexivity.
Qed.

(** *** Truncation of tool results *)

Lemma slice_to_len (n : Z) (t : pystr) :
  0 <= n -> len t > n -> len (slice_to n t) = n.
Proof.
  unfold len, slice_to. intros Hn Ht. rewrite length_firstn. lia.
Qed.

Lemma truncation_marker_len : len TRUNCATION_MARKER = 16.
Proof. reflexivity. Qed.

Lemma truncate_result_over (t : pystr) :
  len t > MAX_RESULT_CHARS ->
  truncate_result t = slice_to MAX_RESULT_CHARS t ++ TRUNCATION_MARKER.
Proof.
  intros H. unfold truncate_result.
  destruct (len t >? MAX_RESULT_CHARS) eqn:E; [reflexivity|].
  rewrite Z.gtb_ltb in E. apply Z.ltb_ge in E. lia.
Qed.

Lemma truncate_result_within (t : pystr) :
  len t <= MAX_RESULT_CHARS -> truncate_result t = t.
Proof.
  intros H. unfold truncate_result.
  destruct (len t >? MAX_RESULT_CHARS) eqn:E; [|reflexivity].
  rewrite Z.gtb_ltb in E. apply Z.ltb_lt in E. lia.
Qed.

(** *** The loop body in terms of the data alone *)

(** The text of a result is the texts of its items, joined. *)
Lemma result_text_of_concat (items : list (option pystr)) :
  result_text_of items = List.concat (omap id items).
Proof.
  induction items as [|[t|] items IH]; [reflexivity| |exact IH].
  change (result_text_of (Some t :: items)) with (t ++ result_text_of items).
  change (omap id (Some t :: items)) with (t :: omap id items).
  simpl. now rewrite IH.
Qed.

(** The calls of a model turn are the function calls of its parts. *)
Lemma requested_calls_omap (ps : list part) :
  requested_calls ps = omap part_function_call ps.
Proof.
  unfold requested_calls. induction ps as [|p ps IH]; [reflexivity|].
  cbn [List.flat_map]. rewrite IH.
  change (omap part_function_call (p :: ps))
    with (match part_function_call p with
          | Some fc => fc :: omap part_function_call ps
          | None => omap part_function_call ps
          end).
  now destruct (part_function_call p).
Qed.




(** [json.dumps({"error": message})], character by character. *)
Lemma json_dumps_error_form (msg : pystr) :
  json_dumps_error msg
  = [123; 34; 101; 114; 114; 111; 114; 34; 58; 32; 34]%N
    ++ List.flat_map json_escape_char msg ++ [34; 125]%N.
Proof.
  unfold json_dumps_error, json_dumps_str. simpl.
  now rewrite <- app_assoc.
Qed.

Lemma truncate_result_form (text : pystr) :
  (Z.of_nat (List.length text) <= 30000 -> truncate_result text = text) /\
  (30000 < Z.of_nat (List.length text) ->
   truncate_result text
   = firstn (Z.to_nat 30000) text
     ++ [10; 46; 46; 46; 32; 91; 116; 114; 117; 110; 99; 97; 116; 101; 100; 93]%N).
Proof.
  split; intros H.
  - apply truncate_result_within. exact H.
  - rewrite truncate_result_over; [reflexivity|]. unfold len, MAX_RESULT_CHARS. lia.
Qed.

(** What one call is answered with. *)
Lemma tool_response_form
    (call_tool : string -> list (string * json) -> outcome exception (list (option pystr)))
    (fc : function_call) :
  fr_name (tool_response call_tool fc) = fc_name fc /\
  match call_tool (fc_name fc)
          (match fc_args fc with Some a => a | None => [] end) with
  | Returned items =>
      fr_result (tool_response call_tool fc)
      = truncate_result (List.concat (omap id items))
  | Raised e =>
      fr_result (tool_response call_tool fc) = json_dumps_error (exc_str e)
  end.
Proof.
  split; [reflexivity|]. unfold tool_response, fn_args_of. cbn [fr_result].
  destruct (call_tool _ _) as [items|e]; [|reflexivity].
  now rewrite result_text_of_concat.
Qed.

Lemma Forall2_map_same {A B : Type} (R : A -> B -> Prop) (f : A -> B) (l : list A) :
  (forall x, R x (f x)) -> Forall2 R l (List.map f l).
Proof. intros H. induction l; simpl; constructor; auto. Qed.

(** The user turn that answers a model turn. *)
Lemma function_response_parts_form
    (call_tool : string -> list (string * json) -> outcome exception (list (option pystr)))
    (ps : list part) :
  function_response_parts call_tool ps
  = List.map
      (fun fr => {| part_text := None; part_function_call := None;
                    part_function_response := Some fr |})
      (List.map (tool_response call_tool) (omap part_function_call ps)).
Proof.
  unfold function_response_parts. rewrite requested_calls_omap, List.map_map.
  reflexivity.
Qed.



Example long_text_is_truncated :
  len long_text = 30001 /\ len (truncate_result long_text) = 30016.
Proof. split; vm_compute; reflexivity. Qed.

(** *** Tool failures stay inside the conversation *)



Example failed_call_payload :
  fr_result (tool_response tool_down {| fc_name := "get_order_by_id"; fc_args := None |})
  = str_of "{" ++ quote ++ str_of "error" ++ quote ++ str_of ": " ++ quote
    ++ str_of "Connection closed" ++ quote ++ str_of "}".
Proof. reflexivity. Qed.

Example failed_calls_then_report :
  let r := run_agent (calls_then_answers (str_of "report")) tool_down [] in
  run_outcome r = Returned (str_of "report") /\ run_cycles r = 2%nat.
Proof. split; reflexivity. Qed.

End ClientFacts.

(** ** The filtered listings and the point lookups *)

Module ListingFacts.

Lemma where_all_In {A : Type} (clauses : list (A -> bool)) (rows : list A) (r : A) :
  In r (where_all clauses rows) <->
  In r rows /\ forallb (fun c => c r) clauses = true.
Proof. unfold where_all. apply filter_In. Qed.

Lemma truthy_str_true (s : string) : s <> "" -> truthy_str (Some s) = true.
Proof. intros H. simpl. now apply negb_true_iff, String.eqb_neq. Qed.

Lemma truthy_str_cases (v : option string) :
  (truthy_str v = false /\ (v = None \/ v = Some "")) \/
  (truthy_str v = true /\ exists s, v = Some s /\ s <> "").
Proof.
  destruct v as [s|]; simpl; [|left; auto].
  destruct (String.eqb_spec s ""); simpl.
  - left. subst. auto.
  - right. split; [reflexivity|]. now exists s.
Qed.

Lemma start_clause {A : Type} (key : A -> string) (start : option string)
    (cs : list (A -> bool)) (r : A) :
  forallb (fun c => c r) (and_if_truthy start (fun v r => Text.leb v (key r)) cs) = true <->
  forallb (fun c => c r) cs = true /\ after_start start (key r).
Proof.
  unfold and_if_truthy, after_start.
  destruct (truthy_str_cases start) as [[Hf [-> | ->]]|[Ht [s [-> Hs]]]].
  - split; [intros H; split; [exact H | discriminate] | tauto].
  - simpl. split; [intros H; split; [exact H|] | tauto].
    intros s Heq Hne. injection Heq as <-. contradiction.
  - rewrite Ht.
    rewrite forallb_app. simpl. rewrite andb_true_r, andb_true_iff.
    split; intros [H1 H2]; split; auto.
    + intros s' Heq _. injection Heq as <-. exact H2.
    + now apply (H2 s).
Qed.

Lemma end_clause {A : Type} (key : A -> string) (end_ : option string)
    (cs : list (A -> bool)) (r : A) :
  forallb (fun c => c r) (and_if_truthy end_ (fun v r => Text.leb (key r) v) cs) = true <->
  forallb (fun c => c r) cs = true /\ before_end end_ (key r).
Proof.
  unfold and_if_truthy, before_end.
  destruct (truthy_str_cases end_) as [[Hf [-> | ->]]|[Ht [s [-> Hs]]]].
  - split; [intros H; split; [exact H | discriminate] | tauto].
  - simpl. split; [intros H; split; [exact H|] | tauto].
    intros s Heq Hne. injection Heq as <-. contradiction.
  - rewrite Ht.
    rewrite forallb_app. simpl. rewrite andb_true_r, andb_true_iff.
    split; intros [H1 H2]; split; auto.
    + intros s' Heq _. injection Heq as <-. exact H2.
    + now apply (H2 s).
Qed.

Lemma given_clause {A : Type} (key : A -> Z) (value : option Z)
    (cs : list (A -> bool)) (r : A) :
  forallb (fun c => c r) (and_if_given value (fun v r => key r =? v) cs) = true <->
  forallb (fun c => c r) cs = true /\ (forall v, value = Some v -> key r = v).
Proof.
  unfold and_if_given. destruct value as [v|].
  - rewrite forallb_app. simpl. rewrite andb_true_r, andb_true_iff, Z.eqb_eq.
    split; intros [H1 H2]; split; auto.
    intros v' Heq. now injection Heq as <-.
  - split; [intros H; split; [exact H | discriminate] | tauto].
Qed.

(** X1.  Payment events come back ascending by [logged_at], and they are, with
    their multiplicity, the events of the table that pass every filter
    given: the order id when it is not [None] (0 included), and the
    inclusive bounds of the window when they are non-empty strings. *)
Theorem payment_logs_pass_every_filter
    (st : store) (order_id : option Z) (start end_ : option string) :
  let rows := get_payment_logs st order_id start end_ in
  ascending p_logged_at rows /\
  exists keep,
    Permutation (List.filter keep (payment_logs st)) rows /\
    forall r,
      keep r = true <->
      (forall oid, order_id = Some oid -> p_order_id r = oid) /\
      after_start start (p_logged_at r) /\
      before_end end_ (p_logged_at r).
Proof.
  intros rows. split; [apply order_by_sorted|].
  eexists. split; [apply order_by_perm|].
  intros r. cbv beta.
  rewrite end_clause, start_clause, given_clause. simpl. tauto.
Qed.

Lemma truthy_clause {A : Type} (value : option string) (clause : string -> A -> bool)
    (cs : list (A -> bool)) (r : A) :
  forallb (fun c => c r) (and_if_truthy value clause cs) = true <->
  forallb (fun c => c r) cs = true /\
  (forall s, value = Some s -> s <> "" -> clause s r = true).
Proof.
  unfold and_if_truthy.
  destruct (truthy_str_cases value) as [[Hf [-> | ->]]|[Ht [s [-> Hs]]]].
  - split; [intros H; split; [exact H | discriminate] | tauto].
  - simpl. split; [intros H; split; [exact H|] | tauto].
    intros s Heq Hne. injection Heq as <-. contradiction.
  - rewrite Ht.
    rewrite forallb_app. simpl. rewrite andb_true_r, andb_true_iff.
    split.
    + intros [H1 H2]. split; [exact H1|].
      intros s' Heq _. injection Heq as <-. exact H2.
    + intros [H1 H2]. split; [exact H1|]. now apply (H2 s).
Qed.

Lemma where_all_single {A : Type} (f : A -> bool) (rows : list A) :
  where_all [f] rows = List.filter f rows.
Proof.
  unfold where_all. apply filter_ext. intros r. simpl. apply andb_true_r.
Qed.

Lemma null_eqb_Some (column : option string) (value : string) :
  null_eqb column value = true <-> column = Some value.
Proof.
  destruct column as [s|]; simpl; [|split; discriminate].
  rewrite String.eqb_eq. split; [now intros -> | now intros [= ->]].
Qed.

(** X2.  Logistics events come back ascending by [logged_at], and they are the
    events of the table that pass every filter given; an event without a
    tracking number passes no tracking-number filter. *)
Theorem logistics_logs_pass_every_filter
    (st : store) (order_id : option Z) (tracking_number start end_ : option string) :
  let rows := get_logistics_logs st order_id tracking_number start end_ in
  ascending l_logged_at rows /\
  exists keep,
    Permutation (List.filter keep (logistics_logs st)) rows /\
    forall r,
      keep r = true <->
      (forall oid, order_id = Some oid -> l_order_id r = oid) /\
      (forall t, tracking_number = Some t -> t <> "" -> l_tracking_number r = Some t) /\
      after_start start (l_logged_at r) /\
      before_end end_ (l_logged_at r).
Proof.
  intros rows. split; [apply order_by_sorted|].
  eexists. split; [apply order_by_perm|].
  intros r. cbv beta.
  rewrite end_clause, start_clause, truthy_clause, given_clause. simpl.
  setoid_rewrite null_eqb_Some. tauto.
Qed.

Lemma filter_none {A : Type} (f : A -> bool) (rows : list A) :
  (forall r, In r rows -> f r = false) -> List.filter f rows = [].
Proof.
  intros H. induction rows as [|x rows IH]; simpl; [reflexivity|].
  rewrite (H x (or_introl eq_refl)). apply IH. intros r Hr. apply H. now right.
Qed.

Lemma window_inverted (s e t : string) :
  Text.leb s e = false -> Text.leb s t = true -> Text.leb t e = true -> False.
Proof.
  intros Hse Hst Hte. rewrite (TextFacts.leb_trans s t e Hst Hte) in Hse.
  discriminate.
Qed.

(** X3.  A window whose end lies before its start selects nothing: both log
    tools return the empty list, whatever the other filters. *)
Theorem log_tools_inverted_window_empty
    (st : store) (order_id : option Z) (tracking_number : option string)
    (s e : string) :
  s <> "" -> e <> "" -> Text.leb s e = false ->
  get_payment_logs st order_id (Some s) (Some e) = [] /\
  get_logistics_logs st order_id tracking_number (Some s) (Some e) = [].
Proof.
  intros Hs He Hinv. split.
  - unfold get_payment_logs, fetch_all, where_all. rewrite filter_none; [reflexivity|].
    intros r _. apply not_true_is_false. intros Hkeep.
    apply end_clause in Hkeep. destruct Hkeep as [Hkeep Hend].
    apply start_clause in Hkeep. destruct Hkeep as [_ Hstart].
    exact (window_inverted s e _ Hinv (Hstart s eq_refl Hs) (Hend e eq_refl He)).
  - unfold get_logistics_logs, fetch_all, where_all. rewrite filter_none; [reflexivity|].
    intros r _. apply not_true_is_false. intros Hkeep.
    apply end_clause in Hkeep. destruct Hkeep as [Hkeep Hend].
    apply start_clause in Hkeep. destruct Hkeep as [_ Hstart].
    exact (window_inverted s e _ Hinv (Hstart s eq_refl Hs) (Hend e eq_refl He)).
Qed.

Lemma log_tools_inverted_window_empty_witness :
  get_payment_logs store_scenario (Some 15)
    (Some "2024-03-02T00:00:00") (Some "2024-03-01T00:00:00") = [] /\
  get_logistics_logs store_scenario (Some 15) None
    (Some "2024-03-02T00:00:00") (Some "2024-03-01T00:00:00") = [].
Proof.
  apply (log_tools_inverted_window_empty store_scenario (Some 15) None
           "2024-03-02T00:00:00" "2024-03-01T00:00:00");
    [discriminate | discriminate | reflexivity].
Defined.

(** X4.  For a complaint on an order (id other than 0), the context bundle holds
    what the look-up and log tools return for that order with no window:
    the same order and user rows and the same event lists, in the same
    order; a windowed call of a log tool returns events of the bundle. *)
Theorem context_bundle_is_unwindowed_tools
    (st : store) (cid wh : Z) (c : complaint_row) (oid : Z) :
  fetch_one (complaint_by_id st cid) = Some c ->
  c_order_id c = Some oid ->
  oid <> 0 ->
  exists r,
    get_complaint_context_logs st cid wh = Some r /\
    cb_payment_logs r = get_payment_logs st (Some oid) None None /\
    cb_logistics_logs r = get_logistics_logs st (Some oid) None None None /\
    cb_order r = get_order_by_id st oid /\
    cb_user r = get_user_by_id st (c_user_id c) /\
    (forall start end_ row,
       In row (get_payment_logs st (Some oid) start end_) ->
       In row (cb_payment_logs r)) /\
    (forall tracking start end_ row,
       In row (get_logistics_logs st (Some oid) tracking start end_) ->
       In row (cb_logistics_logs r)).
Proof.
  intros Hc Ho Hnz. unfold get_complaint_context_logs.
  rewrite Hc, Ho, (truthy_nonzero _ Hnz). eexists. split; [reflexivity|].
  simpl. unfold get_payment_logs, get_logistics_logs, fetch_all. simpl.
  rewrite !where_all_single.
  split; [reflexivity|]. split; [reflexivity|].
  split; [reflexivity|]. split; [reflexivity|]. split.
  - intros start end_ row Hrow.
    apply order_by_In in Hrow. apply order_by_In.
    apply where_all_In in Hrow. destruct Hrow as [Hin Hkeep].
    apply end_clause in Hkeep. destruct Hkeep as [Hkeep _].
    apply start_clause in Hkeep. destruct Hkeep as [Hkeep _].
    simpl in Hkeep. rewrite andb_true_r in Hkeep.
    apply filter_In. now split.
  - intros tracking start end_ row Hrow.
    apply order_by_In in Hrow. apply order_by_In.
    apply where_all_In in Hrow. destruct Hrow as [Hin Hkeep].
    apply end_clause in Hkeep. destruct Hkeep as [Hkeep _].
    apply start_clause in Hkeep. destruct Hkeep as [Hkeep _].
    apply truthy_clause in Hkeep. destruct Hkeep as [Hkeep _].
    simpl in Hkeep. rewrite andb_true_r in Hkeep.
    apply filter_In. now split.
Qed.

Lemma context_bundle_is_unwindowed_tools_witness :
  exists r,
    get_complaint_context_logs store_scenario 7 48 = Some r /\
    cb_payment_logs r = get_payment_logs store_scenario (Some 15) None None /\
    cb_logistics_logs r = get_logistics_logs store_scenario (Some 15) None None None /\
    cb_order r = get_order_by_id store_scenario 15 /\
    cb_user r = get_user_by_id store_scenario 5 /\
    (forall start end_ row,
       In row (get_payment_logs store_scenario (Some 15) start end_) ->
       In row (cb_payment_logs r)) /\
    (forall tracking start end_ row,
       In row (get_logistics_logs store_scenario (Some 15) tracking start end_) ->
       In row (cb_logistics_logs r)).
Proof.
  apply (context_bundle_is_unwindowed_tools store_scenario 7 48
           (mk_complaint 7 5 (Some 15) "2024-03-05T10:00:00") 15);
    [reflexivity | reflexivity | discriminate].
Defined.

(** X5.  Orders of a date range come back ascending by [ordered_at]; they are the
    orders placed from [start] to [end] with both ends included, and none
    when [end] lies before [start]. *)
Theorem orders_by_date_range_inclusive (st : store) (start end_ : string) :
  let rows := get_orders_by_date_range st start end_ in
  ascending o_ordered_at rows /\
  (forall o, In o rows <->
     In o (orders st) /\ Text.le start (o_ordered_at o) /\ Text.le (o_ordered_at o) end_) /\
  (forall o, In o (orders st) -> Text.le start end_ ->
     o_ordered_at o = start \/ o_ordered_at o = end_ -> In o rows) /\
  (Text.leb start end_ = false -> rows = []).
Proof.
  intros rows. unfold rows, get_orders_by_date_range, fetch_all.
  assert (Hmem : forall o,
    In o (order_by o_ordered_at
            (List.filter
               (fun o => Text.leb start (o_ordered_at o) && Text.leb (o_ordered_at o) end_)
               (orders st))) <->
    In o (orders st) /\ Text.le start (o_ordered_at o) /\ Text.le (o_ordered_at o) end_).
  { intros o. rewrite order_by_In, filter_In, andb_true_iff. reflexivity. }
  split; [apply order_by_sorted|]. split; [exact Hmem|]. split.
  - intros o Hin Hse [Heq|Heq]; apply Hmem; rewrite Heq;
      repeat split; auto; apply TextFacts.leb_refl.
  - intros Hinv. rewrite filter_none; [reflexivity|].
    intros o _. apply not_true_is_false. intros Hkeep.
    apply andb_true_iff in Hkeep. destruct Hkeep as [H1 H2].
    exact (window_inverted start end_ _ Hinv H1 H2).
Qed.

Lemma order_by_text_desc_perm {A : Type} (key : A -> string) (l : list A) :
  Permutation l (order_by_text_desc key l).
Proof. apply sort_by_perm. Qed.

Lemma order_by_text_desc_sorted {A : Type} (key : A -> string) (l : list A) :
  Sorted (fun x y => Text.le (key y) (key x)) (order_by_text_desc key l).
Proof.
  apply (sort_by_sorted (fun x y => Text.leb (key y) (key x))).
  intros x y. apply TextFacts.leb_false_flip.
Qed.

(** X6.  Orders are listed newest first, and the list holds the orders that pass
    every filter given; an empty status or payment method is no filter, and
    an order without a payment method passes no payment-method filter. *)
Theorem list_orders_pass_every_filter
    (st : store) (user_id : option Z) (status payment_method : option string) :
  let rows := list_orders st user_id status payment_method in
  Sorted (fun x y => Text.le (o_ordered_at y) (o_ordered_at x)) rows /\
  exists keep,
    Permutation (List.filter keep (orders st)) rows /\
    forall r,
      keep r = true <->
      (forall uid, user_id = Some uid -> o_user_id r = uid) /\
      (forall s, status = Some s -> s <> "" -> o_status r = s) /\
      (forall m, payment_method = Some m -> m <> "" -> o_payment_method r = Some m).
Proof.
  intros rows. split; [apply order_by_text_desc_sorted|].
  eexists. split; [apply order_by_text_desc_perm|].
  intros r. cbv beta.
  rewrite !truthy_clause, given_clause. simpl.
  setoid_rewrite null_eqb_Some. setoid_rewrite String.eqb_eq. tauto.
Qed.

(** X7.  The four look-ups return a row that carries the key asked for, and
    [None] exactly when the table has no such row; an order without a
    tracking number is found under no tracking number. *)
Theorem lookups_find_what_is_there (st : store) :
  (forall id,
     match get_user_by_id st id with
     | Some u => In u (users st) /\ u_id u = id
     | None => forall u, In u (users st) -> u_id u <> id
     end) /\
  (forall id,
     match get_order_by_id st id with
     | Some o => In o (orders st) /\ o_id o = id
     | None => forall o, In o (orders st) -> o_id o <> id
     end) /\
  (forall id,
     match get_complaint_by_id st id with
     | Some c => In c (complaints st) /\ c_id c = id
     | None => forall c, In c (complaints st) -> c_id c <> id
     end) /\
  (forall t,
     match get_order_by_tracking st t with
     | Some o => In o (orders st) /\ o_tracking_number o = Some t
     | None => forall o, In o (orders st) -> o_tracking_number o <> Some t
     end).
Proof.
  repeat split.
  - intros id. unfold get_user_by_id, user_by_id.
    destruct (fetch_one _) as [u|] eqn:E.
    + apply fetch_one_filter_Some in E. destruct E as [Hin Hb].
      split; [exact Hin | now apply Z.eqb_eq].
    + intros u Hu. apply Z.eqb_neq.
      exact (proj1 (fetch_one_filter_None _ _) E u Hu).
  - intros id. unfold get_order_by_id, order_by_id.
    destruct (fetch_one _) as [o|] eqn:E.
    + apply fetch_one_filter_Some in E. destruct E as [Hin Hb].
      split; [exact Hin | now apply Z.eqb_eq].
    + intros o Ho. apply Z.eqb_neq.
      exact (proj1 (fetch_one_filter_None _ _) E o Ho).
  - intros id. unfold get_complaint_by_id, complaint_by_id.
    destruct (fetch_one _) as [c|] eqn:E.
    + apply fetch_one_filter_Some in E. destruct E as [Hin Hb].
      split; [exact Hin | now apply Z.eqb_eq].
    + intros c Hc. apply Z.eqb_neq.
      exact (proj1 (fetch_one_filter_None _ _) E c Hc).
  - intros t. unfold get_order_by_tracking.
    destruct (fetch_one _) as [o|] eqn:E.
    + apply fetch_one_filter_Some in E. destruct E as [Hin Hb].
      split; [exact Hin | now apply null_eqb_Some].
    + intros o Ho Heq. apply null_eqb_Some in Heq.
      rewrite (proj1 (fetch_one_filter_None _ _) E o Ho) in Heq. discriminate.
Qed.

End ListingFacts.

(** ** Summaries and statistics *)

Module AggregateFacts.

Lemma count_where_le {A : Type} (f : A -> bool) (rows : list A) :
  0 <= count_where f rows <= Z.of_nat (List.length rows).
Proof.
  unfold count_where. pose proof (filter_length_le f rows). lia.
Qed.

Lemma count_where_cons {A : Type} (f : A -> bool) (x : A) (rows : list A) :
  count_where f (x :: rows) = (if f x then 1 else 0) + count_where f rows.
Proof.
  unfold count_where. simpl. destruct (f x); simpl List.length; lia.
Qed.

(** Statuses that exclude one another are counted in disjoint groups. *)
Lemma status_counts_disjoint (os : list order_row) :
  count_where (fun o => (o_status o =? "delivered")%string) os
  + count_where (fun o => (o_status o =? "returned")%string) os
  + count_where (fun o => (o_status o =? "cancelled")%string) os
  <= Z.of_nat (List.length os).
Proof.
  induction os as [|o os IH]; [reflexivity|].
  rewrite !count_where_cons. simpl List.length.
  destruct (String.eqb_spec (o_status o) "delivered") as [E1|N1];
    destruct (String.eqb_spec (o_status o) "returned") as [E2|N2];
    destruct (String.eqb_spec (o_status o) "cancelled") as [E3|N3];
    try (rewrite E1 in E2; discriminate);
    try (rewrite E1 in E3; discriminate);
    try (rewrite E2 in E3; discriminate); lia.
Qed.

Lemma length_sort_by {A : Type} (leb : A -> A -> bool) (l : list A) :
  List.length (sort_by leb l) = List.length l.
Proof. symmetry. apply Permutation_length, sort_by_perm. Qed.

(** X8.  The summary of a user is [None] exactly when the user is absent.
    Otherwise it is built on that user's row; its order and complaint totals
    are the lengths of what [list_orders] and [list_complaints] return for
    the user; the delivered, returned and cancelled counts together do not
    exceed the order total, nor the open or high-priority counts the
    complaint total. *)
Theorem user_summary_counts (st : store) (uid : Z) :
  match get_user_summary st uid with
  | None => forall u, In u (users st) -> u_id u <> uid
  | Some s =>
      In (us_user s) (users st) /\ u_id (us_user s) = uid /\
      us_total_orders s = Z.of_nat (List.length (list_orders st (Some uid) None None)) /\
      us_total_complaints s
        = Z.of_nat (List.length (list_complaints st (Some uid) None None None None)) /\
      0 <= us_delivered s /\ 0 <= us_returned s /\ 0 <= us_cancelled s /\
      us_delivered s + us_returned s + us_cancelled s <= us_total_orders s /\
      0 <= us_open_complaints s <= us_total_complaints s /\
      0 <= us_high_priority s <= us_total_complaints s
  end.
Proof.
  unfold get_user_summary.
  destruct (fetch_one (user_by_id st uid)) as [u|] eqn:E.
  - unfold user_by_id in E. apply fetch_one_filter_Some in E.
    destruct E as [Hin Hid]. apply Z.eqb_eq in Hid. simpl.
    split; [exact Hin|]. split; [exact Hid|].
    unfold list_orders, list_complaints, fetch_all, order_by_text_desc. simpl.
    rewrite !length_sort_by, !ListingFacts.where_all_single.
    split; [reflexivity|]. split; [reflexivity|].
    pose proof (status_counts_disjoint
                  (List.filter (fun o => o_user_id o =? uid) (orders st))).
    repeat split; try apply count_where_le; assumption.
  - intros u Hu. apply Z.eqb_neq.
    exact (proj1 (fetch_one_filter_None _ _) E u Hu).
Qed.

Lemma unique_id_single_row (us : list user_row) (uid : Z) (u : user_row) :
  List.NoDup (List.map u_id us) ->
  fetch_one (List.filter (fun u => u_id u =? uid) us) = Some u ->
  List.filter (fun u => u_id u =? uid) us = [u].
Proof.
  induction us as [|x us IH]; simpl; intros Hnd Hf; [discriminate|].
  inversion Hnd as [|? ? Hnotin Hnd']; subst.
  destruct (x.(u_id) =? uid) eqn:Ex.
  - simpl in Hf. injection Hf as <-. f_equal.
    apply ListingFacts.filter_none. intros y Hy. apply Z.eqb_neq. intros Hyid.
    apply Hnotin. apply Z.eqb_eq in Ex. rewrite Ex, <- Hyid. now apply in_map.
  - now apply IH.
Qed.

Lemma joined_order_columns (u : user_row) (l : list order_row) :
  List.flat_map
    (fun uo : user_row * option order_row =>
       match snd uo with Some o => [o] | None => [] end)
    (List.map (fun o => (u, Some o)) l)
  = l.
Proof. induction l as [|y l IH]; simpl; [reflexivity | now rewrite IH]. Qed.

Lemma left_join_order_columns (st : store) (u : user_row) :
  List.flat_map
    (fun uo : user_row * option order_row =>
       match snd uo with Some o => [o] | None => [] end)
    (users_left_join_orders [u] st)
  = orders_of_user st (u_id u).
Proof.
  unfold users_left_join_orders. cbn [List.flat_map]. rewrite app_nil_r.
  destruct (orders_of_user st (u_id u)) as [|o os]; [reflexivity|].
  apply joined_order_columns.
Qed.

Lemma left_join_first_user (st : store) (u : user_row) (us : list user_row) :
  exists o rest, users_left_join_orders (u :: us) st = (u, o) :: rest.
Proof.
  unfold users_left_join_orders. simpl.
  destruct (orders_of_user st (u_id u)) as [|o os]; simpl; eauto.
Qed.

(** X9.  [get_user_summary] and [get_user_lifetime_value] answer for the same
    users and read the same user row; they agree on the complaint counts,
    and, when user ids are unique, on the number of orders, the lifetime
    value reporting the summary's total spend rounded to two decimals. *)
Theorem summary_and_lifetime_value_agree (st : store) (uid : Z) :
  (get_user_summary st uid = None <-> get_user_lifetime_value st uid = None) /\
  forall s v,
    get_user_summary st uid = Some s ->
    get_user_lifetime_value st uid = Some v ->
    lv_id v = uid /\
    lv_name v = u_name (us_user s) /\ lv_email v = u_email (us_user s) /\
    lv_total_complaints v = us_total_complaints s /\
    lv_open_complaints v = us_open_complaints s /\
    (List.NoDup (List.map u_id (users st)) ->
     lv_total_orders v = us_total_orders s /\
     lv_total_spent v = sql_round 2 (us_total_spent s)).
Proof.
  unfold get_user_summary, get_user_lifetime_value.
  destruct (fetch_one (user_by_id st uid)) as [u|] eqn:E.
  - pose proof E as Hu. unfold user_by_id in Hu.
    apply fetch_one_filter_Some in Hu. destruct Hu as [_ Hid].
    apply Z.eqb_eq in Hid.
    unfold fetch_one in E.
    destruct (user_by_id st uid) as [|u0 us] eqn:Eus; simpl in E; [discriminate|].
    injection E as ->.
    destruct (left_join_first_user st u us) as [o [rest Hrows]].
    split.
    + rewrite Hrows. split; discriminate.
    + intros s v Hs Hv. injection Hs as <-.
      rewrite Hrows in Hv. injection Hv as <-.
      cbn [lv_id lv_name lv_email lv_total_complaints lv_open_complaints
           lv_total_orders lv_total_spent us_user us_total_complaints
           us_open_complaints us_total_orders us_total_spent].
      rewrite Hid. unfold count_where.
      repeat (split; [reflexivity|]).
      intros Hnd.
      assert (Hsingle : u :: us = [u]).
      { rewrite <- Eus. unfold user_by_id. apply unique_id_single_row; [exact Hnd|].
        fold (user_by_id st uid). now rewrite Eus. }
      injection Hsingle as ->.
      pose proof (left_join_order_columns st u) as Hcols.
      rewrite Hrows in Hcols. simpl in Hcols. rewrite Hcols.
      unfold orders_of_user. rewrite Hid. split; reflexivity.
  - assert (Hnil : user_by_id st uid = []).
    { unfold fetch_one in E. destruct (user_by_id st uid); [reflexivity|discriminate]. }
    rewrite Hnil. simpl. split; [tauto|]. discriminate.
Qed.

Section GroupFacts.
Context {A K : Type} (eq_dec : forall x y : K, {x = y} + {x <> y}) (key : A -> K).

Lemma sum_Z_perm (l l' : list Z) : Permutation l l' -> sum_Z l = sum_Z l'.
Proof. induction 1; simpl; lia. Qed.

Lemma sum_Z_add {B : Type} (f g : B -> Z) (l : list B) :
  sum_Z (List.map (fun x => f x + g x) l)
  = sum_Z (List.map f l) + sum_Z (List.map g l).
Proof. induction l as [|x l IH]; simpl; lia. Qed.

Lemma sum_Z_zero {B : Type} (f : B -> Z) (l : list B) :
  (forall x, In x l -> f x = 0) -> sum_Z (List.map f l) = 0.
Proof.
  induction l as [|x l IH]; simpl; intros H; [reflexivity|].
  rewrite (H x (or_introl eq_refl)), IH; [reflexivity|].
  intros y Hy. apply H. now right.
Qed.

Lemma one_key_matches (k : K) (keys : list K) :
  List.NoDup keys -> In k keys ->
  sum_Z (List.map (fun k' => if eq_dec k k' then 1 else 0) keys) = 1.
Proof.
  induction keys as [|k0 keys IH]; intros Hnd Hin; [contradiction|].
  inversion Hnd as [|? ? Hnotin Hnd']; subst. simpl.
  destruct (eq_dec k k0) as [->|Hne].
  - rewrite sum_Z_zero; [reflexivity|].
    intros k' Hk'. destruct (eq_dec k0 k') as [->|]; [contradiction|reflexivity].
  - destruct Hin as [->|Hin]; [contradiction|]. now rewrite IH.
Qed.

Lemma group_sizes_sum (rows : list A) (keys : list K) :
  List.NoDup keys -> (forall r, In r rows -> In (key r) keys) ->
  sum_Z (List.map
           (fun k => Z.of_nat (List.length
              (List.filter (fun r => if eq_dec (key r) k then true else false) rows)))
           keys)
  = Z.of_nat (List.length rows).
Proof.
  intros Hnd. induction rows as [|x rows IH]; intros Hkeys.
  - simpl. apply sum_Z_zero. reflexivity.
  - rewrite (map_ext _
      (fun k => (if eq_dec (key x) k then 1 else 0)
                + Z.of_nat (List.length
                    (List.filter (fun r => if eq_dec (key r) k then true else false) rows)))).
    2:{ intros k. simpl. destruct (eq_dec (key x) k); simpl List.length; lia. }
    rewrite sum_Z_add, IH.
    + rewrite one_key_matches; [simpl List.length; lia | exact Hnd |].
      apply Hkeys. now left.
    + intros r Hr. apply Hkeys. now right.
Qed.

Lemma group_rows_keys (rows : list A) :
  List.map fst (group_rows eq_dec key rows) = nodup eq_dec (List.map key rows).
Proof. unfold group_rows. rewrite List.map_map. simpl. apply map_id. Qed.

Lemma group_rows_member (rows : list A) (g : K * list A) :
  In g (group_rows eq_dec key rows) ->
  snd g <> [] /\ forall r, In r (snd g) <-> In r rows /\ key r = fst g.
Proof.
  unfold group_rows. rewrite in_map_iff. intros [k [<- Hk]]. simpl.
  apply nodup_In, in_map_iff in Hk. destruct Hk as [r0 [Hr0 Hin0]].
  assert (Hmem : forall r,
    In r (List.filter (fun r => if eq_dec (key r) k then true else false) rows) <->
    In r rows /\ key r = k).
  { intros r. rewrite filter_In. destruct (eq_dec (key r) k); intuition congruence. }
  split; [|exact Hmem].
  intros Hnil. assert (Hr : In r0 []) by (rewrite <- Hnil; now apply Hmem).
  contradiction.
Qed.

Lemma group_count_breakdown (rows : list A) :
  is_breakdown key rows (group_count eq_dec key rows).
Proof.
  unfold is_breakdown, group_count.
  set (counted := List.map
         (fun g : K * list A => (fst g, Z.of_nat (List.length (snd g))))
         (group_rows eq_dec key rows)).
  pose proof (order_by_desc_perm snd counted) as Hperm.
  assert (Hfst : List.map fst counted = nodup eq_dec (List.map key rows)).
  { unfold counted. rewrite List.map_map. simpl. apply group_rows_keys. }
  split; [|split; [|split; [|split]]].
  - apply (Permutation_NoDup (Permutation_map fst Hperm)).
    rewrite Hfst. apply NoDup_nodup.
  - intros r Hr.
    apply (Permutation_in _ (Permutation_map fst Hperm)).
    rewrite Hfst. apply nodup_In. now apply in_map.
  - intros k n Hkn.
    apply (Permutation_in _ (Permutation_sym Hperm)) in Hkn.
    unfold counted in Hkn. apply in_map_iff in Hkn.
    destruct Hkn as [g [Heq Hg]]. injection Heq as <- <-.
    destruct (group_rows_member rows g Hg) as [Hne Hmem].
    split.
    + destruct (snd g); [contradiction | simpl List.length; lia].
    + exists (snd g). split; [reflexivity | exact Hmem].
  - rewrite <- (sum_Z_perm _ _ (Permutation_map snd Hperm)).
    unfold counted, group_rows. rewrite !List.map_map. simpl.
    apply group_sizes_sum; [apply NoDup_nodup|].
    intros r Hr. apply nodup_In. now apply in_map.
  - apply order_by_desc_sorted.
Qed.

End GroupFacts.

(** X10.  Each of the four breakdowns of [get_complaint_statistics] lists every
    value of its column once (an unassigned agent as NULL), with the number
    of complaints that carry it, at least 1; the counts of a breakdown add
    up to the number of complaints, and the rows are in descending order
    of count. *)
Theorem complaint_statistics_are_breakdowns (st : store) :
  let s := get_complaint_statistics st in
  is_breakdown c_category (complaints st) (by_category s) /\
  is_breakdown c_priority (complaints st) (by_priority s) /\
  is_breakdown c_status (complaints st) (by_status s) /\
  is_breakdown c_assigned_to (complaints st) (by_agent s).
Proof.
  simpl. unfold fetch_all.
  split; [|split; [|split]]; apply group_count_breakdown.
Qed.

Lemma order_stats_rows {K : Type} (eq_dec : forall x y : K, {x = y} + {x <> y})
    (key : order_row -> K) (rows : list order_row) (row : order_stat K) :
  In row (order_stats eq_dec key rows) ->
  exists group,
    group <> [] /\
    (forall o, In o group <-> In o rows /\ key o = os_key row) /\
    group = List.filter (fun o => if eq_dec (key o) (os_key row) then true else false) rows /\
    os_cnt row = Z.of_nat (List.length group) /\
    os_total row = option_map (sql_round 2) (sql_sum (List.map o_total_amount group)).
Proof.
  unfold order_stats. intros Hrow.
  apply (Permutation_in _ (Permutation_sym (order_by_desc_perm os_cnt _))) in Hrow.
  apply in_map_iff in Hrow. destruct Hrow as [g [<- Hg]]. simpl.
  destruct (group_rows_member eq_dec key rows g Hg) as [Hne Hmem].
  exists (snd g). repeat split; try apply Hmem; auto.
  unfold group_rows in Hg. apply in_map_iff in Hg.
  destruct Hg as [k [<- _]]. reflexivity.
Qed.

Lemma order_stats_counts_sum {K : Type} (eq_dec : forall x y : K, {x = y} + {x <> y})
    (key : order_row -> K) (rows : list order_row) :
  sum_Z (List.map os_cnt (order_stats eq_dec key rows)) = Z.of_nat (List.length rows).
Proof.
  unfold order_stats.
  rewrite <- (sum_Z_perm _ _ (Permutation_map os_cnt (order_by_desc_perm os_cnt _))).
  unfold group_rows. rewrite !List.map_map. simpl.
  apply group_sizes_sum; [apply NoDup_nodup|].
  intros r Hr. apply nodup_In. now apply in_map.
Qed.

(** X11.  In [get_order_statistics], the count reported for a status or for a
    payment method is the number of orders that [list_orders] returns under
    that filter, every group has at least one order, and the counts of each
    breakdown add up to the number of orders (orders without a payment
    method form the NULL group). *)
Theorem order_statistics_match_listings (st : store) :
  let by_status := fst (get_order_statistics st) in
  let by_payment := snd (get_order_statistics st) in
  (forall row, In row by_status ->
     1 <= os_cnt row /\
     (os_key row <> "" ->
      os_cnt row = Z.of_nat (List.length (list_orders st None (Some (os_key row)) None)))) /\
  (forall row, In row by_payment ->
     1 <= os_cnt row /\
     (forall m, os_key row = Some m -> m <> "" ->
      os_cnt row = Z.of_nat (List.length (list_orders st None None (Some m))))) /\
  sum_Z (List.map os_cnt by_status) = Z.of_nat (List.length (orders st)) /\
  sum_Z (List.map os_cnt by_payment) = Z.of_nat (List.length (orders st)) /\
  descending os_cnt by_status /\ descending os_cnt by_payment.
Proof.
  simpl. unfold fetch_all.
  split; [|split; [|split; [|split; [|split]]]].
  - intros row Hrow.
    destruct (order_stats_rows _ _ _ _ Hrow) as [g [Hne [_ [Hg [Hcnt _]]]]].
    split; [rewrite Hcnt; destruct g; [contradiction | simpl List.length; lia]|].
    intros Hkey. rewrite Hcnt, Hg.
    unfold list_orders, fetch_all, order_by_text_desc, and_if_truthy, and_if_given.
    rewrite (ListingFacts.truthy_str_true _ Hkey). simpl.
    rewrite length_sort_by, ListingFacts.where_all_single.
    do 2 f_equal. apply filter_ext. intros o.
    destruct (string_dec (o_status o) (os_key row)) as [->|Hn].
    + symmetry. apply String.eqb_refl.
    + symmetry. now apply String.eqb_neq.
  - intros row Hrow.
    destruct (order_stats_rows _ _ _ _ Hrow) as [g [Hne [_ [Hg [Hcnt _]]]]].
    split; [rewrite Hcnt; destruct g; [contradiction | simpl List.length; lia]|].
    intros m Hkey Hm. rewrite Hcnt, Hg, Hkey.
    unfold list_orders, fetch_all, order_by_text_desc, and_if_truthy, and_if_given.
    rewrite (ListingFacts.truthy_str_true _ Hm). simpl.
    rewrite length_sort_by, ListingFacts.where_all_single.
    do 2 f_equal. apply filter_ext. intros o.
    destruct (option_string_dec (o_payment_method o) (Some m)) as [->|Hn].
    + simpl. symmetry. apply String.eqb_refl.
    + symmetry. apply not_true_is_false. intros Hb.
      apply ListingFacts.null_eqb_Some in Hb. contradiction.
  - apply order_stats_counts_sum.
  - apply order_stats_counts_sum.
  - apply order_by_desc_sorted.
  - apply order_by_desc_sorted.
Qed.

(** *** The urgent queue *)

Lemma compare_Gt_Lt (a b : string) : String.compare a b = Gt -> String.compare b a = Lt.
Proof. intros H. rewrite String.compare_antisym, H. reflexivity. Qed.

Lemma compare_Lt_Gt (a b : string) : String.compare a b = Lt -> String.compare b a = Gt.
Proof. intros H. rewrite String.compare_antisym, H. reflexivity. Qed.

Lemma priority_then_created_flip (x y : complaint_row) :
  priority_then_created x y = false -> priority_then_created y x = true.
Proof.
  unfold priority_then_created.
  destruct (String.compare (c_priority x) (c_priority y)) eqn:E; intros H.
  - apply String.compare_eq_iff in E. rewrite E, TextFacts.compare_refl.
    now apply TextFacts.leb_false_flip.
  - now rewrite (compare_Lt_Gt _ _ E).
  - discriminate.
Qed.

Lemma priority_then_created_trans (x y z : complaint_row) :
  priority_then_created x y = true -> priority_then_created y z = true ->
  priority_then_created x z = true.
Proof.
  unfold priority_then_created.
  destruct (String.compare (c_priority x) (c_priority y)) eqn:Exy; try discriminate;
    destruct (String.compare (c_priority y) (c_priority z)) eqn:Eyz; try discriminate;
    intros Hxy Hyz.
  - apply String.compare_eq_iff in Exy, Eyz. rewrite Exy, Eyz, TextFacts.compare_refl.
    eapply TextFacts.leb_trans; eassumption.
  - apply String.compare_eq_iff in Exy. now rewrite Exy, Eyz.
  - apply String.compare_eq_iff in Eyz. now rewrite <- Eyz, Exy.
  - apply compare_Gt_Lt in Exy, Eyz.
    now rewrite (compare_Lt_Gt _ _ (TextFacts.compare_lt_trans _ _ _ Eyz Exy)).
Qed.

Lemma urgent_queue_split (rows : list complaint_row) :
  StronglySorted (fun x y => priority_then_created x y = true) rows ->
  Forall (fun c => c_priority c = "high" \/ c_priority c = "critical") rows ->
  exists highs criticals,
    rows = highs ++ criticals /\
    Forall (fun c => c_priority c = "high") highs /\
    Forall (fun c => c_priority c = "critical") criticals /\
    ascending c_created_at highs /\ ascending c_created_at criticals.
Proof.
  induction rows as [|x rows IH]; intros Hs Hp.
  - exists [], []. repeat split; constructor.
  - inversion Hs as [|? ? Hs' Hall]; subst.
    inversion Hp as [|? ? Hx Hp']; subst.
    destruct (IH Hs' Hp') as [hs [cs [-> [Hh [Hc [Hah Hac]]]]]].
    assert (Hrel : forall y, In y (hs ++ cs) -> priority_then_created x y = true).
    { intros y Hy. now apply (proj1 (List.Forall_forall _ _) Hall). }
    destruct Hx as [Hx|Hx].
    + exists (x :: hs), cs. split; [reflexivity|].
      split; [now constructor|]. split; [exact Hc|]. split; [|exact Hac].
      constructor; [exact Hah|].
      destruct hs as [|h hs]; constructor.
      assert (Hxh := Hrel h (or_introl eq_refl)).
      unfold priority_then_created in Hxh.
      inversion Hh as [|? ? Hhp _]; subst.
      rewrite Hx, Hhp, TextFacts.compare_refl in Hxh. exact Hxh.
    + assert (Hnil : hs = []).
      { destruct hs as [|h hs]; [reflexivity|].
        assert (Hxh := Hrel h (or_introl eq_refl)).
        unfold priority_then_created in Hxh.
        inversion Hh as [|? ? Hhp _]; subst.
        rewrite Hx, Hhp in Hxh. discriminate. }
      subst hs. exists [], (x :: cs). split; [reflexivity|].
      split; [constructor|]. split; [now constructor|]. split; [constructor|].
      constructor; [exact Hac|].
      destruct cs as [|c cs]; constructor.
      assert (Hxc := Hrel c (or_introl eq_refl)).
      unfold priority_then_created in Hxc.
      inversion Hc as [|? ? Hcp _]; subst.
      rewrite Hx, Hcp, TextFacts.compare_refl in Hxc. exact Hxc.
Qed.

(** X12.  The urgent queue holds the complaints whose priority is high or
    critical and whose status is open or investigating (a complaint waiting
    for the customer is not in it).  [ORDER BY priority DESC] compares the
    priorities as text, so every "high" complaint comes before every
    "critical" one; within a priority the oldest comes first. *)
Theorem urgent_queue_lists_high_before_critical (st : store) :
  let rows := get_high_priority_open_complaints st in
  (forall c, In c rows <->
     In c (complaints st) /\
     (c_priority c = "high" \/ c_priority c = "critical") /\
     (c_status c = "open" \/ c_status c = "investigating")) /\
  exists highs criticals,
    rows = highs ++ criticals /\
    Forall (fun c => c_priority c = "high") highs /\
    Forall (fun c => c_priority c = "critical") criticals /\
    ascending c_created_at highs /\ ascending c_created_at criticals.
Proof.
  intros rows.
  assert (Hmem : forall c, In c rows <->
     In c (complaints st) /\
     (c_priority c = "high" \/ c_priority c = "critical") /\
     (c_status c = "open" \/ c_status c = "investigating")).
  { intros c. unfold rows, get_high_priority_open_complaints, fetch_all.
    split.
    - intros Hc. apply (Permutation_in _ (Permutation_sym (sort_by_perm _ _))) in Hc.
      apply filter_In in Hc. destruct Hc as [Hin Hb].
      unfold high_priority in Hb.
      rewrite andb_true_iff, !orb_true_iff, !String.eqb_eq in Hb. tauto.
    - intros [Hin Hb]. apply (Permutation_in _ (sort_by_perm _ _)).
      apply filter_In. split; [exact Hin|]. unfold high_priority.
      rewrite andb_true_iff, !orb_true_iff, !String.eqb_eq. tauto. }
  split; [exact Hmem|].
  apply urgent_queue_split.
  - apply Sorted_StronglySorted.
    + intros x y z. apply priority_then_created_trans.
    + apply (sort_by_sorted priority_then_created).
      apply priority_then_created_flip.
  - apply List.Forall_forall. intros c Hc. now apply Hmem in Hc.
Qed.

(** *** Complaints joined to their orders *)

Lemma left_join_rows (st : store) (c : complaint_row) (co : complaint_row * option order_row) :
  In co (complaint_left_join_orders st c) ->
  fst co = c /\
  match snd co with
  | Some o => In o (orders st) /\ c_order_id c = Some (o_id o)
  | None => forall o, In o (orders st) -> c_order_id c <> Some (o_id o)
  end.
Proof.
  unfold complaint_left_join_orders.
  destruct (List.filter _ (orders st)) as [|o os] eqn:E.
  - intros [<-|[]]. split; [reflexivity|]. simpl.
    intros o Ho Heq.
    assert (Hin : In o (List.filter
               (fun o => null_eqb_int (c_order_id c) (o_id o)) (orders st))).
    { apply filter_In. split; [exact Ho|]. rewrite Heq. simpl. apply Z.eqb_refl. }
    rewrite E in Hin. contradiction.
  - intros Hco. apply in_map_iff in Hco. destruct Hco as [o' [<- Ho']].
    split; [reflexivity|]. simpl.
    rewrite <- E in Ho'. apply filter_In in Ho'. destruct Ho' as [Hin Hb].
    split; [exact Hin|].
    destruct (c_order_id c) as [k|]; simpl in Hb; [|discriminate].
    apply Z.eqb_eq in Hb. now rewrite Hb.
Qed.

Lemma left_join_nonempty (st : store) (c : complaint_row) :
  exists o, In (c, o) (complaint_left_join_orders st c).
Proof.
  unfold complaint_left_join_orders.
  destruct (List.filter _ (orders st)) as [|o os].
  - exists None. now left.
  - exists (Some o). now left.
Qed.

Lemma unique_order_matches (os : list order_row) (k : option Z) :
  List.NoDup (List.map o_id os) ->
  (List.length (List.filter (fun o => null_eqb_int k (o_id o)) os) <= 1)%nat.
Proof.
  destruct k as [k|]; simpl.
  2:{ intros _. rewrite ListingFacts.filter_none; [simpl; lia | reflexivity]. }
  induction os as [|o os IH]; simpl; intros Hnd; [lia|].
  inversion Hnd as [|? ? Hnotin Hnd']; subst.
  destruct (k =? o_id o) eqn:E; [|now apply IH].
  rewrite ListingFacts.filter_none; [simpl; lia|].
  intros o' Ho'. apply Z.eqb_neq. intros Heq. apply Hnotin.
  apply Z.eqb_eq in E. rewrite <- E, Heq. now apply in_map.
Qed.

Lemma left_join_single (st : store) (c : complaint_row) :
  List.NoDup (List.map o_id (orders st)) ->
  List.length (complaint_left_join_orders st c) = 1%nat.
Proof.
  intros Hnd. unfold complaint_left_join_orders.
  pose proof (unique_order_matches (orders st) (c_order_id c) Hnd) as Hle.
  destruct (List.filter _ (orders st)) as [|o os]; [reflexivity|].
  rewrite length_map. simpl in *. lia.
Qed.

Lemma flat_map_single_length {A B : Type} (f : A -> list B) (l : list A) :
  (forall x, List.length (f x) = 1%nat) ->
  List.length (List.flat_map f l) = List.length l.
Proof.
  intros H. induction l as [|x l IH]; simpl; [reflexivity|].
  rewrite length_app, H, IH. reflexivity.
Qed.

Lemma Sorted_map {A B : Type} (f : A -> B) (R : B -> B -> Prop) (l : list A) :
  Sorted (fun x y => R (f x) (f y)) l -> Sorted R (List.map f l).
Proof.
  induction 1 as [|x l Hs IH Hhd]; simpl; constructor; [exact IH|].
  destruct Hhd; simpl; constructor. assumption.
Qed.

(** X13.  [correlate_user_issues] returns, newest first, a row for every
    complaint of the user and only for those.  A row carries the nine
    complaint columns of its complaint and the five order columns (id, item,
    total, status, tracking number) of an order whose id the complaint
    names; the five are NULL together, exactly when the complaint names no
    order of the table.  When order ids are unique every complaint has one
    row, so there are as many rows as [list_complaints] returns for the
    user. *)
Theorem correlated_issues_cover_complaints (st : store) (uid : Z) :
  let rows := correlate_user_issues st uid in
  let shows (r : issue_row) (c : complaint_row) : Prop :=
    ir_complaint_id r = c_id c /\
    ir_complaint_subject r = c_subject c /\
    ir_complaint_category r = c_category c /\
    ir_complaint_priority r = c_priority c /\
    ir_complaint_status r = c_status c /\
    ir_complaint_details r = c_details c /\
    ir_complaint_resolution r = c_resolution c /\
    ir_assigned_to r = c_assigned_to c /\
    ir_complaint_created_at r = c_created_at c in
  (forall c, In c (complaints st) -> c_user_id c = uid ->
     exists r, In r rows /\ shows r c) /\
  (forall r, In r rows ->
     exists c, In c (complaints st) /\ c_user_id c = uid /\ shows r c /\
       match ir_order_id r with
       | Some oid =>
           c_order_id c = Some oid /\
           exists o, In o (orders st) /\ o_id o = oid /\
                     ir_order_item r = Some (o_item o) /\
                     ir_order_total r = Some (o_total_amount o) /\
                     ir_order_status r = Some (o_status o) /\
                     ir_tracking_number r = o_tracking_number o
       | None =>
           (forall o, In o (orders st) -> c_order_id c <> Some (o_id o)) /\
           ir_order_item r = None /\ ir_order_total r = None /\
           ir_order_status r = None /\ ir_tracking_number r = None
       end) /\
  Sorted (fun x y => String.leb (ir_complaint_created_at y)
                       (ir_complaint_created_at x) = true) rows /\
  (List.NoDup (List.map o_id (orders st)) ->
   List.length rows
   = List.length (list_complaints st (Some uid) None None None None)).
Proof.
  intros rows shows. unfold rows, correlate_user_issues, fetch_all.
  set (mine := List.filter (fun c => c_user_id c =? uid) (complaints st)).
  set (joined := List.flat_map (complaint_left_join_orders st) mine).
  assert (Hsorted_in : forall co,
    In co (order_by_text_desc (fun co => c_created_at (fst co)) joined) <-> In co joined).
  { intros co. split; apply Permutation_in;
      [symmetry|]; apply ListingFacts.order_by_text_desc_perm. }
  assert (Hshows : forall c o, shows (issue_of c o) c).
  { intros c o. unfold shows. now repeat split. }
  split; [|split; [|split]].
  - intros c Hc Hu.
    destruct (left_join_nonempty st c) as [o Ho].
    exists (issue_of c o). split; [|apply Hshows].
    apply in_map_iff. exists (c, o). split; [reflexivity|].
    apply Hsorted_in. unfold joined. apply in_flat_map. exists c.
    split; [|exact Ho]. unfold mine. apply filter_In. split; [exact Hc|].
    now apply Z.eqb_eq.
  - intros r Hr. apply in_map_iff in Hr. destruct Hr as [[c o] [<- Hco]].
    apply Hsorted_in in Hco. unfold joined in Hco. apply in_flat_map in Hco.
    destruct Hco as [c' [Hc' Hco]].
    destruct (left_join_rows st c' _ Hco) as [Hfst Hsnd]. simpl in Hfst, Hsnd.
    subst c'. unfold mine in Hc'. apply filter_In in Hc'.
    destruct Hc' as [Hin Hu]. apply Z.eqb_eq in Hu.
    exists c. split; [exact Hin|]. split; [exact Hu|]. split; [apply Hshows|].
    cbn [fst snd]. destruct o as [o|]; cbn [issue_of ir_order_id ir_order_item
      ir_order_total ir_order_status ir_tracking_number option_map].
    + destruct Hsnd as [Ho Heq]. split; [exact Heq|]. exists o. now repeat split.
    + split; [exact Hsnd|]. now repeat split.
  - apply Sorted_map. simpl.
    apply (sort_by_sorted
             (fun x y : complaint_row * option order_row =>
                Text.leb (c_created_at (fst y)) (c_created_at (fst x)))).
    intros x y. apply TextFacts.leb_false_flip.
  - intros Hnd. rewrite length_map.
    unfold order_by_text_desc. rewrite length_sort_by.
    unfold joined. rewrite flat_map_single_length.
    2:{ intros c. now apply left_join_single. }
    unfold list_complaints, fetch_all, order_by_text_desc. simpl.
    now rewrite length_sort_by, ListingFacts.where_all_single.
Qed.

End AggregateFacts.

(** ** Fulfilment timeline, active shipments, dashboard *)

Module FulfilmentFacts.

(** X14.  The timeline of an order is [None] exactly when [get_order_by_id] finds
    no order (event rows that name a missing order do not make one).
    Otherwise it carries that order row and, column for column, the events
    the log tools return for the order with no window and the complaints
    [get_complaints_for_order] returns, in the same order. *)
Theorem timeline_matches_tools (st : store) (oid : Z) :
  match get_order_fulfillment_timeline st oid with
  | None => get_order_by_id st oid = None
  | Some t =>
      get_order_by_id st oid = Some (ft_order t) /\
      ft_payment_events t
        = List.map timeline_payment_of (get_payment_logs st (Some oid) None None) /\
      ft_logistics_events t
        = List.map timeline_logistics_of (get_logistics_logs st (Some oid) None None None) /\
      ft_complaints t
        = List.map timeline_complaint_of (get_complaints_for_order st oid)
  end.
Proof.
  unfold get_order_fulfillment_timeline, get_order_by_id.
  destruct (fetch_one (order_by_id st oid)) as [o|]; [|reflexivity].
  simpl. unfold get_payment_logs, get_logistics_logs, get_complaints_for_order, fetch_all.
  simpl. rewrite !ListingFacts.where_all_single. now repeat split.
Qed.

(** X15.  A complaint on an existing order (id other than 0): its context bundle
    and the timeline of its order show the same order row and the same
    payment and logistics events in the same order, and the complaint is
    one of the timeline's complaints. *)
Theorem context_and_timeline_agree
    (st : store) (cid wh : Z) (c : complaint_row) (oid : Z) (o : order_row) :
  fetch_one (complaint_by_id st cid) = Some c ->
  c_order_id c = Some oid ->
  oid <> 0 ->
  get_order_by_id st oid = Some o ->
  exists r t,
    get_complaint_context_logs st cid wh = Some r /\
    get_order_fulfillment_timeline st oid = Some t /\
    cb_order r = Some (ft_order t) /\
    List.map timeline_payment_of (cb_payment_logs r) = ft_payment_events t /\
    List.map timeline_logistics_of (cb_logistics_logs r) = ft_logistics_events t /\
    In (timeline_complaint_of c) (ft_complaints t).
Proof.
  intros Hc Ho Hnz Horder.
  unfold get_complaint_context_logs, get_order_fulfillment_timeline.
  unfold get_order_by_id in Horder.
  rewrite Hc, Ho, (truthy_nonzero _ Hnz), Horder.
  eexists. eexists. split; [reflexivity|]. split; [reflexivity|]. simpl.
  unfold fetch_all. repeat split.
  apply in_map. apply order_by_In. apply filter_In. split.
  - apply fetch_one_filter_Some in Hc. tauto.
  - rewrite Ho. simpl. apply Z.eqb_refl.
Qed.

Lemma context_and_timeline_agree_witness :
  exists r t,
    get_complaint_context_logs store_scenario 7 48 = Some r /\
    get_order_fulfillment_timeline store_scenario 15 = Some t /\
    cb_order r = Some (ft_order t) /\
    List.map timeline_payment_of (cb_payment_logs r) = ft_payment_events t /\
    List.map timeline_logistics_of (cb_logistics_logs r) = ft_logistics_events t /\
    In (timeline_complaint_of (mk_complaint 7 5 (Some 15) "2024-03-05T10:00:00"))
       (ft_complaints t).
Proof.
  apply (context_and_timeline_agree store_scenario 7 48
           (mk_complaint 7 5 (Some 15) "2024-03-05T10:00:00") 15
           (mk_order 15 5 1200 "shipped" "2024-03-01T09:00:00"));
    [reflexivity | reflexivity | discriminate | reflexivity].
Defined.

(** *** Active shipments *)

Lemma latest_events_spec (st : store) (oid : Z) (ll : logistics_log_row) :
  In ll (latest_events st oid) ->
  In ll (logistics_logs_of st oid) /\
  is_latest (List.map l_logged_at (logistics_logs_of st oid)) (Some (l_logged_at ll)).
Proof.
  unfold latest_events.
  pose proof (max_text_latest (List.map l_logged_at (logistics_logs_of st oid))) as Hmax.
  destruct (max_text _) as [m|]; [|contradiction].
  intros Hll. apply filter_In in Hll. destruct Hll as [Hin Heq].
  apply String.eqb_eq in Heq. rewrite Heq. now split.
Qed.

Lemma latest_events_nil (st : store) (oid : Z) :
  latest_events st oid = [] -> logistics_logs_of st oid = [].
Proof.
  unfold latest_events.
  pose proof (max_text_latest (List.map l_logged_at (logistics_logs_of st oid))) as Hmax.
  destruct (max_text _) as [m|].
  - destruct Hmax as [Hin _]. apply in_map_iff in Hin.
    destruct Hin as [l [Hl Hin]]. intros Hnil.
    assert (Hf : In l (List.filter (fun l => (l_logged_at l =? m)%string)
                         (logistics_logs_of st oid))).
    { apply filter_In. split; [exact Hin | now apply String.eqb_eq]. }
    rewrite Hnil in Hf. contradiction.
  - simpl in Hmax. intros _. now apply map_eq_nil in Hmax.
Qed.

Lemma shipment_rows_spec (st : store) (o : order_row) (r : shipment_row) :
  In r (shipment_rows st o) ->
  exists u ll,
    In u (users st) /\ u_id u = o_user_id o /\ r = shipment_of st o u ll /\
    match ll with
    | Some l => In l (logistics_logs_of st (o_id o)) /\
                is_latest (List.map l_logged_at (logistics_logs_of st (o_id o)))
                  (Some (l_logged_at l))
    | None => logistics_logs_of st (o_id o) = []
    end.
Proof.
  unfold shipment_rows. rewrite in_flat_map. intros [u [Hu Hr]].
  unfold user_by_id in Hu. apply filter_In in Hu. destruct Hu as [Hu Hid].
  apply Z.eqb_eq in Hid.
  destruct (latest_events st (o_id o)) as [|l ls] eqn:E.
  - destruct Hr as [<-|[]]. exists u, None.
    split; [exact Hu|]. split; [exact Hid|]. split; [reflexivity|].
    now apply latest_events_nil.
  - apply in_map_iff in Hr. destruct Hr as [ll [<- Hll]].
    exists u, (Some ll). split; [exact Hu|]. split; [exact Hid|].
    split; [reflexivity|]. rewrite <- E in Hll.
    now apply latest_events_spec in Hll.
Qed.

Lemma shipment_rows_nonempty (st : store) (o : order_row) (u : user_row) :
  In u (users st) -> u_id u = o_user_id o ->
  exists ll, In (shipment_of st o u ll) (shipment_rows st o).
Proof.
  intros Hu Hid. unfold shipment_rows.
  assert (Hin : In u (user_by_id st (o_user_id o))).
  { unfold user_by_id. apply filter_In. split; [exact Hu | now apply Z.eqb_eq]. }
  destruct (latest_events st (o_id o)) as [|l ls] eqn:E.
  - exists None. apply in_flat_map. exists u. split; [exact Hin|]. now left.
  - exists (Some l). apply in_flat_map. exists u. split; [exact Hin|]. now left.
Qed.

Lemma text_leb_null_flip (a b : option string) :
  text_leb_null a b = false -> text_leb_null b a = true.
Proof.
  destruct a as [x|], b as [y|]; simpl; try congruence.
  apply TextFacts.leb_false_flip.
Qed.

(** X16.  [get_active_shipments] lists the orders in status "shipped" whose user
    row exists, and every one of them.  A row carries the order's id, user,
    item, tracking number and shipping address and the customer's name and
    phone.  Its latest event is an event of the order than which none of the
    order is later, shown with its carrier, type, location and time; all
    four are NULL when the order has no event at all.  Its dispatch time is
    the time of the order's earliest "dispatched" event (NULL when there is
    none), which is the [shipped_at] that [get_order_delivery_time] reports.
    Rows without a dispatch time come last. *)
Theorem active_shipments_are_shipped_orders
    (julianday : string -> option Q) (st : store) :
  let rows := get_active_shipments st in
  (forall r, In r rows ->
     exists o u,
       In o (orders st) /\ o_status o = "shipped" /\
       In u (users st) /\ u_id u = o_user_id o /\
       sh_order_id r = o_id o /\ sh_user_id r = o_user_id o /\
       sh_item r = o_item o /\ sh_tracking_number r = o_tracking_number o /\
       sh_shipping_address r = o_shipping_address o /\
       sh_customer_name r = u_name u /\ sh_customer_phone r = u_phone u /\
       (exists d, get_order_delivery_time julianday st (o_id o) = Some d /\
                  dt_shipped_at d = sh_dispatched_at r) /\
       match sh_dispatched_at r with
       | Some t =>
           (exists l, In l (logistics_logs st) /\ l_order_id l = o_id o /\
                      l_event_type l = "dispatched" /\ l_logged_at l = t) /\
           (forall l, In l (logistics_logs st) -> l_order_id l = o_id o ->
                      l_event_type l = "dispatched" ->
                      String.leb t (l_logged_at l) = true)
       | None =>
           forall l, In l (logistics_logs st) -> l_order_id l = o_id o ->
                     l_event_type l <> "dispatched"
       end /\
       match sh_latest_event_at r with
       | Some t =>
           exists l, In l (logistics_logs st) /\ l_order_id l = o_id o /\
                     l_logged_at l = t /\
                     (forall l', In l' (logistics_logs st) -> l_order_id l' = o_id o ->
                                 String.leb (l_logged_at l') t = true) /\
                     sh_carrier r = Some (l_carrier l) /\
                     sh_latest_event r = Some (l_event_type l) /\
                     sh_latest_location r = l_location l
       | None =>
           (forall l, In l (logistics_logs st) -> l_order_id l <> o_id o) /\
           sh_carrier r = None /\ sh_latest_event r = None /\
           sh_latest_location r = None
       end) /\
  (forall o u,
     In o (orders st) -> o_status o = "shipped" ->
     In u (users st) -> u_id u = o_user_id o ->
     exists r, In r rows /\ sh_order_id r = o_id o /\ sh_customer_name r = u_name u) /\
  Sorted (fun x y => match sh_dispatched_at y, sh_dispatched_at x with
                     | None, _ => True
                     | Some _, None => False
                     | Some ty, Some tx => String.leb ty tx = true
                     end) rows.
Proof.
  intros rows. unfold rows, get_active_shipments, fetch_all.
  split; [|split].
  - intros r Hr.
    apply (Permutation_in _ (Permutation_sym (sort_by_perm _ _))) in Hr.
    apply in_flat_map in Hr. destruct Hr as [o [Ho Hr]].
    apply filter_In in Ho. destruct Ho as [Ho Hst]. apply String.eqb_eq in Hst.
    destruct (shipment_rows_spec st o r Hr) as [u [ll [Hu [Hid [-> Hll]]]]].
    exists o, u. repeat (split; [assumption || reflexivity|]).
    cbn [shipment_of sh_dispatched_at sh_latest_event_at sh_carrier
         sh_latest_event sh_latest_location].
    split; [|split].
    + unfold get_order_delivery_time.
      assert (Hin : In o (order_by_id st (o_id o))).
      { unfold order_by_id. apply filter_In. split; [exact Ho | apply Z.eqb_refl]. }
      assert (Hids : forall o', In o' (order_by_id st (o_id o)) -> o_id o' = o_id o).
      { intros o' Ho'. unfold order_by_id in Ho'. apply filter_In in Ho'.
        now apply Z.eqb_eq. }
      destruct (order_by_id st (o_id o)) as [|o0 os]; [contradiction|].
      simpl. eexists. split; [reflexivity|]. simpl.
      now rewrite (Hids o0 (or_introl eq_refl)).
    + unfold dispatch_shipped_at.
      fold (event_times st (o_id o) "dispatched").
      pose proof (min_text_earliest (event_times st (o_id o) "dispatched")) as Hmin.
      destruct (min_text (event_times st (o_id o) "dispatched")) as [t|].
      * destruct Hmin as [Hin Hle]. split.
        -- unfold event_times in Hin. apply in_map_iff in Hin.
           destruct Hin as [l [Ht Hl]]. apply filter_In in Hl.
           destruct Hl as [Hl Hb]. apply andb_true_iff in Hb.
           destruct Hb as [H1 H2]. apply Z.eqb_eq in H1. apply String.eqb_eq in H2.
           exists l. now repeat split.
        -- intros l Hl Hoid Hty. apply Hle. unfold event_times.
           apply in_map. apply filter_In. split; [exact Hl|].
           apply andb_true_iff. split; [now apply Z.eqb_eq | now apply String.eqb_eq].
      * simpl in Hmin. now apply event_times_nil.
    + destruct ll as [l|]; cbn [option_map].
      * destruct Hll as [Hl [_ Hmax]].
        unfold logistics_logs_of in Hl. apply filter_In in Hl.
        destruct Hl as [Hl Hoid]. apply Z.eqb_eq in Hoid.
        exists l. split; [exact Hl|]. split; [exact Hoid|]. split; [reflexivity|].
        split; [|now repeat split].
        intros l' Hl' Hoid'. apply Hmax. apply in_map.
        unfold logistics_logs_of. apply filter_In. split; [exact Hl'|].
        now apply Z.eqb_eq.
      * split; [|now repeat split].
        intros l Hl Hoid.
        assert (Hin : In l (logistics_logs_of st (o_id o))).
        { unfold logistics_logs_of. apply filter_In. split; [exact Hl|].
          now apply Z.eqb_eq. }
        rewrite Hll in Hin. contradiction.
  - intros o u Ho Hst Hu Hid.
    destruct (shipment_rows_nonempty st o u Hu Hid) as [ll Hin].
    exists (shipment_of st o u ll). split; [|now split].
    apply (Permutation_in _ (sort_by_perm _ _)).
    apply in_flat_map. exists o. split; [|exact Hin].
    apply filter_In. split; [exact Ho | now apply String.eqb_eq].
  - pose proof (sort_by_sorted
             (fun x y => text_leb_null (sh_dispatched_at y) (sh_dispatched_at x))
             (fun x y => text_leb_null_flip _ _)
             (List.flat_map (shipment_rows st)
                (List.filter (fun o => (o_status o =? "shipped")%string) (orders st))))
      as Hsorted.
    revert Hsorted. generalize (sort_by
      (fun x y => text_leb_null (sh_dispatched_at y) (sh_dispatched_at x))
      (List.flat_map (shipment_rows st)
         (List.filter (fun o => (o_status o =? "shipped")%string) (orders st)))).
    intros l Hsorted.
    assert (Hrel : forall x y : shipment_row,
              text_leb_null (sh_dispatched_at y) (sh_dispatched_at x) = true ->
              match sh_dispatched_at y, sh_dispatched_at x with
              | None, _ => True
              | Some _, None => False
              | Some ty, Some tx => String.leb ty tx = true
              end).
    { intros x y. unfold text_leb_null, Text.leb.
      destruct (sh_dispatched_at y), (sh_dispatched_at x); auto. discriminate. }
    induction Hsorted as [|x l Hs IH Hhd]; constructor; [exact IH|].
    destruct Hhd; constructor. now apply Hrel.
Qed.

(** *** The dashboard *)

Lemma pipeline_counts_disjoint (os : list order_row) :
  count_where (fun o => (o_status o =? "delivered")%string) os
  + count_where (fun o => (o_status o =? "shipped")%string) os
  + count_where (fun o => (o_status o =? "pending")%string
                          || (o_status o =? "processing")%string) os
  <= Z.of_nat (List.length os).
Proof.
  induction os as [|o os IH]; [reflexivity|].
  rewrite !AggregateFacts.count_where_cons. simpl List.length.
  destruct (String.eqb_spec (o_status o) "delivered") as [E1|N1];
    destruct (String.eqb_spec (o_status o) "shipped") as [E2|N2];
    destruct (String.eqb_spec (o_status o) "pending") as [E3|N3];
    destruct (String.eqb_spec (o_status o) "processing") as [E4|N4];
    try (rewrite E1 in E2; discriminate);
    try (rewrite E1 in E3; discriminate);
    try (rewrite E1 in E4; discriminate);
    try (rewrite E2 in E3; discriminate);
    try (rewrite E2 in E4; discriminate);
    simpl; lia.
Qed.

(** X17.  On an empty orders table the dashboard reports 0 orders but NULL, not
    0, for the revenue, the average and the delivered, in-transit and
    pending counts.  On a non-empty table the three counts are numbers, they
    do not add up to more than the order total, and the in-transit count is
    the number of orders [list_orders] returns for the status "shipped".
    The complaint counts behave alike. *)
Theorem dashboard_counts_null_when_empty (st : store) :
  let d := get_dashboard_summary st in
  d_orders_total d = Z.of_nat (List.length (orders st)) /\
  (orders st = [] ->
   d_orders_total d = 0 /\ d_total_revenue d = None /\ d_avg_order_value d = None /\
   d_delivered d = None /\ d_in_transit d = None /\ d_pending d = None) /\
  (orders st <> [] ->
   exists delivered in_transit pending,
     d_delivered d = Some delivered /\ d_in_transit d = Some in_transit /\
     d_pending d = Some pending /\
     0 <= delivered /\ 0 <= in_transit /\ 0 <= pending /\
     delivered + in_transit + pending <= d_orders_total d /\
     in_transit = Z.of_nat (List.length (list_orders st None (Some "shipped") None)) /\
     d_total_revenue d <> None) /\
  (complaints st = [] ->
   d_complaints_total d = 0 /\ d_open_count d = None /\ d_high_priority d = None) /\
  (complaints st <> [] ->
   exists open_count high,
     d_open_count d = Some open_count /\ d_high_priority d = Some high /\
     0 <= open_count <= d_complaints_total d /\
     0 <= high <= d_complaints_total d).
Proof.
  simpl. split; [reflexivity|]. split; [|split; [|split]].
  - intros ->. simpl. now repeat split.
  - intros Hne. destruct (orders st) as [|o os] eqn:E; [contradiction|].
    rewrite <- E. unfold sum_case. rewrite E.
    eexists. eexists. eexists.
    split; [reflexivity|]. split; [reflexivity|]. split; [reflexivity|].
    rewrite <- E.
    split; [apply AggregateFacts.count_where_le|].
    split; [apply AggregateFacts.count_where_le|].
    split; [apply AggregateFacts.count_where_le|].
    split; [apply pipeline_counts_disjoint|]. split.
    + unfold list_orders, fetch_all, order_by_text_desc. simpl.
      rewrite AggregateFacts.length_sort_by, ListingFacts.where_all_single.
      reflexivity.
    + rewrite E. discriminate.
  - intros ->. simpl. now repeat split.
  - intros Hne. destruct (complaints st) as [|c cs] eqn:E; [contradiction|].
    unfold sum_case. eexists. eexists.
    split; [reflexivity|]. split; [reflexivity|].
    split; apply AggregateFacts.count_where_le.
Qed.

End FulfilmentFacts.

(** ** Payment analytics *)

Module PaymentFacts.

Lemma q_leb_null_flip (a b : option Q) :
  q_leb_null a b = false -> q_leb_null b a = true.
Proof.
  destruct a as [x|], b as [y|]; simpl; try congruence.
  intros H. apply Qle_bool_iff, Qlt_le_weak, Qnot_le_lt.
  intros Hle. apply Qle_bool_iff in Hle. congruence.
Qed.

(** Rounding a percentage to two decimals keeps it a percentage. *)
Lemma sql_round_percentage (x : Q) :
  (0 <= x)%Q -> (x <= 100)%Q ->
  (0 <= sql_round 2 x)%Q /\ (sql_round 2 x <= 100)%Q.
Proof.
  intros H0 H100. unfold sql_round.
  change (10 ^ 2) with 100. change (Z.to_pos 100) with 100%positive.
  assert (Hb : Qle_bool 0 x = true) by now apply Qle_bool_iff.
  rewrite Hb.
  set (n := Qfloor (Qabs x * inject_Z 100 + (1 # 2))).
  assert (Habs : (Qabs x == x)%Q) by now apply Qabs_pos.
  assert (Hlo : 0 <= n).
  { change 0 with (Qfloor 0). apply Qfloor_resp_le.
    rewrite Habs.
    apply Qle_trans with (0 * inject_Z 100 + (1 # 2))%Q; [discriminate|].
    apply Qplus_le_l, Qmult_le_compat_r; [exact H0 | discriminate]. }
  assert (Hhi : n <= 10000).
  { change 10000 with (Qfloor (100 * inject_Z 100 + (1 # 2))).
    apply Qfloor_resp_le. rewrite Habs.
    apply Qplus_le_l, Qmult_le_compat_r; [exact H100 | discriminate]. }
  rewrite Qred_correct. unfold Qle. simpl. lia.
Qed.

Lemma ratio_is_percentage (f total : Z) :
  0 <= f <= total -> 1 <= total ->
  (0 <= inject_Z f * 100 / inject_Z total)%Q /\
  (inject_Z f * 100 / inject_Z total <= 100)%Q.
Proof.
  intros Hf Ht.
  assert (Hpos : (0 < inject_Z total)%Q) by (unfold Qlt; simpl; lia).
  split.
  - apply Qle_shift_div_l; [exact Hpos|]. unfold Qle. simpl. lia.
  - apply Qle_shift_div_r; [exact Hpos|]. unfold Qle. simpl. lia.
Qed.

Lemma sql_round_comp (d : Z) (x y : Q) :
  (x == y)%Q -> sql_round d x = sql_round d y.
Proof.
  intros E. unfold sql_round.
  assert (Hb : Qle_bool 0 x = Qle_bool 0 y).
  { destruct (Qle_bool 0 y) eqn:Ey.
    - apply Qle_bool_iff. rewrite E. now apply Qle_bool_iff.
    - destruct (Qle_bool 0 x) eqn:Ex; [|reflexivity].
      apply Qle_bool_iff in Ex. rewrite E in Ex. apply Qle_bool_iff in Ex.
      congruence. }
  assert (Hn : Qfloor (Qabs x * inject_Z (10 ^ d) + (1 # 2))
               = Qfloor (Qabs y * inject_Z (10 ^ d) + (1 # 2))).
  { apply Qfloor_comp. now rewrite E. }
  cbv zeta. now rewrite Hb, Hn.
Qed.

Lemma pct_extremes (f t : Z) :
  1 <= t ->
  (f = 0 -> (sql_round 2 (inject_Z f * 100 / inject_Z t) == 0)%Q) /\
  (f = t -> (sql_round 2 (inject_Z f * 100 / inject_Z t) == 100)%Q).
Proof.
  intros Ht. split; intros ->.
  - rewrite (sql_round_comp 2 _ 0); [reflexivity|].
    unfold Qdiv. rewrite <- Qmult_assoc. apply Qmult_0_l.
  - rewrite (sql_round_comp 2 _ 100); [reflexivity|].
    unfold Qdiv. rewrite (Qmult_comm (inject_Z t) 100), <- Qmult_assoc.
    rewrite Qmult_inv_r; [apply Qmult_1_r|].
    unfold Qeq. simpl. lia.
Qed.

Lemma count_where_bounds {A : Type} (f : A -> bool) (rows : list A) :
  0 <= count_where f rows <= Z.of_nat (List.length rows).
Proof.
  unfold count_where. pose proof (List.filter_length_le f rows). lia.
Qed.

Lemma success_failure_disjoint (rows : list payment_log_row) :
  count_where (fun p => (p_status p =? "success")%string) rows
  + count_where (fun p => (p_status p =? "failed")%string) rows
  <= Z.of_nat (List.length rows).
Proof.
  unfold count_where. induction rows as [|p rows IH]; simpl; [lia|].
  destruct (String.eqb_spec (p_status p) "success") as [E|_];
    destruct (String.eqb_spec (p_status p) "failed") as [E'|_];
    simpl List.length; try lia.
  rewrite E in E'. discriminate.
Qed.

(** The aggregates over at least one payment event. *)
Lemma failure_rate_of_events {K : Type} (k : K) (events : list payment_log_row) :
  events <> [] ->
  exists s f p,
    pf_success_count (failure_rate_of k events) = Some s /\
    pf_failure_count (failure_rate_of k events) = Some f /\
    pf_failure_pct (failure_rate_of k events) = Some p /\
    s = Z.of_nat (List.length
          (List.filter (fun e => (p_status e =? "success")%string) events)) /\
    f = Z.of_nat (List.length
          (List.filter (fun e => (p_status e =? "failed")%string) events)) /\
    1 <= pf_total_events (failure_rate_of k events) /\
    s + f <= pf_total_events (failure_rate_of k events) /\
    (0 <= p)%Q /\ (p <= 100)%Q /\
    (f = 0 -> (p == 0)%Q) /\
    (f = pf_total_events (failure_rate_of k events) -> (p == 100)%Q).
Proof.
  intros Hne. destruct events as [|e events]; [contradiction|].
  set (evs := e :: events).
  assert (Hlen : 1 <= Z.of_nat (List.length evs)) by (simpl List.length; lia).
  pose proof (count_where_bounds (fun p => (p_status p =? "failed")%string) evs) as Hf.
  pose proof (success_failure_disjoint evs) as Hsf.
  unfold failure_rate_of, sum_case, failure_pct. fold evs. cbn [pf_success_count
    pf_failure_count pf_failure_pct pf_total_events].
  destruct (Z.eqb_spec (Z.of_nat (List.length evs)) 0) as [E|_]; [lia|].
  eexists _, _, _.
  split; [reflexivity|]. split; [reflexivity|]. split; [reflexivity|].
  split; [reflexivity|]. split; [reflexivity|].
  split; [exact Hlen|]. split; [exact Hsf|].
  destruct (ratio_is_percentage _ _ Hf Hlen) as [H0 H100].
  destruct (sql_round_percentage _ H0 H100) as [R0 R100].
  split; [exact R0|]. split; [exact R100|].
  destruct (pct_extremes
              (count_where (fun e0 => (p_status e0 =? "failed")%string) evs)
              _ Hlen) as [Hzero Hall].
  split; [exact Hzero | exact Hall].
Qed.

(** X18.  What [get_payment_failure_rate] reports. With no payment events the
    overall row has a total of 0 and NULL for both counts and for the
    failure percentage, and there is no gateway row. Otherwise the overall
    row, and every gateway row, has at least one event, counts that are the
    numbers of its success and failed events (so together at most the
    total), and a failure percentage between 0 and 100 that is 0 when
    nothing failed and 100 when everything did. Every gateway appears once,
    the gateway totals add up to the overall total, which is the number of
    payment events, and the gateway rows are in descending order of failure
    percentage. *)
Theorem payment_failure_rates_are_percentages (st : store) :
  let report := get_payment_failure_rate st in
  let well_formed {K : Type} (events : list payment_log_row)
        (row : failure_rate_row K) :=
    exists s f p,
      pf_success_count row = Some s /\ pf_failure_count row = Some f /\
      pf_failure_pct row = Some p /\
      s = Z.of_nat (List.length
            (List.filter (fun e => (p_status e =? "success")%string) events)) /\
      f = Z.of_nat (List.length
            (List.filter (fun e => (p_status e =? "failed")%string) events)) /\
      pf_total_events row = Z.of_nat (List.length events) /\
      1 <= pf_total_events row /\ s + f <= pf_total_events row /\
      (0 <= p)%Q /\ (p <= 100)%Q /\
      (f = 0 -> (p == 0)%Q) /\ (f = pf_total_events row -> (p == 100)%Q) in
  (payment_logs st = [] ->
     pfr_by_gateway report = [] /\
     pf_total_events (pfr_overall report) = 0 /\
     pf_success_count (pfr_overall report) = None /\
     pf_failure_count (pfr_overall report) = None /\
     pf_failure_pct (pfr_overall report) = None) /\
  (payment_logs st <> [] -> well_formed (payment_logs st) (pfr_overall report)) /\
  (forall row, In row (pfr_by_gateway report) ->
     well_formed
       (List.filter (fun e => (p_gateway e =? pf_key row)%string) (payment_logs st))
       row) /\
  List.NoDup (List.map pf_key (pfr_by_gateway report)) /\
  (forall e, In e (payment_logs st) ->
     In (p_gateway e) (List.map pf_key (pfr_by_gateway report))) /\
  sum_Z (List.map pf_total_events (pfr_by_gateway report))
    = pf_total_events (pfr_overall report) /\
  Sorted (fun x y => q_leb_null (pf_failure_pct y) (pf_failure_pct x) = true)
    (pfr_by_gateway report).
Proof.
  cbv zeta. unfold get_payment_failure_rate, fetch_all.
  cbn [pfr_overall pfr_by_gateway].
  set (rows := List.map (fun g => failure_rate_of (fst g) (snd g))
                 (group_rows string_dec p_gateway (payment_logs st))).
  set (leb := fun x y : failure_rate_row string =>
                q_leb_null (pf_failure_pct y) (pf_failure_pct x)).
  pose proof (sort_by_perm leb rows) as Hperm.
  assert (Hkeys : List.map pf_key rows
                  = nodup string_dec (List.map p_gateway (payment_logs st))).
  { unfold rows. rewrite List.map_map. simpl.
    apply AggregateFacts.group_rows_keys. }
  split; [|split; [|split; [|split; [|split; [|split]]]]].
  - intros E. unfold rows. rewrite E. simpl. auto.
  - intros Hne.
    destruct (failure_rate_of_events tt _ Hne)
      as [s [f [p [H1 [H2 [H3 [H4 [H5 [H6 [H7 [H8 [H9 [H10 H11]]]]]]]]]]]]].
    exists s, f, p. repeat (split; [assumption|]).
    split; [reflexivity|]. repeat (split; [assumption|]). assumption.
  - intros row Hrow.
    apply (Permutation_in _ (Permutation_sym Hperm)) in Hrow.
    unfold rows in Hrow. apply in_map_iff in Hrow.
    destruct Hrow as [g [<- Hg]].
    unfold group_rows in Hg. apply in_map_iff in Hg.
    destruct Hg as [k [<- Hk]]. cbn [fst snd pf_key failure_rate_of].
    apply nodup_In, in_map_iff in Hk. destruct Hk as [e0 [He0 Hin0]].
    assert (Hsame :
      List.filter (fun r => if string_dec (p_gateway r) k then true else false)
        (payment_logs st)
      = List.filter (fun e => (p_gateway e =? k)%string) (payment_logs st)).
    { apply filter_ext. intros r.
      destruct (string_dec (p_gateway r) k) as [->|Hn].
      - now rewrite String.eqb_refl.
      - symmetry. now apply String.eqb_neq. }
    rewrite Hsame.
    set (evs := List.filter (fun e => (p_gateway e =? k)%string) (payment_logs st)).
    assert (Hne : evs <> []).
    { intros Hnil. assert (Hin : In e0 evs).
      { apply filter_In. split; [exact Hin0|]. rewrite He0. apply String.eqb_refl. }
      rewrite Hnil in Hin. contradiction. }
    destruct (failure_rate_of_events k _ Hne)
      as [s [f [p [H1 [H2 [H3 [H4 [H5 [H6 [H7 [H8 [H9 [H10 H11]]]]]]]]]]]]].
    exists s, f, p. repeat (split; [assumption|]).
    split; [reflexivity|]. repeat (split; [assumption|]). assumption.
  - apply (Permutation_NoDup (Permutation_map pf_key Hperm)).
    rewrite Hkeys. apply NoDup_nodup.
  - intros e He.
    apply (Permutation_in _ (Permutation_map pf_key Hperm)).
    rewrite Hkeys. apply nodup_In. now apply in_map.
  - rewrite <- (AggregateFacts.sum_Z_perm _ _ (Permutation_map pf_total_events Hperm)).
    unfold rows, group_rows. rewrite !List.map_map. simpl.
    apply AggregateFacts.group_sizes_sum; [apply NoDup_nodup|].
    intros r Hr. apply nodup_In. now apply in_map.
  - apply sort_by_sorted. intros x y. apply q_leb_null_flip.
Qed.

(** X19.  [get_payment_summary_by_method] and the payment half of
    [get_order_statistics] report the same figures. Row for row, up to their
    order, the two have the same payment methods with the same order counts
    and the same rounded revenue. Every method appears once in the summary,
    with at least one order and a revenue and an average that are not NULL,
    and the summary is in descending order of revenue. *)
Theorem method_summary_agrees_with_statistics (st : store) :
  let summary := get_payment_summary_by_method st in
  let by_payment := snd (get_order_statistics st) in
  Permutation
    (List.map (fun m => (ms_payment_method m, ms_order_count m, ms_total_revenue m))
       summary)
    (List.map (fun s => (os_key s, os_cnt s, os_total s)) by_payment) /\
  (forall m, In m summary ->
     1 <= ms_order_count m /\
     ms_order_count m
       = Z.of_nat (List.length
           (List.filter
              (fun o => if option_string_dec (o_payment_method o) (ms_payment_method m)
                        then true else false)
              (orders st))) /\
     (exists r, ms_total_revenue m = Some r) /\
     (exists a, ms_avg_order_value m = Some a)) /\
  List.NoDup (List.map ms_payment_method summary) /\
  sum_Z (List.map ms_order_count summary) = Z.of_nat (List.length (orders st)) /\
  Sorted (fun x y => q_leb_null (ms_total_revenue y) (ms_total_revenue x) = true)
    summary.
Proof.
  cbv zeta. unfold get_payment_summary_by_method, get_order_statistics, fetch_all,
    order_stats. cbn [snd].
  set (groups := group_rows option_string_dec o_payment_method (orders st)).
  set (to_summary := fun g : option string * list order_row =>
         {| ms_payment_method := fst g;
            ms_order_count := Z.of_nat (List.length (snd g));
            ms_total_revenue :=
              option_map (sql_round 2) (sql_sum (List.map o_total_amount (snd g)));
            ms_avg_order_value :=
              option_map (sql_round 2)
                (sql_avg (List.map Some (List.map o_total_amount (snd g)))) |}).
  set (leb := fun x y : method_summary =>
                q_leb_null (ms_total_revenue y) (ms_total_revenue x)).
  pose proof (sort_by_perm leb (List.map to_summary groups)) as Hperm.
  split; [|split; [|split; [|split]]].
  - rewrite <- (Permutation_map _ Hperm).
    rewrite <- (Permutation_map _ (order_by_desc_perm os_cnt _)).
    rewrite !List.map_map. apply Permutation_refl.
  - intros m Hm. apply (Permutation_in _ (Permutation_sym Hperm)) in Hm.
    apply in_map_iff in Hm. destruct Hm as [g [<- Hg]].
    destruct (AggregateFacts.group_rows_member _ _ _ _ Hg) as [Hne _].
    unfold groups, group_rows in Hg. apply in_map_iff in Hg.
    destruct Hg as [k [<- _]]. cbn [fst snd] in *.
    unfold to_summary. cbn [fst snd ms_order_count ms_total_revenue
      ms_avg_order_value ms_payment_method].
    destruct (List.filter
                (fun r => if option_string_dec (o_payment_method r) k
                          then true else false) (orders st))
      as [|o os]; [contradiction|].
    split; [simpl List.length; lia|].
    split; [reflexivity|].
    split; eexists; reflexivity.
  - apply (Permutation_NoDup (Permutation_map ms_payment_method Hperm)).
    rewrite List.map_map. unfold to_summary. cbn [ms_payment_method].
    fold (List.map (@fst (option string) (list order_row)) groups).
    unfold groups. rewrite AggregateFacts.group_rows_keys. apply NoDup_nodup.
  - rewrite <- (AggregateFacts.sum_Z_perm _ _ (Permutation_map ms_order_count Hperm)).
    unfold groups, group_rows. rewrite !List.map_map. simpl.
    apply AggregateFacts.group_sizes_sum; [apply NoDup_nodup|].
    intros r Hr. apply nodup_In. now apply in_map.
  - apply sort_by_sorted. intros x y. apply q_leb_null_flip.
Qed.

End PaymentFacts.

(** ** The catalog, the dispatch table and the resources *)

Module CatalogFacts.
Import Server Catalog.

Lemma catalog_handlers_match : forallb handler_matches TOOLS = true.
Proof. vm_compute. reflexivity. Qed.

Lemma catalog_resources_served : forallb resource_served RESOURCES = true.
Proof. vm_compute. reflexivity. Qed.

Lemma resource_keys : resource_entries.*1 = RESOURCES.
Proof. reflexivity. Qed.

Lemma arg_access_eqb_eq (x y : arg_access) : arg_access_eqb x y = true -> x = y.
Proof.
  destruct x as [k|k d]; destruct y as [k'|k' e]; simpl;
    try discriminate; try (destruct d; try discriminate);
    try (destruct e; try discriminate).
  - intros H. apply String.eqb_eq in H. now subst.
  - intros H. apply String.eqb_eq in H. now subst.
  - intros H. apply andb_true_iff in H. destruct H as [H1 H2].
    apply String.eqb_eq in H1. apply Z.eqb_eq in H2. now subst.
Qed.

Lemma combine_eqb_eq (xs ys : list arg_access) :
  List.length xs = List.length ys ->
  forallb (fun xy => arg_access_eqb (fst xy) (snd xy)) (List.combine xs ys) = true ->
  xs = ys.
Proof.
  revert ys. induction xs as [|x xs IH]; intros [|y ys] Hlen H;
    simpl in *; try discriminate; [reflexivity|].
  apply andb_true_iff in H. destruct H as [H1 H2].
  apply arg_access_eqb_eq in H1. subst.
  f_equal. apply IH; [lia | exact H2].
Qed.

(** The lambda of a catalog tool is the one its schema calls for. *)
Lemma catalog_handler (t : tool) :
  In t TOOLS -> _TOOL_DISPATCH !! tool_name t = Some (expected_handler t).
Proof.
  intros Ht. pose proof catalog_handlers_match as Hall.
  rewrite forallb_forall in Hall. specialize (Hall t Ht).
  unfold handler_matches in Hall.
  destruct (_TOOL_DISPATCH !! tool_name t) as [fn|]; [|discriminate].
  unfold handler_eqb in Hall.
  apply andb_true_iff in Hall. destruct Hall as [Hall H3].
  apply andb_true_iff in Hall. destruct Hall as [H1 H2].
  apply String.eqb_eq in H1. apply Nat.eqb_eq in H2.
  pose proof (combine_eqb_eq _ _ H2 H3) as Hargs.
  destruct fn as [r xs], (expected_handler t) as [r' xs']. simpl in *.
  now subst.
Qed.

(** Argument expressions that read the same values evaluate alike. *)
Lemma eval_args_agree (a a' : gmap string json) (xs : list arg_access) :
  (forall x, In x xs -> a !! access_key x = a' !! access_key x) ->
  eval_args a xs = eval_args a' xs.
Proof.
  induction xs as [|x xs IH]; intros H; [reflexivity|].
  simpl. rewrite IH by (intros y Hy; apply H; now right).
  assert (Hx : eval_access a x = eval_access a' x).
  { pose proof (H x (or_introl eq_refl)) as E.
    destruct x as [k|k d]; simpl in *; now rewrite E. }
  now rewrite Hx.
Qed.

(** With every indexed key present, the expressions yield their values. *)
Lemma eval_args_present (a : gmap string json) (xs : list arg_access) :
  (forall k, In (Index k) xs -> is_Some (a !! k)) ->
  eval_args a xs = Returned (List.map (access_value a) xs).
Proof.
  induction xs as [|x xs IH]; intros H; [reflexivity|].
  simpl. rewrite IH by (intros k Hk; apply H; now right).
  destruct x as [k|k d]; unfold access_value; simpl.
  - destruct (H k (or_introl eq_refl)) as [v ->]. reflexivity.
  - destruct (a !! k); reflexivity.
Qed.

Lemma expected_keys (t : tool) :
  List.map access_key (h_args (expected_handler t)) = tool_properties t.
Proof.
  unfold expected_handler. simpl. rewrite List.map_map.
  rewrite <- (map_id (tool_properties t)) at 2.
  apply map_ext. intros k.
  now destruct (existsb (String.eqb k) (tool_required t)).
Qed.

Lemma expected_index (t : tool) (k : string) :
  In (Index k) (h_args (expected_handler t)) -> In k (tool_required t).
Proof.
  unfold expected_handler. simpl. rewrite in_map_iff.
  intros [k0 [Hk0 _]].
  destruct (existsb (String.eqb k0) (tool_required t)) eqn:E; [|discriminate].
  injection Hk0 as ->. apply existsb_exists in E.
  destruct E as [k' [Hin Heq]]. apply String.eqb_eq in Heq. now subst.
Qed.

(** X20.  A tool ignores the arguments its schema does not declare. For a tool
    of the catalog, two argument dicts that agree on the declared properties
    give the same outcome on the same database: the same text or the same
    exception, and the same database afterwards. *)
Theorem undeclared_arguments_are_ignored
    (db : Type) (repo : string -> list json -> db -> outcome pyexc json * db)
    (json_dumps : json -> string) (t : tool) (a a' : gmap string json) (s : db) :
  In t TOOLS ->
  (forall k, In k (tool_properties t) -> a !! k = a' !! k) ->
  handle_call_tool db repo json_dumps (tool_name t) a s
  = handle_call_tool db repo json_dumps (tool_name t) a' s.
Proof.
  intros Ht Hagree. unfold handle_call_tool, apply_handler.
  rewrite (catalog_handler t Ht).
  rewrite (eval_args_agree a a'); [reflexivity|].
  intros x Hx. apply Hagree. rewrite <- expected_keys.
  now apply in_map.
Qed.

Lemma undeclared_arguments_are_ignored_witness :
  handle_call_tool nat counting_repo show_json "get_top_customers"
    {[ "limit" := JInt 5; "verbose" := JBool true ]} 0%nat
  = handle_call_tool nat counting_repo show_json "get_top_customers"
      {[ "limit" := JInt 5 ]} 0%nat.
Proof.
  apply (undeclared_arguments_are_ignored nat counting_repo show_json
           {| tool_name := "get_top_customers"; tool_properties := ["limit"];
              tool_required := [] |}).
  - vm_compute. tauto.
  - intros k [<-|[]]. vm_compute. reflexivity.
Defined.

(** X21.  A call that supplies the required arguments reaches the repository.
    For a tool of the catalog whose required arguments are all present, the
    dispatcher calls the repository function of the tool's own name, once,
    with one value per declared property in the declared order: the value
    supplied, or else the default (48 for [window_hours], 10 for [limit],
    [None] otherwise). What the function returns comes back as one text,
    and what it raises is raised. *)
Theorem required_arguments_reach_repository
    (db : Type) (repo : string -> list json -> db -> outcome pyexc json * db)
    (json_dumps : json -> string) (t : tool) (a : gmap string json) (s : db) :
  In t TOOLS ->
  (forall k, In k (tool_required t) -> is_Some (a !! k)) ->
  handle_call_tool db repo json_dumps (tool_name t) a s
  = match repo (tool_name t)
            (List.map (fun k => match a !! k with
                                | Some v => v
                                | None => default_of k
                                end)
               (tool_properties t)) s with
    | (Raised e, s') => (Raised e, s')
    | (Returned payload, s') => (Returned [json_dumps payload], s')
    end.
Proof.
  intros Ht Hreq. unfold handle_call_tool, apply_handler.
  rewrite (catalog_handler t Ht).
  rewrite eval_args_present
    by (intros k Hk; apply Hreq; now apply expected_index).
  assert (Hvals :
    List.map (access_value a) (h_args (expected_handler t))
    = List.map (fun k => match a !! k with Some v => v | None => default_of k end)
        (tool_properties t)).
  { unfold expected_handler. simpl. rewrite List.map_map.
    apply map_ext_in. intros k Hk. unfold access_value.
    destruct (existsb (String.eqb k) (tool_required t)) eqn:E; simpl.
    - apply existsb_exists in E. destruct E as [k' [Hin Heq]].
      apply String.eqb_eq in Heq. subst k'.
      destruct (Hreq k Hin) as [v ->]. reflexivity.
    - destruct (a !! k); reflexivity. }
  rewrite Hvals. reflexivity.
Qed.

Lemma required_arguments_reach_repository_witness :
  handle_call_tool nat counting_repo show_json "get_complaint_context_logs"
    {[ "complaint_id" := JInt 7 ]} 0%nat
  = (Returned ["payload"], 1%nat).
Proof.
  rewrite (required_arguments_reach_repository nat counting_repo show_json
             {| tool_name := "get_complaint_context_logs";
                tool_properties := ["complaint_id"; "window_hours"];
                tool_required := ["complaint_id"] |}).
  - reflexivity.
  - vm_compute. tauto.
  - intros k [<-|[]]. vm_compute. eauto.
Defined.

Lemma unlisted_resource (uri : string) :
  ~ In uri RESOURCES -> _RESOURCE_DISPATCH !! uri = None.
Proof.
  intros Hnot. unfold _RESOURCE_DISPATCH.
  apply not_elem_of_list_to_map_1. rewrite resource_keys.
  intros Hin. apply Hnot. now apply list_elem_of_In.
Qed.

(** X22.  Reading a resource. A URI outside the thirteen of the catalog raises
    [ValueError("Unknown resource: ...")] and the database is handed back as
    it was, no repository function having been called. Every URI of the
    catalog is served by one repository function, called with no argument,
    and that function is also offered as a tool without required arguments;
    what it returns comes back as text, what it raises is raised. *)
Theorem read_resource_dispatch
    (db : Type) (repo : string -> list json -> db -> outcome pyexc json * db)
    (json_dumps : json -> string) (s : db) :
  (forall uri, ~ In uri RESOURCES ->
     handle_read_resource db repo json_dumps uri s
     = (Raised (ValueError (String.append "Unknown resource: " uri)), s)) /\
  (forall uri, In uri RESOURCES ->
     exists t, In t TOOLS /\ tool_required t = [] /\
       handle_read_resource db repo json_dumps uri s
       = match repo (tool_name t) [] s with
         | (Raised e, s') => (Raised e, s')
         | (Returned payload, s') => (Returned (json_dumps payload), s')
         end).
Proof.
  split.
  - intros uri Hnot. unfold handle_read_resource.
    now rewrite (unlisted_resource uri Hnot).
  - intros uri Huri. pose proof catalog_resources_served as Hall.
    rewrite forallb_forall in Hall. specialize (Hall uri Huri).
    unfold resource_served in Hall. unfold handle_read_resource.
    destruct (_RESOURCE_DISPATCH !! uri) as [f|]; [|discriminate].
    apply existsb_exists in Hall. destruct Hall as [t [Ht Hmatch]].
    apply andb_true_iff in Hmatch. destruct Hmatch as [Hname Hreq].
    apply String.eqb_eq in Hname. apply Nat.eqb_eq in Hreq.
    exists t. split; [exact Ht|]. split.
    + now destruct (tool_required t).
    + now rewrite Hname.
Qed.

End CatalogFacts.

(** ** The conversation as a whole, and the error payload *)

Module ConversationFacts.
Import Client Transcript.

Section Conversation.
Variable generate_content : list content -> outcome exception response.
Variable call_tool : string -> list (string * json) -> outcome exception (list (option pystr)).

Lemma iteration_next_turn (m m' : list content) :
  agent_iteration generate_content call_tool m = Next m' ->
  exists ct ps,
    parts ct = Some ps /\ has_function_calls ps = true /\
    m' = m ++ exchange call_tool (ct, ps).
Proof.
  unfold agent_iteration.
  destruct (generate_content m) as [r|e]; [|discriminate].
  destruct (first_candidate r) as [[ct ps]|e] eqn:E; [|discriminate].
  destruct (has_function_calls ps) eqn:Hc; [|discriminate].
  intros H. injection H as <-. exists ct, ps.
  split; [now apply (ClientFacts.first_candidate_parts r)|]. now split.
Qed.

Lemma agent_loop_conversation (remaining : nat) :
  forall iteration messages,
    let r := agent_loop generate_content call_tool remaining iteration messages in
    exists turns last,
      run_messages r
        = messages ++ List.flat_map (exchange call_tool) turns ++ closing last /\
      List.Forall
        (fun turn => parts (fst turn) = Some (snd turn) /\
                     has_function_calls (snd turn) = true) turns /\
      (List.length turns <= remaining)%nat /\
      match last with
      | Some ct =>
          exists ps, parts ct = Some ps /\ has_function_calls ps = false /\
                     run_outcome r = Returned (final_text ps) /\
                     run_cycles r = (iteration + List.length turns + 1)%nat
      | None =>
          (run_outcome r = Returned ITERATION_LIMIT_MESSAGE /\
           List.length turns = remaining /\
           run_cycles r = (iteration + List.length turns)%nat) \/
          (exists e, run_outcome r = Raised e /\
                     run_cycles r = (iteration + List.length turns + 1)%nat)
      end.
Proof.
  induction remaining as [|k IH]; intros iteration messages; simpl.
  - exists [], None. simpl. rewrite app_nil_r.
    split; [reflexivity|]. split; [constructor|]. split; [lia|].
    left. repeat split. lia.
  - destruct (agent_iteration generate_content call_tool messages)
      as [t m'|e|m'] eqn:E.
    + destruct (ClientFacts.iteration_final _ _ _ _ _ E)
        as [ct [ps [Hp [Hc [-> ->]]]]].
      exists [], (Some ct). simpl.
      split; [reflexivity|]. split; [constructor|]. split; [lia|].
      exists ps. repeat split; try assumption. lia.
    + exists [], None. simpl. rewrite app_nil_r.
      split; [reflexivity|]. split; [constructor|]. split; [lia|].
      right. exists e. split; [reflexivity|]. lia.
    + destruct (iteration_next_turn _ _ E) as [ct [ps [Hp [Hc ->]]]].
      destruct (IH (S iteration) (messages ++ exchange call_tool (ct, ps)))
        as [turns [last [Hm [Hall [Hlen Hlast]]]]].
      exists ((ct, ps) :: turns), last.
      split; [|split; [|split]].
      * rewrite Hm. cbn [List.flat_map]. now rewrite <- !app_assoc.
      * constructor; [now split | exact Hall].
      * simpl List.length. lia.
      * simpl List.length. destruct last as [ct'|].
        -- destruct Hlast as [ps' [H1 [H2 [H3 H4]]]].
           exists ps'. repeat split; try assumption. lia.
        -- destruct Hlast as [[H1 [H2 H3]]|[e [H1 H2]]].
           ++ left. repeat split; try assumption; lia.
           ++ right. exists e. split; [exact H1 | lia].
Qed.

(** X23.  The conversation of a whole run.  It starts with the complaint turn
    and nothing is ever removed from it or changed in it: after the first
    turn come the exchanges, at most twenty, each a model turn that holds at
    least one function call followed by one user turn that holds one
    response part for every function call of that model turn, in their
    order, with the call's name and with the text the call gave (cut to the
    budget) or the error payload of what it raised.  A run that produces a
    report ends with one more model turn, which holds no call and whose
    text is the report; a run that hits the limit has twenty exchanges and
    nothing after them; a run that fails ends after its exchanges.  The
    number of reasoning-service calls is the number of exchanges, plus one
    unless the limit was hit. *)
Theorem conversation_is_complaint_then_exchanges (user_complaint : pystr) :
  let r := run_agent generate_content call_tool user_complaint in
  let opening : pystr := [123; 34; 101; 114; 114; 111; 114; 34; 58; 32; 34]%N in
  let ending : pystr := [34; 125]%N in
  let marker : pystr :=
    [10; 46; 46; 46; 32; 91; 116; 114; 117; 110; 99; 97; 116; 101; 100; 93]%N in
  let answers (fc : function_call) (fr : function_response) : Prop :=
    fr_name fr = fc_name fc /\
    match call_tool (fc_name fc)
            (match fc_args fc with Some a => a | None => [] end) with
    | Raised e =>
        fr_result fr
          = opening ++ List.flat_map json_escape_char (exc_str e) ++ ending
    | Returned items =>
        (Z.of_nat (List.length (List.concat (omap id items))) <= 30000 ->
         fr_result fr = List.concat (omap id items)) /\
        (30000 < Z.of_nat (List.length (List.concat (omap id items))) ->
         fr_result fr
           = firstn (Z.to_nat 30000) (List.concat (omap id items)) ++ marker)
    end in
  let model_turn (turn : content * list part * list function_response) :=
    fst (fst turn) in
  let calls (turn : content * list part * list function_response) :=
    omap part_function_call (snd (fst turn)) in
  let user_turn (turn : content * list part * list function_response) :=
    {| role := "user";
       parts := Some (List.map
                        (fun fr => {| part_text := None;
                                      part_function_call := None;
                                      part_function_response := Some fr |})
                        (snd turn)) |} in
  exists (turns : list (content * list part * list function_response))
         (last : option content),
    run_messages r
      = user_msg user_complaint
          :: List.flat_map (fun turn => [model_turn turn; user_turn turn]) turns
             ++ match last with Some ct => [ct] | None => [] end /\
    List.Forall
      (fun turn => parts (model_turn turn) = Some (snd (fst turn)) /\
                   calls turn <> [] /\
                   Forall2 answers (calls turn) (snd turn)) turns /\
    (List.length turns <= 20)%nat /\
    match last with
    | Some ct =>
        exists ps, parts ct = Some ps /\ omap part_function_call ps = [] /\
                   run_outcome r
                     = Returned (List.concat (omap part_text ps)) /\
                   run_cycles r = (List.length turns + 1)%nat
    | None =>
        (run_outcome r = Returned ITERATION_LIMIT_MESSAGE /\
         List.length turns = 20%nat /\ run_cycles r = 20%nat) \/
        (exists e, run_outcome r = Raised e /\
                   run_cycles r = (List.length turns + 1)%nat)
    end.
Proof.
  intros r opening ending marker answers model_turn calls user_turn.
  destruct (agent_loop_conversation max_iterations 0 [user_msg user_complaint])
    as [turns [last [Hm [Hall [Hlen Hlast]]]]].
  fold (run_agent generate_content call_tool user_complaint) in Hm, Hlast.
  fold r in Hm, Hlast.
  exists (List.map
            (fun turn : content * list part =>
               (turn, List.map (tool_response call_tool)
                        (omap part_function_call (snd turn))))
            turns), last.
  split; [|split; [|split]].
  - rewrite Hm. cbn [app]. f_equal. f_equal.
    clear. induction turns as [|turn turns IH]; [reflexivity|].
    cbn [List.map List.flat_map]. rewrite <- IH.
    unfold exchange, model_turn, user_turn. cbn [fst snd app].
    now rewrite ClientFacts.function_response_parts_form.
  - apply List.Forall_forall. intros turn' Hin. apply in_map_iff in Hin.
    destruct Hin as [turn [<- Hin]].
    rewrite List.Forall_forall in Hall. destruct (Hall turn Hin) as [Hp Hc].
    unfold model_turn, calls. cbn [fst snd].
    split; [exact Hp|]. split.
    + intros Hnil. unfold has_function_calls in Hc.
      apply existsb_exists in Hc. destruct Hc as [p [Hpin Hsome]].
      destruct (part_function_call p) as [fc|] eqn:Efc; [|discriminate].
      assert (Hfc : In fc (omap part_function_call (snd turn))).
      { apply list_elem_of_In, list_elem_of_omap. exists p.
        split; [now apply list_elem_of_In | exact Efc]. }
      rewrite Hnil in Hfc. contradiction.
    + apply ClientFacts.Forall2_map_same. intros fc. unfold answers.
      destruct (ClientFacts.tool_response_form call_tool fc) as [Hname Hres].
      split; [exact Hname|].
      destruct (call_tool _ _) as [items|e].
      * rewrite Hres. exact (ClientFacts.truncate_result_form _).
      * now rewrite Hres, ClientFacts.json_dumps_error_form.
  - rewrite length_map. exact Hlen.
  - rewrite length_map. destruct last as [ct|].
    + destruct Hlast as [ps [H1 [H2 [H3 H4]]]]. exists ps.
      split; [exact H1|]. split.
      * clear - H2. unfold has_function_calls in H2.
        induction ps as [|p ps IH]; [reflexivity|].
        cbn [existsb] in H2. apply orb_false_iff in H2. destruct H2 as [Hp Hps].
        change (omap part_function_call (p :: ps))
          with (match part_function_call p with
                | Some fc => fc :: omap part_function_call ps
                | None => omap part_function_call ps
                end).
        destruct (part_function_call p); [discriminate | now apply IH].
      * split; [|exact H4]. rewrite H3. f_equal.
        clear. unfold final_text. induction ps as [|p ps IH]; [reflexivity|].
        cbn [List.flat_map]. rewrite IH.
        change (omap part_text (p :: ps))
          with (match part_text p with
                | Some t => t :: omap part_text ps
                | None => omap part_text ps
                end).
        now destruct (part_text p).
    + destruct Hlast as [[H1 [H2 H3]]|[e [H1 H2]]].
      * left. unfold max_iterations in H2. repeat split; try assumption.
        rewrite H3, H2. reflexivity.
      * right. exists e. split; assumption.
Qed.

End Conversation.

(** *** The error payload *)

Lemma hex_digit_printable (d : N) : (d < 16)%N -> printable (hex_digit d) = true.
Proof.
  intros H. unfold printable, hex_digit.
  destruct (N.ltb_spec d 10); apply andb_true_iff; split; apply N.leb_le; lia.
Qed.

Lemma backslash_u_printable (n : N) : forallb printable (backslash_u n) = true.
Proof.
  unfold backslash_u, hex4. simpl.
  rewrite !hex_digit_printable; [reflexivity|..]; apply N.mod_lt; discriminate.
Qed.

Lemma backslash_u_length (n : N) : List.length (backslash_u n) = 6%nat.
Proof. reflexivity. Qed.

Lemma escape_char_printable (c : N) : forallb printable (json_escape_char c) = true.
Proof.
  unfold json_escape_char.
  repeat match goal with
  | |- context [if ?b then _ else _] => destruct b eqn:?; [try reflexivity|]
  end.
  - simpl. unfold printable. now rewrite Heqb6.
  - apply backslash_u_printable.
  - rewrite forallb_app, !backslash_u_printable. reflexivity.
Qed.

Lemma escape_char_length (c : N) :
  (1 <= List.length (json_escape_char c) <= 12)%nat.
Proof.
  unfold json_escape_char.
  repeat match goal with
  | |- context [if ?b then _ else _] => destruct b; [simpl; lia|]
  end.
  rewrite length_app, !backslash_u_length. lia.
Qed.

Lemma escaped_printable (s : pystr) :
  forallb printable (List.flat_map json_escape_char s) = true.
Proof.
  induction s as [|c s IH]; [reflexivity|].
  simpl. now rewrite forallb_app, escape_char_printable, IH.
Qed.

Lemma escaped_length (s : pystr) :
  (List.length s <= List.length (List.flat_map json_escape_char s)
   <= 12 * List.length s)%nat.
Proof.
  induction s as [|c s IH]; simpl; [lia|].
  rewrite length_app. pose proof (escape_char_length c). lia.
Qed.

Lemma json_dumps_error_printable (m : pystr) :
  forallb printable (json_dumps_error m) = true.
Proof.
  unfold json_dumps_error, json_dumps_str.
  rewrite !forallb_app, escaped_printable. reflexivity.
Qed.

Lemma json_dumps_error_length (m : pystr) :
  len m + 13 <= len (json_dumps_error m) <= 12 * len m + 13.
Proof.
  unfold json_dumps_error, json_dumps_str, len.
  rewrite !length_app. pose proof (escaped_length m). simpl List.length. lia.
Qed.

(** X24.  What is sent back for a tool call that raises. The payload is made
    of printable ASCII characters only, whatever characters the message of
    the exception has, and it is never shortened: it has at least 13
    characters more than the message (and at most 12 per character of the
    message, plus 13), so that a message of more than 30,003 characters gives
    a payload above the 30,016 characters that bound a result. *)
Theorem error_payload_is_ascii_and_unbounded
    (call_tool : string -> list (string * json) -> outcome exception (list (option pystr)))
    (fc : function_call) (e : exception) :
  call_tool (fc_name fc) (fn_args_of fc) = Raised e ->
  let sent := fr_result (tool_response call_tool fc) in
  List.Forall (fun c => (32 <= c <= 126)%N) sent /\
  len (exc_str e) + 13 <= len sent <= 12 * len (exc_str e) + 13 /\
  (len (exc_str e) > 30003 -> len sent > 30016).
Proof.
  intros Hcall sent.
  assert (Hsent : sent = json_dumps_error (exc_str e)).
  { unfold sent, tool_response. simpl. now rewrite Hcall. }
  rewrite Hsent. pose proof (json_dumps_error_length (exc_str e)) as Hlen.
  split; [|split; [exact Hlen | lia]].
  apply List.Forall_forall. intros c Hc.
  pose proof (json_dumps_error_printable (exc_str e)) as Hall.
  rewrite forallb_forall in Hall. specialize (Hall c Hc).
  unfold printable in Hall. apply andb_true_iff in Hall.
  destruct Hall as [H1 H2]. apply N.leb_le in H1. apply N.leb_le in H2.
  now split.
Qed.

Lemma error_payload_is_ascii_and_unbounded_witness :
  let sent :=
    fr_result (tool_response tool_down
                 {| fc_name := "get_order_by_id"; fc_args := None |}) in
  List.Forall (fun c => (32 <= c <= 126)%N) sent /\
  len (str_of "Connection closed") + 13 <= len sent
    <= 12 * len (str_of "Connection closed") + 13 /\
  (len (str_of "Connection closed") > 30003 -> len sent > 30016).
Proof.
  apply (error_payload_is_ascii_and_unbounded tool_down
           {| fc_name := "get_order_by_id"; fc_args := None |}
           {| exc_class := "McpError"; exc_str := str_of "Connection closed" |}).
  reflexivity.
Defined.

End ConversationFacts.

(** ** Revenue by city and resolution times *)

Module RevenueFacts.

Lemma unique_user_matches (us : list user_row) (k : Z) :
  List.NoDup (List.map u_id us) ->
  List.length (List.filter (fun u => k =? u_id u) us)
  = if existsb (fun u => k =? u_id u) us then 1%nat else 0%nat.
Proof.
  induction us as [|u us IH]; simpl; intros Hnd; [reflexivity|].
  inversion Hnd as [|? ? Hnotin Hnd']; subst.
  destruct (k =? u_id u) eqn:E; simpl.
  - rewrite ListingFacts.filter_none; [reflexivity|].
    intros u' Hu'. apply Z.eqb_neq. intros Heq. apply Hnotin.
    apply Z.eqb_eq in E. rewrite <- E, Heq. now apply in_map.
  - now apply IH.
Qed.

(** With unique user ids the join has one row per order whose user is in
    the table. *)
Lemma join_length_unique (st : store) :
  List.NoDup (List.map u_id (users st)) ->
  Z.of_nat (List.length (orders_join_users st)) = count_where (has_user st) (orders st).
Proof.
  intros Hnd. unfold orders_join_users, count_where.
  induction (orders st) as [|o os IH]; [reflexivity|].
  cbn [List.flat_map List.filter]. rewrite length_app, length_map.
  rewrite (unique_user_matches _ (o_user_id o) Hnd).
  change (has_user st o)
    with (existsb (fun u => o_user_id o =? u_id u) (users st)).
  destruct (existsb (fun u => o_user_id o =? u_id u) (users st));
    simpl List.length; lia.
Qed.

Lemma join_rows (st : store) (ou : order_row * user_row) :
  In ou (orders_join_users st) <->
  In (fst ou) (orders st) /\ In (snd ou) (users st) /\ o_user_id (fst ou) = u_id (snd ou).
Proof.
  unfold orders_join_users. rewrite in_flat_map. split.
  - intros [o [Ho Hin]]. apply in_map_iff in Hin.
    destruct Hin as [u [<- Hu]]. apply filter_In in Hu. simpl.
    destruct Hu as [Hu E]. apply Z.eqb_eq in E. auto.
  - intros [Ho [Hu E]]. exists (fst ou). split; [exact Ho|].
    apply in_map_iff. exists (snd ou). split; [now destruct ou|].
    apply filter_In. split; [exact Hu|]. now apply Z.eqb_eq.
Qed.

(** X25.  What [get_revenue_by_city] counts. Every city of a user with an order
    appears once (a missing city as a city of its own), with at least one
    order, a revenue and an average that are not NULL, and an order count
    that is the number of order-user pairs of that city; the rows are in
    descending order of revenue. An order counts only where a user row with
    its [user_id] exists: when user ids are unique the counts add up to the
    number of orders that have their user in the table, and to the order
    total of [get_dashboard_summary] when every order has. *)
Theorem revenue_by_city_counts_orders_with_users (st : store) :
  let rows := get_revenue_by_city st in
  List.NoDup (List.map cr_city rows) /\
  (forall o u, In o (orders st) -> In u (users st) -> o_user_id o = u_id u ->
     In (u_city u) (List.map cr_city rows)) /\
  (forall r, In r rows ->
     1 <= cr_order_count r /\
     (exists o u, In o (orders st) /\ In u (users st) /\
                  o_user_id o = u_id u /\ u_city u = cr_city r) /\
     cr_order_count r
       = Z.of_nat (List.length
           (List.filter
              (fun ou => if option_string_dec (u_city (snd ou)) (cr_city r)
                         then true else false)
              (orders_join_users st))) /\
     (exists v, cr_total_revenue r = Some v) /\
     (exists a, cr_avg_order_value r = Some a)) /\
  sum_Z (List.map cr_order_count rows)
    = Z.of_nat (List.length (orders_join_users st)) /\
  (List.NoDup (List.map u_id (users st)) ->
     sum_Z (List.map cr_order_count rows) = count_where (has_user st) (orders st) /\
     sum_Z (List.map cr_order_count rows) <= d_orders_total (get_dashboard_summary st) /\
     ((forall o, In o (orders st) -> has_user st o = true) ->
      sum_Z (List.map cr_order_count rows) = d_orders_total (get_dashboard_summary st))) /\
  Sorted (fun x y => q_leb_null (cr_total_revenue y) (cr_total_revenue x) = true) rows.
Proof.
  cbv zeta. unfold get_revenue_by_city, fetch_all.
  set (key := fun ou : order_row * user_row => u_city (snd ou)).
  set (groups := group_rows option_string_dec key (orders_join_users st)).
  set (leb := fun x y : city_revenue =>
                q_leb_null (cr_total_revenue y) (cr_total_revenue x)).
  pose proof (sort_by_perm leb (List.map city_group groups)) as Hperm.
  assert (Hkeys : List.map cr_city (List.map city_group groups)
                  = nodup option_string_dec (List.map key (orders_join_users st))).
  { rewrite List.map_map. unfold city_group. cbn [cr_city].
    apply AggregateFacts.group_rows_keys. }
  assert (Hsum : sum_Z (List.map cr_order_count (sort_by leb (List.map city_group groups)))
                 = Z.of_nat (List.length (orders_join_users st))).
  { rewrite <- (AggregateFacts.sum_Z_perm _ _ (Permutation_map cr_order_count Hperm)).
    unfold groups, group_rows. rewrite !List.map_map. simpl.
    apply AggregateFacts.group_sizes_sum; [apply NoDup_nodup|].
    intros r Hr. apply nodup_In. now apply in_map. }
  split; [|split; [|split; [|split; [|split]]]].
  - apply (Permutation_NoDup (Permutation_map cr_city Hperm)).
    rewrite Hkeys. apply NoDup_nodup.
  - intros o u Ho Hu E.
    apply (Permutation_in _ (Permutation_map cr_city Hperm)).
    rewrite Hkeys. apply nodup_In.
    apply (in_map key _ (o, u)). now apply join_rows.
  - intros r Hr. apply (Permutation_in _ (Permutation_sym Hperm)) in Hr.
    apply in_map_iff in Hr. destruct Hr as [g [<- Hg]].
    destruct (AggregateFacts.group_rows_member _ _ _ _ Hg) as [Hne Hmem].
    unfold groups, group_rows in Hg. apply in_map_iff in Hg.
    destruct Hg as [k [<- _]]. cbn [fst snd] in *.
    unfold city_group. cbn [fst snd cr_order_count cr_total_revenue
      cr_avg_order_value cr_city].
    destruct (List.filter
                (fun r => if option_string_dec (key r) k then true else false)
                (orders_join_users st))
      as [|ou rest] eqn:Efilter; [contradiction|].
    split; [simpl List.length; lia|].
    split.
    { destruct (proj1 (Hmem ou) (or_introl eq_refl)) as [Hin Hk].
      apply join_rows in Hin. destruct Hin as [Ho [Hu E]].
      exists (fst ou), (snd ou). auto. }
    split; [rewrite <- Efilter; reflexivity|].
    split; eexists; reflexivity.
  - exact Hsum.
  - intros Hnd. rewrite Hsum, (join_length_unique st Hnd).
    cbn [get_dashboard_summary d_orders_total].
    split; [reflexivity|]. split.
    + apply AggregateFacts.count_where_le.
    + intros Hall. unfold count_where. f_equal. f_equal.
      induction (orders st) as [|o os IH]; [reflexivity|].
      simpl. rewrite (Hall o (or_introl eq_refl)). f_equal.
      apply IH. intros o' Ho'. apply Hall. now right.
  - apply sort_by_sorted. intros x y. apply PaymentFacts.q_leb_null_flip.
Qed.

Lemma filter_both {A : Type} (f g h : A -> bool) (l : list A) :
  (forall x, g x = h x) ->
  List.filter g (List.filter f l) = List.filter (fun x => f x && h x) l.
Proof.
  intros E. induction l as [|x l IH]; [reflexivity|].
  simpl. destruct (f x); simpl; [|exact IH].
  rewrite E. destruct (h x); [now f_equal | exact IH].
Qed.

Lemma avg_null_iff_min_null (l : list (option Q)) :
  (sql_avg l = None <-> sql_min l = None) /\
  (sql_avg l = None <-> sql_max l = None) /\
  (sql_avg l = None <-> forall v, In v l -> v = None).
Proof.
  assert (Hvals : q_values l = [] <-> forall v, In v l -> v = None).
  { unfold q_values. induction l as [|v l IH]; simpl.
    - split; [intros _ v []|reflexivity].
    - destruct v as [q|]; simpl.
      + split; [discriminate|]. intros H.
        specialize (H (Some q) (or_introl eq_refl)). discriminate.
      + rewrite IH. split.
        * intros H v [<-|Hv]; [reflexivity | now apply H].
        * intros H v Hv. apply H. now right. }
  unfold sql_avg, sql_min, sql_max. fold (q_values l).
  rewrite <- Hvals.
  destruct (q_values l) as [|x r]; split; [| split | | split];
    split; intros H; try reflexivity; try discriminate.
Qed.

(** X26.  What [get_complaint_resolution_time_stats] counts. The resolved count
    of the overall row, the number of detail rows and the sum of the
    per-priority counts are one number: the complaints whose [resolved_at]
    is set. Every detail row is such a complaint, with its category and
    priority and its rounded span; every priority of a resolved complaint
    appears once, with at least one complaint. The average, the minimum and
    the maximum of the overall row are NULL together, exactly when no
    resolved complaint has a span, as when there is none at all. Details and
    priorities are in descending order of hours. *)
Theorem resolution_stats_count_resolved_complaints
    (julianday : string -> option Q) (st : store) :
  let stats := get_complaint_resolution_time_stats julianday st in
  let overall := rs_overall stats in
  let resolved := count_where is_resolved (complaints st) in
  ro_resolved_count overall = resolved /\
  Z.of_nat (List.length (rs_details stats)) = resolved /\
  sum_Z (List.map rp_cnt (rs_by_priority stats)) = resolved /\
  (forall d, In d (rs_details stats) ->
     exists c, In c (complaints st) /\ c_resolved_at c <> None /\
       rd_category d = c_category c /\ rd_priority d = c_priority c /\
       rd_resolution_hours d
         = option_map (sql_round 1) (resolution_span julianday c)) /\
  List.NoDup (List.map rp_priority (rs_by_priority stats)) /\
  (forall c, In c (complaints st) -> c_resolved_at c <> None ->
     In (c_priority c) (List.map rp_priority (rs_by_priority stats))) /\
  (forall row, In row (rs_by_priority stats) ->
     1 <= rp_cnt row /\
     rp_cnt row
       = count_where (fun c => is_resolved c && (c_priority c =? rp_priority row)%string)
           (complaints st)) /\
  (ro_avg_hours overall = None <-> ro_min_hours overall = None) /\
  (ro_avg_hours overall = None <-> ro_max_hours overall = None) /\
  (ro_avg_hours overall = None <->
   forall c, In c (complaints st) -> c_resolved_at c <> None ->
     resolution_span julianday c = None) /\
  Sorted (fun x y => q_leb_null (rd_resolution_hours y) (rd_resolution_hours x) = true)
    (rs_details stats) /\
  Sorted (fun x y => q_leb_null (rp_avg_hours y) (rp_avg_hours x) = true)
    (rs_by_priority stats).
Proof.
  cbv zeta. unfold get_complaint_resolution_time_stats, fetch_all.
  cbn [rs_overall rs_details rs_by_priority ro_resolved_count ro_avg_hours
       ro_min_hours ro_max_hours].
  set (resolved := List.filter is_resolved (complaints st)).
  set (spans := List.map (resolution_span julianday) resolved).
  set (to_detail := fun c : complaint_row =>
         {| rd_category := c_category c; rd_priority := c_priority c;
            rd_resolution_hours :=
              option_map (sql_round 1) (resolution_span julianday c) |}).
  set (to_row := fun g : string * list complaint_row =>
         {| rp_priority := fst g;
            rp_cnt := Z.of_nat (List.length (snd g));
            rp_avg_hours :=
              option_map (sql_round 1)
                (sql_avg (List.map (resolution_span julianday) (snd g))) |}).
  set (groups := group_rows string_dec c_priority resolved).
  set (leb_d := fun x y : resolution_detail =>
                  q_leb_null (rd_resolution_hours y) (rd_resolution_hours x)).
  set (leb_p := fun x y : resolution_by_priority =>
                  q_leb_null (rp_avg_hours y) (rp_avg_hours x)).
  pose proof (sort_by_perm leb_d (List.map to_detail resolved)) as Hpd.
  pose proof (sort_by_perm leb_p (List.map to_row groups)) as Hpp.
  assert (Hres : forall c, In c resolved <-> In c (complaints st) /\ c_resolved_at c <> None).
  { intros c. unfold resolved. rewrite filter_In. unfold is_resolved.
    destruct (c_resolved_at c); split; intros [H1 H2]; split;
      congruence || assumption. }
  assert (Hkeys : List.map rp_priority (List.map to_row groups)
                  = nodup string_dec (List.map c_priority resolved)).
  { rewrite List.map_map. unfold to_row. cbn [rp_priority].
    apply AggregateFacts.group_rows_keys. }
  assert (Hnone : forall o : option Q, option_map (sql_round 1) o = None <-> o = None).
  { intros [q|]; simpl; split; congruence. }
  destruct (avg_null_iff_min_null spans) as [Hmin [Hmax Hall]].
  split; [reflexivity|].
  split; [rewrite AggregateFacts.length_sort_by, length_map; reflexivity|].
  split.
  { rewrite <- (AggregateFacts.sum_Z_perm _ _ (Permutation_map rp_cnt Hpp)).
    unfold groups, group_rows. rewrite !List.map_map. simpl.
    apply AggregateFacts.group_sizes_sum; [apply NoDup_nodup|].
    intros r Hr. apply nodup_In. now apply in_map. }
  split.
  { intros d Hd. apply (Permutation_in _ (Permutation_sym Hpd)) in Hd.
    apply in_map_iff in Hd. destruct Hd as [c [<- Hc]].
    apply Hres in Hc. destruct Hc as [Hc Hr].
    exists c. repeat split; assumption. }
  split.
  { apply (Permutation_NoDup (Permutation_map rp_priority Hpp)).
    rewrite Hkeys. apply NoDup_nodup. }
  split.
  { intros c Hc Hr.
    apply (Permutation_in _ (Permutation_map rp_priority Hpp)).
    rewrite Hkeys. apply nodup_In. apply in_map. apply Hres. now split. }
  split.
  { intros row Hrow. apply (Permutation_in _ (Permutation_sym Hpp)) in Hrow.
    apply in_map_iff in Hrow. destruct Hrow as [g [<- Hg]].
    destruct (AggregateFacts.group_rows_member _ _ _ _ Hg) as [Hne _].
    unfold groups, group_rows in Hg. apply in_map_iff in Hg.
    destruct Hg as [k [<- _]]. cbn [fst snd to_row rp_cnt rp_priority] in *.
    split.
    - destruct (List.filter _ resolved); [contradiction | simpl List.length; lia].
    - unfold count_where, resolved. f_equal. f_equal.
      apply filter_both. intros c.
      destruct (string_dec (c_priority c) k) as [->|Hn].
      + now rewrite String.eqb_refl.
      + apply String.eqb_neq in Hn. now rewrite Hn. }
  split; [now rewrite !Hnone|].
  split; [now rewrite !Hnone|].
  split.
  { rewrite Hnone, Hall. unfold spans. split.
    - intros H c Hc Hr. apply H. apply in_map. apply Hres. now split.
    - intros H v Hv. apply in_map_iff in Hv. destruct Hv as [c [<- Hc]].
      apply Hres in Hc. destruct Hc as [Hc Hr]. now apply H. }
  split; apply sort_by_sorted; intros x y; apply PaymentFacts.q_leb_null_flip.
Qed.

End RevenueFacts.

(** ** The MCP-to-Gemini bridge *)

Module BridgeFacts.
Import Client Bridge.

(** Induction on a JSON value, with the property at hand for the values it
    holds directly. *)
Lemma json_nested_ind (P : json -> Prop) :
  (forall s,
     (forall fields k v, s = JObj fields -> In (k, v) fields -> P v) ->
     (forall l v, s = JList l -> In v l -> P v) ->
     P s) ->
  forall s, P s.
Proof.
  intros H. fix IH 1. intros s.
  destruct s as [|b|n|t|l|fields]; try (apply H; intros; discriminate).
  - assert (Hl : forall v, In v l -> P v).
    { induction l as [|v0 l IHl]; intros v Hin; [contradiction|].
      destruct Hin as [<-|Hin]; [apply IH | exact (IHl v Hin)]. }
    apply H; [intros; discriminate|].
    intros l' v E. injection E as <-. apply Hl.
  - assert (Hf : forall k v, In (k, v) fields -> P v).
    { induction fields as [|[k0 v0] fields IHf]; intros k v Hin; [contradiction|].
      destruct Hin as [E|Hin]; [|exact (IHf k v Hin)].
      injection E as _ <-. apply IH. }
    apply H; [|intros; discriminate].
    intros fields' k v E. injection E as <-. apply Hf.
Qed.

Lemma dict_has_get (key : string) (d : list (string * json)) :
  dict_has key d = false -> dict_get key d = None.
Proof.
  unfold dict_has, dict_get. induction d as [|[k v] d IH]; [reflexivity|].
  cbn [existsb List.find fst]. destruct (k =? key)%string; [discriminate|].
  exact IH.
Qed.

Section CleaningFacts.
Variable clean : json -> outcome exception json.

Lemma clean_props_accepted (props props' : list (string * json)) :
  (forall k p, In (k, p) props ->
     forall p', clean p = Returned p' -> accepted p' = true) ->
  clean_props clean props = Returned props' ->
  forallb (fun kp => accepted (snd kp)) props' = true.
Proof.
  revert props'. induction props as [|[k p] rest IH]; intros props' Hc H; simpl in H.
  - injection H as <-. reflexivity.
  - assert (Hrest : forall rest', clean_props clean rest = Returned rest' ->
                      forallb (fun kp => accepted (snd kp)) rest' = true).
    { intros rest'. apply IH. intros k' p' Hin. apply (Hc k' p'). now right. }
    destruct p as [|b|n|t|l|f];
      try (destruct (clean_props clean rest) as [rest'|e]; [|discriminate];
           injection H as <-; simpl; now apply Hrest).
    destruct (clean (JObj f)) as [p'|e] eqn:Ep; [|discriminate].
    destruct (clean_props clean rest) as [rest'|e]; [|discriminate].
    injection H as <-. simpl.
    rewrite (Hc k (JObj f) (or_introl eq_refl) p' Ep). now apply Hrest.
Qed.

Lemma clean_props_length (props props' : list (string * json)) :
  clean_props clean props = Returned props' ->
  List.map fst props' = List.map fst props.
Proof.
  revert props'. induction props as [|[k p] rest IH]; intros props' H; simpl in H.
  - injection H as <-. reflexivity.
  - destruct (match p with JObj _ => clean p | _ => Returned p end) as [p'|e];
      [|discriminate].
    destruct (clean_props clean rest) as [rest'|e]; [|discriminate].
    injection H as <-. simpl. f_equal. now apply IH.
Qed.

Lemma clean_fields_no_additional (fs fs' : list (string * json)) :
  clean_fields clean fs = Returned fs' ->
  dict_has "additionalProperties" fs' = false.
Proof.
  revert fs'. induction fs as [|[k v] rest IH]; intros fs' H; simpl in H.
  - injection H as <-. reflexivity.
  - destruct (k =? "additionalProperties")%string eqn:Ek; [now apply IH|].
    destruct (if (k =? "properties")%string then _ else _) as [v'|e]; [|discriminate].
    destruct (clean_fields clean rest) as [rest'|e]; [|discriminate].
    injection H as <-. unfold dict_has. simpl. rewrite Ek. simpl.
    now apply IH.
Qed.

Lemma clean_fields_accepted (fs fs' : list (string * json)) :
  (forall k props, In (k, JObj props) fs ->
     forall k' p, In (k', p) props ->
       forall p', clean p = Returned p' -> accepted p' = true) ->
  clean_fields clean fs = Returned fs' ->
  forallb
    (fun kv =>
       if (fst kv =? "properties")%string then
         match snd kv with
         | JObj props => forallb (fun kp => accepted (snd kp)) props
         | _ => true
         end
       else true) fs' = true.
Proof.
  revert fs'. induction fs as [|[k v] rest IH]; intros fs' Hc H; simpl in H.
  - injection H as <-. reflexivity.
  - assert (Hrest : forall k props, In (k, JObj props) rest ->
              forall k' p, In (k', p) props ->
                forall p', clean p = Returned p' -> accepted p' = true).
    { intros k0 props Hin. apply (Hc k0 props). now right. }
    destruct (k =? "additionalProperties")%string; [now apply IH|].
    destruct (k =? "properties")%string eqn:Ep.
    + destruct v as [|b|n|t|l|props]; try discriminate.
      destruct (clean_props clean props) as [props'|e] eqn:Eprops; [|discriminate].
      destruct (clean_fields clean rest) as [rest'|e]; [|discriminate].
      injection H as <-. simpl. rewrite Ep.
      rewrite (clean_props_accepted props props'
                 (Hc k props (or_introl eq_refl)) Eprops).
      now apply IH.
    + destruct (clean_fields clean rest) as [rest'|e]; [|discriminate].
      injection H as <-. simpl. rewrite Ep. now apply IH.
Qed.

Lemma clean_fields_keeps_other (key : string) (fs fs' : list (string * json)) :
  key <> "additionalProperties" -> key <> "properties" ->
  clean_fields clean fs = Returned fs' ->
  dict_get key fs' = dict_get key fs.
Proof.
  intros Ha Hp. revert fs'.
  induction fs as [|[k v] rest IH]; intros fs' H; cbn [clean_fields] in H.
  - injection H as <-. reflexivity.
  - unfold dict_get in *. cbn [List.find fst].
    destruct (String.eqb_spec k "additionalProperties") as [->|Hk].
    + destruct (String.eqb_spec "additionalProperties" key) as [E|_];
        [now subst | now apply IH].
    + destruct (String.eqb_spec k "properties") as [->|Hk'].
      * destruct v as [|b|n|t|l|props]; try discriminate.
        destruct (clean_props clean props) as [props'|e]; [|discriminate].
        destruct (clean_fields clean rest) as [rest'|e]; [|discriminate].
        injection H as <-. cbn [List.find fst].
        destruct (String.eqb_spec "properties" key) as [E|_];
          [now subst | now apply IH].
      * destruct (clean_fields clean rest) as [rest'|e]; [|discriminate].
        injection H as <-. cbn [List.find fst].
        destruct (String.eqb_spec k key); [reflexivity | now apply IH].
Qed.

Lemma clean_fields_properties (fs fs' : list (string * json)) :
  clean_fields clean fs = Returned fs' ->
  match dict_get "properties" fs with
  | None => dict_get "properties" fs' = None
  | Some (JObj props) =>
      exists props', clean_props clean props = Returned props' /\
                     dict_get "properties" fs' = Some (JObj props')
  | Some _ => False
  end.
Proof.
  revert fs'. induction fs as [|[k v] rest IH]; intros fs' H; cbn [clean_fields] in H.
  - injection H as <-. reflexivity.
  - unfold dict_get in *. cbn [List.find fst].
    destruct (String.eqb_spec k "additionalProperties") as [->|Hk].
    + change ("additionalProperties" =? "properties")%string with false.
      now apply IH.
    + destruct (String.eqb_spec k "properties") as [->|Hk'].
      * destruct v as [|b|n|t|l|props]; try discriminate.
        destruct (clean_props clean props) as [props'|e] eqn:Eprops; [|discriminate].
        destruct (clean_fields clean rest) as [rest'|e]; [|discriminate].
        injection H as <-. cbn [List.find fst option_map snd].
        change ("properties" =? "properties")%string with true.
        cbn [option_map snd]. exists props'. split; [exact Eprops | reflexivity].
      * destruct (clean_fields clean rest) as [rest'|e]; [|discriminate].
        injection H as <-. cbn [List.find fst].
        destruct (String.eqb_spec k "properties"); [contradiction|].
        now apply IH.
Qed.

End CleaningFacts.

(** Whatever [_clean_schema] returns has no ["additionalProperties"] left
    on the path through ["properties"]. *)
Lemma clean_schema_accepted (s : json) :
  (forall s', _clean_schema s = Returned s' -> accepted s' = true) /\
  (forall fields k v, s = JObj fields -> In (k, v) fields ->
     forall v', _clean_schema v = Returned v' -> accepted v' = true).
Proof.
  induction s as [s IHobj _] using json_nested_ind.
  assert (Hchildren : forall fields k v, s = JObj fields -> In (k, v) fields ->
            forall v', _clean_schema v = Returned v' -> accepted v' = true).
  { intros fields k v E Hin. exact (proj1 (IHobj fields k v E Hin)). }
  split; [|exact Hchildren].
  destruct s as [|b|n|t|l|fields]; try (intros s' H; injection H as <-; reflexivity).
  intros s' H. simpl in H.
  destruct (clean_fields _clean_schema fields) as [fields'|e] eqn:E; [|discriminate].
  injection H as <-. simpl.
  rewrite (clean_fields_no_additional _ _ _ E). simpl.
  apply (clean_fields_accepted _clean_schema fields fields'); [|exact E].
  intros k props Hin k' p Hp.
  exact (proj2 (IHobj fields k (JObj props) eq_refl Hin) props k' p eq_refl Hp).
Qed.

(** X27.  The declaration handed to the reasoning service. When
    [mcp_tool_to_gemini_declaration] returns, the declaration carries the
    tool's name; its parameters are absent exactly when the input schema has
    no property (no ["properties"] key, or an empty dict under it);
    otherwise they are the input schema with every ["additionalProperties"]
    removed that sits on the schema itself or on a property schema, at any
    depth of nesting through ["properties"], and with the same property
    names. Every other key of the schema keeps its value untouched, so
    that what is nested under a key such as ["items"] is not cleaned. *)
Theorem declaration_parameters_are_cleaned (tool : mcp_tool) (d : declaration) :
  mcp_tool_to_gemini_declaration tool = Returned d ->
  decl_name d = mt_name tool /\
  (decl_parameters d = None <->
   dict_get "properties" (mt_inputSchema tool) = None \/
   dict_get "properties" (mt_inputSchema tool) = Some (JObj [])) /\
  (forall s, decl_parameters d = Some s ->
     accepted s = true /\
     exists fields props props',
       s = JObj fields /\
       dict_get "properties" (mt_inputSchema tool) = Some (JObj props) /\
       dict_get "properties" fields = Some (JObj props') /\
       List.map fst props' = List.map fst props /\ props <> [] /\
       dict_get "additionalProperties" fields = None /\
       forall key, key <> "additionalProperties" -> key <> "properties" ->
         dict_get key fields = dict_get key (mt_inputSchema tool)).
Proof.
  unfold mcp_tool_to_gemini_declaration.
  destruct (_clean_schema (JObj (mt_inputSchema tool))) as [schema|e] eqn:E;
    [|discriminate].
  intros H. injection H as <-. cbn [decl_name decl_parameters].
  pose proof (proj1 (clean_schema_accepted _) _ E) as Hacc.
  simpl in E.
  destruct (clean_fields _clean_schema (mt_inputSchema tool)) as [fields|e] eqn:Ef;
    [|discriminate].
  injection E as <-.
  pose proof (clean_fields_properties _ _ _ Ef) as Hprops.
  split; [reflexivity|].
  destruct (dict_get "properties" (mt_inputSchema tool)) as [v|] eqn:Eget.
  - destruct v as [|b|n|t|l|props]; try contradiction.
    destruct Hprops as [props' [Hclean Hget']]. rewrite Hget'.
    pose proof (clean_props_length _ _ _ Hclean) as Hkeys.
    destruct props as [|kp props].
    + destruct props' as [|kp' props']; [|discriminate]. simpl.
      split; [split; [auto | reflexivity]|]. discriminate.
    + destruct props' as [|kp' props']; [discriminate|]. simpl.
      split.
      * split; [discriminate|]. intros [H|H]; discriminate.
      * intros s Hs. injection Hs as <-. split; [exact Hacc|].
        exists fields, (kp :: props), (kp' :: props').
        split; [reflexivity|]. split; [reflexivity|]. split; [exact Hget'|].
        split; [exact Hkeys|]. split; [discriminate|]. split.
        -- apply dict_has_get. apply (clean_fields_no_additional _ _ _ Ef).
        -- intros key Ha Hp. now apply (clean_fields_keeps_other _clean_schema).
  - rewrite Hprops. split; [split; auto|]. discriminate.
Qed.

Lemma declaration_parameters_are_cleaned_witness :
  mcp_tool_to_gemini_declaration tagged_lookup = Returned tagged_lookup_declaration /\
  forall s, decl_parameters tagged_lookup_declaration = Some s -> accepted s = true.
Proof.
  split; [reflexivity|]. intros s Hs.
  exact (proj1 (proj2 (proj2
           (declaration_parameters_are_cleaned tagged_lookup
              tagged_lookup_declaration eq_refl)) s Hs)).
Defined.

End BridgeFacts.
